(** * news-api front end: the fetch-news / download-PDF handler and the login handler

    A shallow embedding of the two browser-side event handlers of the
    repository (the fetch-news click handler with its nested download
    handler, and [static/js/login.js]) together with the properties of
    their specification.

    The handlers are glue code over platform services: [JSON.parse],
    [fetch], the [Response] body mixin, [Date] and the DOM, with the
    HTML parser behind [innerHTML].  The pieces of the platform whose
    result is fixed by ECMAScript, by the Fetch standard or by HTML are
    modelled directly; what is left to the engine (the JSON reader
    itself, number printing, the wording of built-in error messages) is
    a field of the class [Engine], and every theorem holds for every
    engine. *)

From Stdlib Require Import ZArith List String Ascii Bool Lia Btauto SpecFloat DecimalString.
Import ListNotations.
Open Scope string_scope.
Open Scope Z_scope.



(** ** Characters that cannot be written inside a string literal *)

Definition dq : string := String "034"%char EmptyString.
Definition nl : string := String "010"%char EmptyString.

Fixpoint spaces (n : nat) : string :=
  match n with
  | O => EmptyString
  | S k => String " "%char (spaces k)
  end.

(** ** Errors and completions *)

(** A thrown value.  Every value thrown in these handlers is an [Error]
    object (or a [DOMException]); only [name] and [message] are read. *)
Record JsError : Type := mkError { err_name : string; err_message : string }.

Inductive completion (A : Type) : Type :=
| Normal (a : A)
| Throw (e : JsError).
Arguments Normal {A} a.
Arguments Throw {A} e.

Definition cbind {A B} (c : completion A) (k : A -> completion B) : completion B :=
  match c with
  | Normal a => k a
  | Throw e => Throw e
  end.

Notation "'let!' x ':=' c 'in' k" := (cbind c (fun x => k))
  (at level 10, x name, c at level 100, k at level 200).

Definition TypeError (msg : string) : JsError := mkError "TypeError" msg.
Definition SyntaxError (msg : string) : JsError := mkError "SyntaxError" msg.
(** [new Error(msg)] *)
Definition Error (msg : string) : JsError := mkError "Error" msg.

(** ** Values produced by [JSON.parse]

    Numbers are IEEE doubles ([spec_float]); an object is the list of
    its own properties, looked up by the first entry with the key. *)
#[warnings="-register-all"]
Inductive jsval : Type :=
| JUndefined
| JNull
| JBool (b : bool)
| JNum (n : spec_float)
| JStr (s : string)
| JArr (l : list jsval)
| JObj (props : list (string * jsval)).

Fixpoint own_property (k : string) (props : list (string * jsval)) : option jsval :=
  match props with
  | [] => None
  | (k', v) :: rest => if String.eqb k k' then Some v else own_property k rest
  end.

(** ToBoolean *)
Definition truthy (v : jsval) : bool :=
  match v with
  | JUndefined | JNull => false
  | JBool b => b
  | JNum (S754_zero _) | JNum S754_nan => false
  | JNum _ => true
  | JStr s => negb (String.eqb s "")
  | JArr _ | JObj _ => true
  end.

Definition nullish (v : jsval) : bool :=
  match v with
  | JUndefined | JNull => true
  | _ => false
  end.

(** [a || b] on values. *)
Definition js_or (a b : jsval) : jsval := if truthy a then a else b.

(** The number value of a length. *)
Definition num_of_nat (n : nat) : spec_float :=
  match n with
  | O => S754_zero false
  | S _ => S754_finite false (Pos.of_nat n) 0
  end.

(** [v === 0] *)
Definition strict_eq_zero (v : jsval) : bool :=
  match v with
  | JNum (S754_zero _) => true
  | _ => false
  end.

(** ** The engine *)

Class Engine : Type := {
  (** [JSON.parse(text)]: the value, or the message of the SyntaxError. *)
  JSON_parse : string -> jsval + string;
  (** Number::toString *)
  Number_toString : spec_float -> string;
  (** message of the TypeError for reading property [k] of [null] or [undefined] *)
  msg_read_nullish : jsval -> string -> string;
  (** message of the TypeError for calling a method that is not a function *)
  msg_not_function : string -> string;
  (** message of the TypeError of OrdinaryToPrimitive *)
  msg_to_primitive : string;
  (** message of the TypeError for consuming a body a second time *)
  msg_body_used : string -> string
}.

Section Language.
Context {engine : Engine}.

Definition JSON_parse_c (text : string) : completion jsval :=
  match JSON_parse text with
  | inl v => Normal v
  | inr msg => Throw (SyntaxError msg)
  end.

(** [v.k] for the property names the handlers read.  None of them is
    defined on a built-in prototype except [length] of arrays and
    strings, so on a parsed value the read yields the own property or
    [undefined]; on [null] and [undefined] it throws. *)
Definition Get (v : jsval) (k : string) : completion jsval :=
  match v with
  | JUndefined | JNull => Throw (TypeError (msg_read_nullish v k))
  | JObj props =>
      match own_property k props with
      | Some x => Normal x
      | None => Normal JUndefined
      end
  | JArr l =>
      if String.eqb k "length" then Normal (JNum (num_of_nat (List.length l)))
      else Normal JUndefined
  | JStr s =>
      if String.eqb k "length" then Normal (JNum (num_of_nat (String.length s)))
      else Normal JUndefined
  | JBool _ | JNum _ => Normal JUndefined
  end.

(** [v?.k] *)
Definition GetOpt (v : jsval) (k : string) : completion jsval :=
  if nullish v then Normal JUndefined else Get v k.

(** ToString.  An array joins its elements with a comma, [null] and
    [undefined] elements printing as the empty string.  A parsed object
    prints as [[object Object]] through [Object.prototype.toString],
    unless it carries an own [toString] property: that one is data, not
    a function, [valueOf] does not produce a primitive either, and the
    conversion throws. *)
Fixpoint ToString (v : jsval) : completion string :=
  match v with
  | JUndefined => Normal "undefined"
  | JNull => Normal "null"
  | JBool true => Normal "true"
  | JBool false => Normal "false"
  | JNum n => Normal (Number_toString n)
  | JStr s => Normal s
  | JArr l =>
      (fix join (l : list jsval) : completion string :=
         match l with
         | [] => Normal ""
         | x :: rest =>
             let! s := (if nullish x then Normal "" else ToString x) in
             match rest with
             | [] => Normal s
             | _ => let! r := join rest in Normal (s ++ "," ++ r)
             end
         end) l
  | JObj props =>
      match own_property "toString" props with
      | Some _ => Throw (TypeError msg_to_primitive)
      | None => Normal "[object Object]"
      end
  end.

End Language.

(** ** Dates

    Time values are milliseconds since the epoch; [None] is the time
    value [NaN] of an invalid date.  The abstract operations are those
    of ECMAScript (Day Number and Time within Day, MakeTime, MakeDay,
    MakeDate, TimeClip). *)
Module JsDate.

Definition msPerDay : Z := 86400000.
Definition msPerHour : Z := 3600000.
Definition msPerMinute : Z := 60000.
Definition msPerSecond : Z := 1000.

Definition InLeapYear (y : Z) : bool :=
  ((y mod 4 =? 0) && negb (y mod 100 =? 0)) || (y mod 400 =? 0).

Definition DayFromYear (y : Z) : Z :=
  365 * (y - 1970) + (y - 1969) / 4 - (y - 1901) / 100 + (y - 1601) / 400.

(** Days of the year before the first of month [m] (0 = January). *)
Definition DaysBeforeMonth (leap : bool) (m : Z) : Z :=
  let l := if leap then 1 else 0 in
  match m with
  | 0 => 0
  | 1 => 31
  | 2 => 59 + l
  | 3 => 90 + l
  | 4 => 120 + l
  | 5 => 151 + l
  | 6 => 181 + l
  | 7 => 212 + l
  | 8 => 243 + l
  | 9 => 273 + l
  | 10 => 304 + l
  | _ => 334 + l
  end.

Definition MakeTime (hour min sec ms : Z) : Z :=
  hour * msPerHour + min * msPerMinute + sec * msPerSecond + ms.

Definition MakeDay (year month date : Z) : Z :=
  let ym := year + month / 12 in
  let mn := month mod 12 in
  DayFromYear ym + DaysBeforeMonth (InLeapYear ym) mn + date - 1.

Definition MakeDate (day time : Z) : Z := day * msPerDay + time.

Definition TimeClip (t : Z) : option Z :=
  if Z.abs t <=? 8640000000000000 then Some t else None.

Definition is_digit (c : ascii) : bool :=
  ((48 <=? nat_of_ascii c) && (nat_of_ascii c <=? 57))%nat.

Definition digit_value (c : ascii) : Z := Z.of_nat (nat_of_ascii c) - 48.

Fixpoint digits_from (acc : Z) (s : string) : option Z :=
  match s with
  | EmptyString => Some acc
  | String c rest =>
      if is_digit c then digits_from (10 * acc + digit_value c) rest else None
  end.

(** The value of a non-empty run of decimal digits. *)
Definition digits (s : string) : option Z :=
  match s with
  | EmptyString => None
  | _ => digits_from 0 s
  end.

Definition char_is (s : string) (i : nat) (c : ascii) : bool :=
  match String.get i s with
  | Some c' => Ascii.eqb c c'
  | None => false
  end.

(** [YYYY-MM-DD]: year, month and day.  The month is 01 to 12 and the
    day 01 to 31. *)
Definition date_fields (s : string) : option (Z * Z * Z) :=
  if negb (String.length s =? 10)%nat then None else
  if negb (char_is s 4 "-" && char_is s 7 "-") then None else
  match digits (substring 0 4 s), digits (substring 5 2 s), digits (substring 8 2 s) with
  | Some y, Some m, Some d =>
      if (1 <=? m) && (m <=? 12) && (1 <=? d) && (d <=? 31) then Some (y, m, d) else None
  | _, _, _ => None
  end.

(** The day number of a date.  A day beyond the length of its month
    (30 February) is carried into the next month by MakeDay, as V8 and
    JavaScriptCore do; an engine may also take such a string for an
    invalid date. *)
Definition parse_date_part (s : string) : option Z :=
  match date_fields s with
  | Some (y, m, d) => Some (MakeDay y (m - 1) d)
  | None => None
  end.

(** [THH:mm:ss+HH:mm] or [THH:mm:ss-HH:mm]: the time within the day as
    UTC, that is the local time less the offset. *)
Definition parse_time_part (s : string) : option Z :=
  if negb (String.length s =? 15)%nat then None else
  if negb (char_is s 0 "T" && char_is s 3 ":" && char_is s 6 ":" && char_is s 12 ":")
  then None else
  match digits (substring 1 2 s), digits (substring 4 2 s), digits (substring 7 2 s),
        digits (substring 10 2 s), digits (substring 13 2 s) with
  | Some h, Some mi, Some sec, Some oh, Some om =>
      if (h <=? 23) && (mi <=? 59) && (sec <=? 59) && (oh <=? 23) && (om <=? 59) then
        let local := MakeTime h mi sec 0 in
        let offset := oh * msPerHour + om * msPerMinute in
        if char_is s 9 "+" then Some (local - offset)
        else if char_is s 9 "-" then Some (local + offset)
        else None
      else None
  | _, _, _, _, _ => None
  end.

(** [Date.parse] on the complete form with seconds and a numeric
    offset, [YYYY-MM-DDTHH:mm:ss+HH:mm], the only form the handler
    builds. *)
Definition parse (s : string) : option Z :=
  match parse_date_part (substring 0 10 s),
        parse_time_part (substring 10 (String.length s - 10) s) with
  | Some day, Some time => TimeClip (MakeDate day time)
  | _, _ => None
  end.

(** [a > b] on two dates, [b] valid: the comparison of the time values,
    false when [a] is invalid. *)
Definition gt (a : option Z) (b : Z) : bool :=
  match a with
  | Some t => b <? t
  | None => false
  end.

End JsDate.

(** ** The regular expression of the date check *)

Inductive atom : Type :=
| Digit                (* \d *)
| Lit (c : ascii).

Definition atom_matches (a : atom) (c : ascii) : bool :=
  match a with
  | Digit => JsDate.is_digit c
  | Lit c' => Ascii.eqb c' c
  end.

(** A sequence of atoms anchored at both ends. *)
Fixpoint regex_test (pattern : list atom) (s : string) : bool :=
  match pattern, s with
  | [], EmptyString => true
  | a :: pattern', String c s' => atom_matches a c && regex_test pattern' s'
  | _, _ => false
  end.

(** /^\d{4}-\d{2}-\d{2}$/ *)
Definition dateRegex : list atom :=
  repeat Digit 4 ++ [Lit "-"] ++ repeat Digit 2 ++ [Lit "-"] ++ repeat Digit 2.

(** ** The Fetch API *)

(** What reading a body to its end yields: its text, or the failure of
    the stream. *)
Inductive BodyStream : Type :=
| BodyText (text : string)
| BodyBroken (e : JsError).

(** A [Response] object.  [body] is [None] for a null body; [disturbed]
    records that the body stream has been read. *)
Record Response : Type := mkResponse {
  status : Z;
  body : option BodyStream;
  disturbed : bool
}.

Record Blob : Type := mkBlob { blob_data : string }.

(** The settlement of the promise returned by [fetch]. *)
Inductive FetchOutcome : Type :=
| Rejects (e : JsError)
| Resolves (status : Z) (body : option BodyStream).

Record Request : Type := mkRequest {
  req_url : string;
  req_method : string;
  req_headers : list (string * string);
  (** the value handed to [JSON.stringify] for the body *)
  req_payload : jsval;
  (** [AbortSignal.timeout], in milliseconds *)
  req_timeout : option Z
}.

(** A status in the range 200 to 299. *)
Definition ok_status (st : Z) : bool := (200 <=? st) && (st <=? 299).

(** [response.ok] *)
Definition ok (r : Response) : bool := ok_status (status r).

(** A body is unusable when it is non-null and its stream is disturbed. *)
Definition unusable (r : Response) : bool :=
  match body r with
  | Some _ => disturbed r
  | None => false
  end.

Definition disturb (r : Response) : Response :=
  mkResponse (status r) (body r) true.

Section BodyMixin.
Context {engine : Engine}.

(** The "consume body" algorithm: rejects on an unusable body, otherwise
    reads the stream to its end.  A null body reads as empty. *)
Definition consume_body (method : string) (r : Response) : completion string * Response :=
  if unusable r then (Throw (TypeError (msg_body_used method)), r)
  else
    match body r with
    | None => (Normal "", r)
    | Some (BodyText t) => (Normal t, disturb r)
    | Some (BodyBroken e) => (Throw e, disturb r)
    end.

(** [response.text()] *)
Definition Response_text (r : Response) : completion string * Response :=
  consume_body "text" r.

(** [response.blob()] *)
Definition Response_blob (r : Response) : completion Blob * Response :=
  let '(c, r') := consume_body "blob" r in
  (cbind c (fun bytes => Normal (mkBlob bytes)), r').

(** [response.json()] *)
Definition Response_json (r : Response) : completion jsval * Response :=
  let '(c, r') := consume_body "json" r in
  (cbind c JSON_parse_c, r').

End BodyMixin.

(** ** The page and the browser around it *)

(** The closure bound to the download button: the variables of the
    enclosing invocation that the function reads. *)
Record PdfAction : Type := mkPdfAction {
  pdf_articles : jsval;       (* result.articles *)
  pdf_district : string;
  pdf_date : string
}.

(** An object URL, by its rank among those the page has created. *)
Abbreviation ObjectURL := nat (only parsing).

(** An [a] element with the two attributes the handler sets. *)
Record Anchor : Type := mkAnchor { href : ObjectURL; download : string }.

Inductive LogEntry : Type :=
| Log (label : string) (arg : jsval)
| LogError (label : string) (e : JsError).

Record World : Type := mkWorld {
  district_value : string;              (* #district .value *)
  date_value : string;                  (* #date .value *)
  status_text : string;                 (* #error-message .textContent *)
  news_rows : list string;              (* children of #news-body: the markup assigned to
                                           the innerHTML of each, see [table_rows] *)
  download_display : string;            (* #download-pdf .style.display *)
  download_onclick : option PdfAction;  (* #download-pdf .onclick *)
  requests : list Request;              (* requests issued, oldest first *)
  console : list LogEntry;
  body_children : list Anchor;          (* elements appended to document.body *)
  object_urls : list (ObjectURL * Blob); (* live object URLs *)
  minted : nat;                         (* object URLs created so far *)
  downloads : list (string * Blob)      (* downloads started: file name, content *)
}.

Definition set_status_text (s : string) (w : World) : World :=
  mkWorld (district_value w) (date_value w) s (news_rows w) (download_display w)
    (download_onclick w) (requests w) (console w) (body_children w) (object_urls w)
    (minted w) (downloads w).

Definition set_news_rows (rows : list string) (w : World) : World :=
  mkWorld (district_value w) (date_value w) (status_text w) rows (download_display w)
    (download_onclick w) (requests w) (console w) (body_children w) (object_urls w)
    (minted w) (downloads w).

Definition set_download_display (d : string) (w : World) : World :=
  mkWorld (district_value w) (date_value w) (status_text w) (news_rows w) d
    (download_onclick w) (requests w) (console w) (body_children w) (object_urls w)
    (minted w) (downloads w).

Definition set_download_onclick (f : option PdfAction) (w : World) : World :=
  mkWorld (district_value w) (date_value w) (status_text w) (news_rows w) (download_display w)
    f (requests w) (console w) (body_children w) (object_urls w)
    (minted w) (downloads w).

Definition set_requests (rs : list Request) (w : World) : World :=
  mkWorld (district_value w) (date_value w) (status_text w) (news_rows w) (download_display w)
    (download_onclick w) rs (console w) (body_children w) (object_urls w)
    (minted w) (downloads w).

Definition set_console (c : list LogEntry) (w : World) : World :=
  mkWorld (district_value w) (date_value w) (status_text w) (news_rows w) (download_display w)
    (download_onclick w) (requests w) c (body_children w) (object_urls w)
    (minted w) (downloads w).

Definition set_body_children (l : list Anchor) (w : World) : World :=
  mkWorld (district_value w) (date_value w) (status_text w) (news_rows w) (download_display w)
    (download_onclick w) (requests w) (console w) l (object_urls w)
    (minted w) (downloads w).

Definition set_object_urls (l : list (ObjectURL * Blob)) (n : nat) (w : World) : World :=
  mkWorld (district_value w) (date_value w) (status_text w) (news_rows w) (download_display w)
    (download_onclick w) (requests w) (console w) (body_children w) l n (downloads w).

Definition set_downloads (l : list (string * Blob)) (w : World) : World :=
  mkWorld (district_value w) (date_value w) (status_text w) (news_rows w) (download_display w)
    (download_onclick w) (requests w) (console w) (body_children w) (object_urls w)
    (minted w) l.

(** ** Statements: state and exceptions

    A statement runs in a state and leaves a state, also when it
    throws: what it wrote before throwing stays written. *)
Definition Stmt (S A : Type) : Type := S -> S * completion A.

Definition ret {S A} (a : A) : Stmt S A := fun w => (w, Normal a).

Definition bind {S A B} (m : Stmt S A) (k : A -> Stmt S B) : Stmt S B :=
  fun w =>
    match m w with
    | (w', Normal a) => k a w'
    | (w', Throw e) => (w', Throw e)
    end.

Definition throw {S A} (e : JsError) : Stmt S A := fun w => (w, Throw e).

(** [try { m } catch (e) { handler e }] *)
Definition try_catch {S A} (m : Stmt S A) (handler : JsError -> Stmt S A) : Stmt S A :=
  fun w =>
    match m w with
    | (w', Normal a) => (w', Normal a)
    | (w', Throw e) => handler e w'
    end.

(** An expression evaluated for its completion. *)
Definition eval {S A} (c : completion A) : Stmt S A := fun w => (w, c).

Definition modify {S} (f : S -> S) : Stmt S unit := fun w => (f w, Normal tt).
Definition gets {S A} (f : S -> A) : Stmt S A := fun w => (w, Normal (f w)).

(** [xs.forEach(body)] on the elements of an array *)
Fixpoint for_each {S A} (xs : list A) (body : A -> Stmt S unit) : Stmt S unit :=
  match xs with
  | [] => ret tt
  | x :: rest => bind (body x) (fun _ => for_each rest body)
  end.

Declare Scope js_scope.
Delimit Scope js_scope with js.
Notation "x <- m ;; k" := (bind m (fun x => k))
  (at level 61, m at next level, right associativity) : js_scope.
Notation "m ;; k" := (bind m (fun _ => k))
  (at level 61, right associativity) : js_scope.

Definition Js : Type -> Type := Stmt World.

(** ** DOM and browser operations of the news page *)

(** [errorMessage.textContent = s] *)
Definition set_status (s : string) : Js unit := modify (set_status_text s).

(** [newsBody.innerHTML = ''] *)
Definition clear_rows : Js unit := modify (set_news_rows []).

(** [row.innerHTML = html; newsBody.appendChild(row)].  The row is
    recorded by the markup assigned to it; the cells that the browser
    builds from the markup are [Html.cells html]. *)
Definition append_row (html : string) : Js unit :=
  modify (fun w => set_news_rows (news_rows w ++ [html]) w).

(** [downloadButton.style.display = d] *)
Definition set_display (d : string) : Js unit := modify (set_download_display d).

(** [downloadButton.onclick = f] *)
Definition set_onclick (f : PdfAction) : Js unit := modify (set_download_onclick (Some f)).

Definition console_log (label : string) (arg : jsval) : Js unit :=
  modify (fun w => set_console (console w ++ [Log label arg]) w).

Definition console_error (label : string) (e : JsError) : Js unit :=
  modify (fun w => set_console (console w ++ [LogError label e]) w).

(** [fetch(url, {method: 'POST', headers: {'Content-Type':
    'application/json'}, body: JSON.stringify(payload), signal:
    AbortSignal.timeout(15000)})]: the request goes out, and the
    promise settles as [net] says. *)
Definition fetch (url : string) (payload : jsval) (timeout : option Z)
    (net : FetchOutcome) : Js Response :=
  fun w =>
    let request := mkRequest url "POST" [("Content-Type", "application/json")] payload timeout in
    let w' := set_requests (requests w ++ [request]) w in
    match net with
    | Rejects e => (w', Throw e)
    | Resolves st b => (w', Normal (mkResponse st b false))
    end.

(** [window.URL.createObjectURL(blob)]: a URL not handed out before. *)
Definition createObjectURL (blob : Blob) : Js ObjectURL :=
  fun w =>
    let url := minted w in
    (set_object_urls (object_urls w ++ [(url, blob)]) (S (minted w)) w, Normal url).

(** [window.URL.revokeObjectURL(url)] *)
Definition revokeObjectURL (url : ObjectURL) : Js unit :=
  modify (fun w =>
    set_object_urls (filter (fun e => negb (Nat.eqb (fst e) url)) (object_urls w))
      (minted w) w).

(** [document.body.appendChild(a)] *)
Definition appendChild (a : Anchor) : Js unit :=
  modify (fun w => set_body_children (body_children w ++ [a]) w).

Definition anchor_eqb (a b : Anchor) : bool :=
  Nat.eqb (href a) (href b) && String.eqb (download a) (download b).

Fixpoint remove_first (a : Anchor) (l : list Anchor) : list Anchor :=
  match l with
  | [] => []
  | b :: rest => if anchor_eqb a b then rest else b :: remove_first a rest
  end.

(** [document.body.removeChild(a)] *)
Definition removeChild (a : Anchor) : Js unit :=
  modify (fun w => set_body_children (rev (remove_first a (rev (body_children w)))) w).

Fixpoint resolve_url (url : ObjectURL) (l : list (ObjectURL * Blob)) : option Blob :=
  match l with
  | [] => None
  | (u, b) :: rest => if Nat.eqb u url then Some b else resolve_url url rest
  end.

(** [a.click()] on an anchor with a [download] attribute: the resource
    behind a live object URL is saved under the suggested name. *)
Definition click (a : Anchor) : Js unit :=
  modify (fun w =>
    match resolve_url (href a) (object_urls w) with
    | Some blob => set_downloads (downloads w ++ [(download a, blob)]) w
    | None => w
    end).

(** ** The fetch-news handler *)

Section NewsRequestController.
Context {engine : Engine}.
Open Scope js_scope.

(** The receiver of [forEach] or [map]: the elements when the value is
    an array; any other parsed value has no such method. *)
Definition array_elements (callee : string) (v : jsval) : completion (list jsval) :=
  match v with
  | JArr l => Normal l
  | JUndefined | JNull => Throw (TypeError (msg_read_nullish v callee))
  | _ => Throw (TypeError (msg_not_function callee))
  end.

Fixpoint map_c {A B} (f : A -> completion B) (l : list A) : completion (list B) :=
  match l with
  | [] => Normal []
  | x :: rest =>
      let! y := f x in
      let! ys := map_c f rest in
      Normal (y :: ys)
  end.

(** [`${a || fallback}`] *)
Definition text_or (a : jsval) (fallback : string) : completion string :=
  ToString (js_or a (JStr fallback)).

(** The arrow function of line 91-93: one related article as markup. *)
Definition render_related (rel : jsval) : completion string :=
  let! url := Get rel "url" in
  let! url_s := text_or url "#" in
  let! title := Get rel "title" in
  let! title_s := text_or title "No Title" in
  let! source := Get rel "source" in
  let! name := GetOpt source "name" in
  let! name_s := text_or name "Unknown Source" in
  let! published := Get rel "publishedAt" in
  let! published_s := text_or published "Unknown Date" in
  Normal ("<div><a href=" ++ dq ++ url_s ++ dq ++ " target=" ++ dq ++ "_blank" ++ dq ++ ">"
          ++ title_s ++ "</a> (" ++ name_s ++ ", " ++ published_s ++ ")</div>").

(** Lines 89-101: the [innerHTML] of the row of one article. *)
Definition render_row (article : jsval) : completion string :=
  let! source := Get article "source" in
  let! name := GetOpt source "name" in
  let sourceName := js_or name (JStr "Unknown Source") in
  let! published := Get article "publishedAt" in
  let publishedAt := js_or published (JStr "Unknown Date") in
  let! related := Get article "related_articles" in
  let! rels := array_elements "(article.related_articles || []).map"
                 (js_or related (JArr [])) in
  let! divs := map_c render_related rels in
  let relatedArticles := String.concat "" divs in
  let! url := Get article "url" in
  let! url_s := text_or url "#" in
  let! title := Get article "title" in
  let! title_s := text_or title "No Title" in
  let! category := Get article "category" in
  let! category_s := text_or category "Unknown" in
  let! source_s := ToString sourceName in
  let! published_s := ToString publishedAt in
  let related_s := if String.eqb relatedArticles "" then "None" else relatedArticles in
  Normal (nl ++ spaces 16 ++ "<td><a href=" ++ dq ++ url_s ++ dq ++ " target=" ++ dq
          ++ "_blank" ++ dq ++ ">" ++ title_s ++ "</a></td>"
          ++ nl ++ spaces 16 ++ "<td>" ++ category_s ++ "</td>"
          ++ nl ++ spaces 16 ++ "<td>" ++ source_s ++ "</td>"
          ++ nl ++ spaces 16 ++ "<td>" ++ published_s ++ "</td>"
          ++ nl ++ spaces 16 ++ "<td>" ++ related_s ++ "</td>"
          ++ nl ++ spaces 12).

Definition msg_fetch_failed : string := "Failed to fetch news. Please try again later.".
Definition msg_pdf_failed : string := "Failed to generate PDF. Please try again later.".
Definition msg_timeout : string :=
  "Request timed out. Please check your internet connection or try again later.".
Definition msg_no_articles : string :=
  "No articles found for the selected district and date.".
Definition msg_mock (district : string) : string :=
  "No real articles found for " ++ district
  ++ ". Displaying sample data. Please verify your Currents API key in .env (get a free key at https://currentsapi.services/en).".

(** Lines 44-50 and 120-126: the body read as text, with its
    placeholder when the read fails. *)
Definition read_body_text (label : string) (read : completion string) : Js string :=
  try_catch
    (t <- eval read ;;
     console_log label (JStr t) ;;
     ret t)
    (fun _ => ret "No response body").

(** Lines 128-139: a PDF response with a failure status. *)
Definition handle_pdf_failure (pdfErrorText : string) : Js unit :=
  userMessage <-
    try_catch
      (pdfError <- eval (JSON_parse_c pdfErrorText) ;;
       e <- eval (Get pdfError "error") ;;
       if truthy e then
         s <- eval (ToString e) ;;
         ret ("PDF generation failed: " ++ s)
       else ret msg_pdf_failed)
      (fun _ => ret msg_pdf_failed) ;;
  throw (Error userMessage).

(** Lines 141-150: a PDF response with a success status. *)
Definition save_pdf (pdfResponse : Response) (district date : string) : Js unit :=
  let '(materialized, pdfResponse) := Response_blob pdfResponse in
  blob <- eval materialized ;;
  url <- createObjectURL blob ;;
  let a := mkAnchor url ("news_digest_" ++ district ++ "_" ++ date ++ ".pdf") in
  appendChild a ;;
  click a ;;
  removeChild a ;;
  revokeObjectURL url ;;
  set_status "PDF downloaded successfully".

(** Lines 108-150: the body of the [try]. *)
Definition pdf_phase (closure : PdfAction) (net : FetchOutcome) : Js unit :=
  let district := pdf_district closure in
  let date := pdf_date closure in
  set_status "Generating PDF..." ;;
  let pdfPayload := JObj [("articles", pdf_articles closure);
                          ("district", JStr district); ("date", JStr date)] in
  console_log "Generate PDF request:" pdfPayload ;;
  pdfResponse <- fetch "/generate_pdf" pdfPayload (Some 15000) net ;;
  let '(read, pdfResponse) := Response_text pdfResponse in
  pdfErrorText <- read_body_text "PDF response:" read ;;
  if negb (ok pdfResponse) then handle_pdf_failure pdfErrorText
  else save_pdf pdfResponse district date.

(** Lines 151-154: the [catch]. *)
Definition pdf_catch (pdfError : JsError) : Js unit :=
  set_status (err_message pdfError) ;;
  console_error "PDF Error:" pdfError.

(** The function assigned to [downloadButton.onclick] (lines 106-155),
    for its closure and the settlement [net] of its [fetch]. *)
Definition download_click (closure : PdfAction) (net : FetchOutcome) : Js unit :=
  try_catch (pdf_phase closure net) pdf_catch.

(** A click on the download button runs what is bound to it. *)
Definition click_download (net : FetchOutcome) : Js unit :=
  fun w =>
    match download_onclick w with
    | Some closure => download_click closure net w
    | None => (w, Normal tt)
    end.

(** Lines 88-102: the callback of [forEach]. *)
Definition add_row (article : jsval) : Js unit :=
  html <- eval (render_row article) ;;
  append_row html.

(** Lines 80-155: the status line, the rows, the download button. *)
Definition render_result (result articles : jsval) (district date : string) : Js unit :=
  is_mock <- eval (Get result "is_mock") ;;
  (if truthy is_mock then set_status (msg_mock district)
   else set_status "Articles loaded successfully.") ;;
  clear_rows ;;
  elements <- eval (array_elements "result.articles.forEach" articles) ;;
  for_each elements add_row ;;
  len <- eval (Get articles "length") ;;
  set_display (if truthy len then "block" else "none") ;;
  set_onclick (mkPdfAction articles district date).

(** Lines 65-155: a response with a success status. *)
Definition handle_success (errorText district date : string) : Js unit :=
  result <- eval (JSON_parse_c errorText) ;;
  error <- eval (Get result "error") ;;
  if truthy error then
    s <- eval (ToString error) ;;
    set_status ("Server error: " ++ s) ;;
    clear_rows ;;
    set_display "none"
  else
    articles <- eval (Get result "articles") ;;
    empty <- (if negb (truthy articles) then ret true
              else len <- eval (Get articles "length") ;;
                   ret (strict_eq_zero len)) ;;
    if (empty : bool) then
      set_status msg_no_articles ;;
      clear_rows ;;
      set_display "none"
    else render_result result articles district date.

(** Lines 52-63: a response with a failure status. *)
Definition handle_failure (errorText : string) : Js unit :=
  userMessage <-
    try_catch
      (errorData <- eval (JSON_parse_c errorText) ;;
       e <- eval (Get errorData "error") ;;
       ret (if truthy e then e else JStr msg_fetch_failed))
      (fun _ => ret (JStr msg_fetch_failed)) ;;
  message <- eval (ToString userMessage) ;;
  throw (Error message).

(** Lines 32-155: the body of the [try]. *)
Definition fetch_phase (district date : string) (net : FetchOutcome) : Js unit :=
  set_status "Fetching news..." ;;
  let requestPayload := JObj [("district", JStr district); ("date", JStr date)] in
  console_log "Fetch news request:" requestPayload ;;
  response <- fetch "/fetch_news" requestPayload (Some 15000) net ;;
  let '(read, response) := Response_text response in
  errorText <- read_body_text "Fetch news response:" read ;;
  if negb (ok response) then handle_failure errorText
  else handle_success errorText district date.

(** Lines 156-163: the [catch]. *)
Definition fetch_catch (error : JsError) : Js unit :=
  set_status (if String.eqb (err_name error) "TimeoutError" then msg_timeout
              else "Error: " ++ err_message error) ;;
  console_error "Fetch News Error:" error ;;
  clear_rows ;;
  set_display "none".

(** The click handler of [#fetch-news] (lines 1-164), for the current
    time [now] and the settlement [net] of its [fetch]. *)
Definition fetch_news_click (now : Z) (net : FetchOutcome) : Js unit :=
  district <- gets district_value ;;
  date <- gets date_value ;;
  if negb (truthy (JStr district)) then set_status "Please select a district"
  else if negb (truthy (JStr date)) then set_status "Please select a date"
  else if negb (regex_test dateRegex date) then
    set_status "Invalid date format (use YYYY-MM-DD)"
  else
    let selectedDate := JsDate.parse (date ++ "T23:59:59+05:30") in
    let today := now in
    if JsDate.gt selectedDate today then set_status "Date cannot be in the future"
    else try_catch (fetch_phase district date net) fetch_catch.

End NewsRequestController.

(** ** The login handler ([static/js/login.js]) *)

Module Login.

Record Page : Type := mkPage {
  username_value : string;      (* #username .value *)
  password_value : string;      (* #password .value *)
  error_text : string;          (* #error-message .textContent *)
  location_href : string;       (* window.location.href *)
  default_prevented : bool;     (* the submit event *)
  sent : list Request
}.

Section LoginController.
Context {engine : Engine}.
Open Scope js_scope.

(** [e.preventDefault()] *)
Definition preventDefault : Stmt Page unit :=
  modify (fun p => mkPage (username_value p) (password_value p) (error_text p)
                     (location_href p) true (sent p)).

(** [errorMessage.textContent = s] *)
Definition set_error_text (s : string) : Stmt Page unit :=
  modify (fun p => mkPage (username_value p) (password_value p) s
                     (location_href p) (default_prevented p) (sent p)).

(** [window.location.href = url] *)
Definition navigate (url : string) : Stmt Page unit :=
  modify (fun p => mkPage (username_value p) (password_value p) (error_text p)
                     url (default_prevented p) (sent p)).

(** [fetch('/login', {method: 'POST', headers: ..., body: ...})], no
    timeout. *)
Definition fetch_login (payload : jsval) (net : FetchOutcome) : Stmt Page Response :=
  fun p =>
    let request := mkRequest "/login" "POST" [("Content-Type", "application/json")]
                     payload None in
    let p' := mkPage (username_value p) (password_value p) (error_text p)
                (location_href p) (default_prevented p) (sent p ++ [request]) in
    match net with
    | Rejects e => (p', Throw e)
    | Resolves st b => (p', Normal (mkResponse st b false))
    end.

(** The submit handler of [#login-form]. *)
Definition submit (net : FetchOutcome) : Stmt Page unit :=
  preventDefault ;;
  username <- gets username_value ;;
  password <- gets password_value ;;
  try_catch
    (response <- fetch_login (JObj [("username", JStr username);
                                    ("password", JStr password)]) net ;;
     let '(parsed, response) := Response_json response in
     result <- eval parsed ;;
     success <- eval (Get result "success") ;;
     if truthy success then navigate "/dashboard"
     else
       message <- eval (Get result "message") ;;
       text <- eval (ToString (js_or message (JStr "Login failed"))) ;;
       set_error_text text)
    (fun error => set_error_text "An error occurred").

End LoginController.
End Login.

(** ** A reference engine

    An instance of [Engine] on which the handlers run on concrete
    inputs.  Its reader covers JSON texts built from objects, arrays,
    strings with the simple escapes, integers below 2^53, [true],
    [false] and [null]; its messages follow the wording of V8. *)
Module Reference.

Definition is_ws (c : ascii) : bool :=
  Ascii.eqb c " " || Ascii.eqb c "009" || Ascii.eqb c "010" || Ascii.eqb c "013".

Fixpoint skip_ws (s : string) : string :=
  match s with
  | String c rest => if is_ws c then skip_ws rest else s
  | EmptyString => s
  end.

(** The characters of a string literal after its opening quote, up to
    the closing quote: the string and the rest of the text. *)
Fixpoint read_string (s : string) : option (string * string) :=
  match s with
  | EmptyString => None
  | String c rest =>
      if Ascii.eqb c "034" then Some (EmptyString, rest)
      else if Ascii.eqb c "\" then
        match rest with
        | String e rest' =>
            let unescaped :=
              if Ascii.eqb e "034" then Some "034"%char
              else if Ascii.eqb e "\" then Some "\"%char
              else if Ascii.eqb e "/" then Some "/"%char
              else if Ascii.eqb e "b" then Some "008"%char
              else if Ascii.eqb e "f" then Some "012"%char
              else if Ascii.eqb e "n" then Some "010"%char
              else if Ascii.eqb e "r" then Some "013"%char
              else if Ascii.eqb e "t" then Some "009"%char
              else None in
            match unescaped, read_string rest' with
            | Some u, Some (str, after) => Some (String u str, after)
            | _, _ => None
            end
        | EmptyString => None
        end
      else if (nat_of_ascii c <? 32)%nat then None
      else
        match read_string rest with
        | Some (str, after) => Some (String c str, after)
        | None => None
        end
  end.

Fixpoint read_digits (acc : Z) (s : string) : Z * string :=
  match s with
  | String c rest =>
      if JsDate.is_digit c then read_digits (10 * acc + JsDate.digit_value c) rest
      else (acc, s)
  | EmptyString => (acc, s)
  end.

Definition starts_with_any (cs : list ascii) (s : string) : bool :=
  match s with
  | String c _ => existsb (Ascii.eqb c) cs
  | EmptyString => false
  end.

(** An integer literal, its first digit at the head of [s]. *)
Definition read_integer (negative : bool) (s : string) : option (jsval * string) :=
  match s with
  | String c rest =>
      if JsDate.is_digit c then
        let '(n, after) := if Ascii.eqb c "0" then (0, rest) else read_digits 0 s in
        if starts_with_any ["."; "e"; "E"]%char after || JsDate.is_digit
             (match after with String d _ => d | EmptyString => " "%char end)
        then None
        else if 9007199254740992 <=? n then None
        else if n =? 0 then Some (JNum (S754_zero negative), after)
        else Some (JNum (S754_finite negative (Z.to_pos n) 0), after)
      else None
  | EmptyString => None
  end.

Definition strip_prefix (p s : string) : option string :=
  if String.prefix p s then Some (substring (String.length p) (String.length s - String.length p) s)
  else None.

(** [CreateDataProperty]: a repeated key keeps its place and takes the
    later value. *)
Fixpoint define_property (k : string) (v : jsval) (props : list (string * jsval))
    : list (string * jsval) :=
  match props with
  | [] => [(k, v)]
  | (k', v') :: rest =>
      if String.eqb k k' then (k, v) :: rest else (k', v') :: define_property k v rest
  end.

Fixpoint read_value (fuel : nat) (s : string) : option (jsval * string) :=
  match fuel with
  | O => None
  | S fuel' =>
      match skip_ws s with
      | EmptyString => None
      | String c rest =>
          if Ascii.eqb c "{" then
            match skip_ws rest with
            | String c' rest' =>
                if Ascii.eqb c' "}" then Some (JObj [], rest')
                else read_members fuel' (skip_ws rest) []
            | EmptyString => None
            end
          else if Ascii.eqb c "[" then
            match skip_ws rest with
            | String c' rest' =>
                if Ascii.eqb c' "]" then Some (JArr [], rest')
                else read_elements fuel' rest []
            | EmptyString => None
            end
          else if Ascii.eqb c "034" then
            match read_string rest with
            | Some (str, after) => Some (JStr str, after)
            | None => None
            end
          else if Ascii.eqb c "-" then read_integer true rest
          else if JsDate.is_digit c then read_integer false (String c rest)
          else
            match strip_prefix "true" (String c rest), strip_prefix "false" (String c rest),
                  strip_prefix "null" (String c rest) with
            | Some after, _, _ => Some (JBool true, after)
            | _, Some after, _ => Some (JBool false, after)
            | _, _, Some after => Some (JNull, after)
            | _, _, _ => None
            end
      end
  end
with read_elements (fuel : nat) (s : string) (acc : list jsval) : option (jsval * string) :=
  match fuel with
  | O => None
  | S fuel' =>
      match read_value fuel' s with
      | Some (v, after) =>
          match skip_ws after with
          | String c rest =>
              if Ascii.eqb c "," then read_elements fuel' rest (acc ++ [v])
              else if Ascii.eqb c "]" then Some (JArr (acc ++ [v]), rest)
              else None
          | EmptyString => None
          end
      | None => None
      end
  end
with read_members (fuel : nat) (s : string) (acc : list (string * jsval))
    : option (jsval * string) :=
  match fuel with
  | O => None
  | S fuel' =>
      match s with
      | String q rest =>
          if Ascii.eqb q "034" then
            match read_string rest with
            | Some (key, after) =>
                match skip_ws after with
                | String colon rest' =>
                    if Ascii.eqb colon ":" then
                      match read_value fuel' rest' with
                      | Some (v, after') =>
                          match skip_ws after' with
                          | String c rest'' =>
                              if Ascii.eqb c "," then
                                read_members fuel' (skip_ws rest'') (define_property key v acc)
                              else if Ascii.eqb c "}" then
                                Some (JObj (define_property key v acc), rest'')
                              else None
                          | EmptyString => None
                          end
                      | None => None
                      end
                    else None
                | EmptyString => None
                end
            | None => None
            end
          else None
      | EmptyString => None
      end
  end.

Definition parse (text : string) : jsval + string :=
  match read_value (2 * String.length text + 2) text with
  | Some (v, after) =>
      match skip_ws after with
      | EmptyString => inl v
      | _ => inr "Unexpected non-whitespace character after JSON"
      end
  | None =>
      match skip_ws text with
      | EmptyString => inr "Unexpected end of JSON input"
      | _ => inr "Unexpected token in JSON"
      end
  end.

Definition Z_to_string (z : Z) : string := DecimalString.NilZero.string_of_int (Z.to_int z).

(** Decimal printing of the doubles that are integers. *)
Definition number_to_string (n : spec_float) : string :=
  match n with
  | S754_zero _ => "0"
  | S754_infinity false => "Infinity"
  | S754_infinity true => "-Infinity"
  | S754_nan => "NaN"
  | S754_finite s m e =>
      let magnitude := if 0 <=? e then Z.pos m * 2 ^ e else Z.pos m / 2 ^ (- e) in
      (if s then "-" else "") ++ Z_to_string magnitude
  end.

#[export] Instance engine : Engine := {|
  JSON_parse := parse;
  Number_toString := number_to_string;
  msg_read_nullish := fun v k =>
    "Cannot read properties of " ++ (match v with JNull => "null" | _ => "undefined" end)
    ++ " (reading '" ++ k ++ "')";
  msg_not_function := fun callee => callee ++ " is not a function";
  msg_to_primitive := "Cannot convert object to primitive value";
  msg_body_used := fun method =>
    "Failed to execute '" ++ method ++ "' on 'Response': body stream already read"
|}.

End Reference.

(** Quoting for JSON texts written out in examples. *)
Definition q (s : string) : string := dq ++ s ++ dq.

Definition sample_error_body : string := "{" ++ q "error" ++ ":" ++ q "rate limited" ++ "}".

(** ** The specification's side *)

Module Spec.

(** *** Queries *)

(** A date string of the form YYYY-MM-DD: ten characters, digits
    except for a hyphen in the fifth and the eighth place. *)
Definition has_date_format (s : string) : bool :=
  match list_ascii_of_string s with
  | [y1; y2; y3; y4; h1; m1; m2; h2; d1; d2] =>
      forallb JsDate.is_digit [y1; y2; y3; y4; m1; m2; d1; d2]
      && Ascii.eqb h1 "-" && Ascii.eqb h2 "-"
  | _ => false
  end.

(** The offset of India Standard Time, UTC+05:30. *)
Definition ist_offset : Z := 5 * JsDate.msPerHour + 30 * JsDate.msPerMinute.

(** The instant at which the clocks of India show the given time of
    the given date. *)
Definition ist_instant (date : string) (hour min sec : Z) : option Z :=
  match JsDate.date_fields date with
  | Some (y, m, d) =>
      Some (JsDate.MakeDate (JsDate.MakeDay y (m - 1) d) (JsDate.MakeTime hour min sec 0)
            - ist_offset)
  | None => None
  end.

(** The date's end of day in IST is strictly after [now]. *)
Definition in_the_future (date : string) (now : Z) : Prop :=
  exists t, ist_instant date 23 59 59 = Some t /\ now < t.

(** [date] is the calendar date that India has at [now]. *)
Definition is_today_ist (date : string) (now : Z) : bool :=
  match ist_instant date 0 0 0 with
  | Some start => (start <=? now) && (now <? start + JsDate.msPerDay)
  | None => false
  end.

(** The query passes the four checks of the input validation. *)
Definition accepted (district date : string) (now : Z) : bool :=
  negb (String.eqb district "") && negb (String.eqb date "")
  && has_date_format date
  && negb (match ist_instant date 23 59 59 with
           | Some t => now <? t
           | None => false
           end).

(** The first of the three checks on the form of the input that fails,
    with its message. *)
Inductive validation_failure : string -> string -> string -> Prop :=
| NoDistrict date :
    validation_failure "" date "Please select a district"
| NoDate district :
    district <> "" ->
    validation_failure district "" "Please select a date"
| BadFormat district date :
    district <> "" -> date <> "" -> has_date_format date = false ->
    validation_failure district date "Invalid date format (use YYYY-MM-DD)".

(** The request of the fetch flow. *)
Definition news_request (district date : string) : Request :=
  mkRequest "/fetch_news" "POST" [("Content-Type", "application/json")]
    (JObj [("district", JStr district); ("date", JStr date)]) (Some 15000).

(** The text of a body that can be read: empty for a null body. *)
Definition readable (b : option BodyStream) : option string :=
  match b with
  | None => Some ""
  | Some (BodyText t) => Some t
  | Some (BodyBroken _) => None
  end.

(** The text the news handlers work on for a body: the placeholder
    stands in for a body that cannot be read. *)
Definition received_text (b : option BodyStream) : string :=
  match readable b with
  | Some t => t
  | None => "No response body"
  end.

(** *** Articles *)

Record RelatedArticle : Type := mkRelated {
  rel_title : option string;
  rel_url : option string;
  rel_source : option string;        (* source.name *)
  rel_publishedAt : option string
}.

Record Article : Type := mkArticle {
  title : option string;
  url : option string;
  category : option string;
  source : option string;            (* source.name *)
  publishedAt : option string;
  relatedArticles : list RelatedArticle
}.

(** An optional string field of a parsed object: missing when the key
    is absent or null. *)
Definition optional_string (props : list (string * jsval)) (k : string)
    : option (option string) :=
  match own_property k props with
  | None | Some JNull => Some None
  | Some (JStr s) => Some (Some s)
  | Some _ => None
  end.

(** The optional [source] object with its optional [name]. *)
Definition optional_source (props : list (string * jsval)) : option (option string) :=
  match own_property "source" props with
  | None | Some JNull => Some None
  | Some (JObj src) => optional_string src "name"
  | Some _ => None
  end.

Definition read_related (v : jsval) : option RelatedArticle :=
  match v with
  | JObj props =>
      match optional_string props "title", optional_string props "url",
            optional_source props, optional_string props "publishedAt" with
      | Some t, Some u, Some s, Some p => Some (mkRelated t u s p)
      | _, _, _, _ => None
      end
  | _ => None
  end.

Fixpoint read_all {A} (read : jsval -> option A) (l : list jsval) : option (list A) :=
  match l with
  | [] => Some []
  | v :: rest =>
      match read v, read_all read rest with
      | Some a, Some r => Some (a :: r)
      | _, _ => None
      end
  end.

Definition read_related_list (props : list (string * jsval)) : option (list RelatedArticle) :=
  match own_property "related_articles" props with
  | None | Some JNull => Some []
  | Some (JArr l) => read_all read_related l
  | Some _ => None
  end.

(** A parsed value read as an article of the data model; [None] when
    it is not one. *)
Definition read_article (v : jsval) : option Article :=
  match v with
  | JObj props =>
      match optional_string props "title", optional_string props "url",
            optional_string props "category", optional_source props,
            optional_string props "publishedAt", read_related_list props with
      | Some t, Some u, Some c, Some s, Some p, Some r => Some (mkArticle t u c s p r)
      | _, _, _, _, _, _ => None
      end
  | _ => None
  end.

(** *** Rows *)

(** "x or fallback": the fallback stands in for a missing or empty
    text. *)
Definition or_else (x : option string) (fallback : string) : string :=
  match x with
  | Some s => if String.eqb s "" then fallback else s
  | None => fallback
  end.

(** A hyperlink that opens in a new browsing context. *)
Definition link (target label : string) : string :=
  "<a href=" ++ dq ++ target ++ dq ++ " target=" ++ dq ++ "_blank" ++ dq ++ ">"
  ++ label ++ "</a>".

Definition cell (content : string) : string :=
  nl ++ spaces 16 ++ "<td>" ++ content ++ "</td>".

Definition related_item (r : RelatedArticle) : string :=
  "<div>" ++ link (or_else (rel_url r) "#") (or_else (rel_title r) "No Title")
  ++ " (" ++ or_else (rel_source r) "Unknown Source" ++ ", "
  ++ or_else (rel_publishedAt r) "Unknown Date" ++ ")</div>".

Definition related_cell (rs : list RelatedArticle) : string :=
  match rs with
  | [] => "None"
  | _ => String.concat "" (map related_item rs)
  end.

(** The row of an article: five cells. *)
Definition row (a : Article) : string :=
  cell (link (or_else (url a) "#") (or_else (title a) "No Title"))
  ++ cell (or_else (category a) "Unknown")
  ++ cell (or_else (source a) "Unknown Source")
  ++ cell (or_else (publishedAt a) "Unknown Date")
  ++ cell (related_cell (relatedArticles a))
  ++ nl ++ spaces 12.

(** *** Replies *)

Section Replies.
Context {engine : Engine}.

(** A successful response that ends the fetch flow at once, with the
    status line it leaves: a result that carries an error, or else a
    result without articles. *)
Inductive stops_with (result : jsval) : string -> Prop :=
| CarriesError e s :
    Get result "error" = Normal e -> truthy e = true -> ToString e = Normal s ->
    stops_with result ("Server error: " ++ s)
| NoArticles e articles :
    Get result "error" = Normal e -> truthy e = false ->
    Get result "articles" = Normal articles ->
    truthy articles = false \/ articles = JArr [] ->
    stops_with result "No articles found for the selected district and date.".

(** The message of a failed PDF request, by its body: the error of the
    body when it has one that can be written as a string, and the
    generic text for every other body. *)
Inductive pdf_failure (text : string) : string -> Prop :=
| PdfError v e s :
    JSON_parse text = inl v ->
    Get v "error" = Normal e -> truthy e = true -> ToString e = Normal s ->
    pdf_failure text ("PDF generation failed: " ++ s)
| PdfNotJson msg :
    JSON_parse text = inr msg ->
    pdf_failure text "Failed to generate PDF. Please try again later."
| PdfNotAnObject v err :
    JSON_parse text = inl v -> Get v "error" = Throw err ->
    pdf_failure text "Failed to generate PDF. Please try again later."
| PdfNoField v e :
    JSON_parse text = inl v ->
    Get v "error" = Normal e -> truthy e = false ->
    pdf_failure text "Failed to generate PDF. Please try again later."
| PdfUnprintable v e err :
    JSON_parse text = inl v ->
    Get v "error" = Normal e -> truthy e = true -> ToString e = Throw err ->
    pdf_failure text "Failed to generate PDF. Please try again later.".

(** What a login submission comes to. *)
Inductive Shown : Type :=
| Navigates (target : string)
| Displays (text : string).

Inductive login_reply : FetchOutcome -> Shown -> Prop :=
| LoginSuccess st b text result success :
    readable b = Some text -> JSON_parse text = inl result ->
    Get result "success" = Normal success -> truthy success = true ->
    login_reply (Resolves st b) (Navigates "/dashboard")
| LoginMessage st b text result success message shown :
    readable b = Some text -> JSON_parse text = inl result ->
    Get result "success" = Normal success -> truthy success = false ->
    Get result "message" = Normal message -> truthy message = true ->
    ToString message = Normal shown ->
    login_reply (Resolves st b) (Displays shown)
| LoginNoMessage st b text result success message :
    readable b = Some text -> JSON_parse text = inl result ->
    Get result "success" = Normal success -> truthy success = false ->
    Get result "message" = Normal message -> truthy message = false ->
    login_reply (Resolves st b) (Displays "Login failed")
| LoginNetworkFailure e :
    login_reply (Rejects e) (Displays "An error occurred")
| LoginUnreadable st b :
    readable b = None ->
    login_reply (Resolves st b) (Displays "An error occurred")
| LoginMalformed st b text msg :
    readable b = Some text -> JSON_parse text = inr msg ->
    login_reply (Resolves st b) (Displays "An error occurred")
| LoginNotAnObject st b text result err :
    readable b = Some text -> JSON_parse text = inl result ->
    Get result "success" = Throw err ->
    login_reply (Resolves st b) (Displays "An error occurred")
| LoginUnprintable st b text result success message err :
    readable b = Some text -> JSON_parse text = inl result ->
    Get result "success" = Normal success -> truthy success = false ->
    Get result "message" = Normal message -> truthy message = true ->
    ToString message = Throw err ->
    login_reply (Resolves st b) (Displays "An error occurred").

End Replies.
End Spec.

(** ** Rows as the browser builds them

    The handler gives each row its content as markup ([row.innerHTML =
    ...]); the cells of the row are what the HTML parser makes of that
    markup.  The parser is modelled on the fragment of HTML that the
    template of lines 95-101 is written in: [td] cells that hold text,
    links ([a] with [href] and [target]) and [div] blocks, properly
    nested, with the four references [&amp;] [&lt;] [&gt;] [&quot;].
    White space between cells belongs to no cell and is passed over.
    Markup outside the fragment (other tags and attributes, misnested
    tags, other uses of [&], other text between cells) has no parse in
    the model: [None]. *)
Module Html.

#[warnings="-register-all"]
Inductive Node : Type :=
| Text (s : string)
| Link (href target : string) (children : list Node)
| Div (children : list Node).

Definition Cell : Type := list Node.

(** An open element with the children it has so far, latest first. *)
Inductive Frame : Type :=
| InCell (children : list Node)
| InLink (href target : string) (children : list Node)
| InDiv (children : list Node).

Inductive Mode : Type :=
| Data (text : string)                     (* the pending text *)
| Reference (text : string) (name : string) (* after an ampersand *)
| Tag (source : string) (quoted : bool).   (* after a less-than sign *)

Record State : Type := mkState {
  mode : Mode;
  open_elements : list Frame;   (* innermost first; empty between cells *)
  closed_cells : list Cell      (* latest first *)
}.

Definition push (c : ascii) (s : string) : string := s ++ String c EmptyString.

Definition is_space (c : ascii) : bool :=
  Ascii.eqb c " " || Ascii.eqb c "009" || Ascii.eqb c "010" || Ascii.eqb c "012".

Definition is_alnum (c : ascii) : bool :=
  let n := nat_of_ascii c in
  ((48 <=? n) && (n <=? 57) || (65 <=? n) && (n <=? 90) || (97 <=? n) && (n <=? 122))%nat.

(** Carriage returns are rewritten and NUL is replaced before the
    tokenizer sees them; neither is modelled. *)
Definition unmodelled (c : ascii) : bool := Ascii.eqb c "013" || Ascii.eqb c "000".

Definition add_child (n : Node) (f : Frame) : Frame :=
  match f with
  | InCell ch => InCell (n :: ch)
  | InLink h t ch => InLink h t (n :: ch)
  | InDiv ch => InDiv (n :: ch)
  end.

(** The pending text becomes a text node of the innermost element. *)
Definition flush (text : string) (frames : list Frame) : list Frame :=
  match frames with
  | f :: rest => if String.eqb text "" then frames else add_child (Text text) f :: rest
  | [] => []
  end.

Definition named_reference (name : string) : option ascii :=
  if String.eqb name "amp" then Some "&"%char
  else if String.eqb name "lt" then Some "<"%char
  else if String.eqb name "gt" then Some ">"%char
  else if String.eqb name "quot" then Some "034"%char
  else None.

(** The value of a quoted attribute: its text with the references
    replaced. *)
Fixpoint decode (pending : option string) (s : string) : option string :=
  match s with
  | EmptyString => match pending with None => Some EmptyString | Some _ => None end
  | String c rest =>
      match pending with
      | None =>
          if Ascii.eqb c "&" then decode (Some EmptyString) rest
          else match decode None rest with
               | Some r => Some (String c r)
               | None => None
               end
      | Some name =>
          if Ascii.eqb c ";" then
            match named_reference name, decode None rest with
            | Some d, Some r => Some (String d r)
            | _, _ => None
            end
          else if is_alnum c then decode (Some (push c name)) rest
          else None
      end
  end.

(** The characters up to the next double quote, and what follows it. *)
Fixpoint until_quote (s : string) : option (string * string) :=
  match s with
  | EmptyString => None
  | String c rest =>
      if Ascii.eqb c "034" then Some (EmptyString, rest)
      else match until_quote rest with
           | Some (v, after) => Some (String c v, after)
           | None => None
           end
  end.

Definition strip (prefix s : string) : option string :=
  if String.prefix prefix s
  then Some (substring (String.length prefix) (String.length s - String.length prefix) s)
  else None.

Inductive TagToken : Type :=
| OpenCell | CloseCell | OpenDiv | CloseDiv | CloseLink
| OpenLink (href target : string).

(** The tags of the fragment, by the source between [<] and [>]. *)
Definition read_tag (source : string) : option TagToken :=
  if String.eqb source "td" then Some OpenCell
  else if String.eqb source "/td" then Some CloseCell
  else if String.eqb source "div" then Some OpenDiv
  else if String.eqb source "/div" then Some CloseDiv
  else if String.eqb source "/a" then Some CloseLink
  else
    match strip ("a href=" ++ String "034" EmptyString) source with
    | None => None
    | Some s1 =>
        match until_quote s1 with
        | None => None
        | Some (h, s2) =>
            match strip (" target=" ++ String "034" EmptyString) s2 with
            | None => None
            | Some s3 =>
                match until_quote s3 with
                | Some (t, EmptyString) =>
                    match decode None h, decode None t with
                    | Some href, Some target => Some (OpenLink href target)
                    | _, _ => None
                    end
                | _ => None
                end
            end
        end
    end.

Definition in_link (f : Frame) : bool :=
  match f with
  | InLink _ _ _ => true
  | _ => false
  end.

(** The tree construction for one tag.  A cell opens between cells
    and closes when nothing is open inside it; a block or a link opens
    inside a cell, a link never inside a link; an end tag closes the
    innermost element, which must be its own. *)
Definition build (t : TagToken) (frames : list Frame) (cells : list Cell)
    : option State :=
  match t, frames with
  | OpenCell, [] => Some (mkState (Data EmptyString) [InCell []] cells)
  | CloseCell, [InCell ch] => Some (mkState (Data EmptyString) [] (rev ch :: cells))
  | OpenDiv, _ :: _ => Some (mkState (Data EmptyString) (InDiv [] :: frames) cells)
  | OpenLink h t, _ :: _ =>
      if existsb in_link frames then None
      else Some (mkState (Data EmptyString) (InLink h t [] :: frames) cells)
  | CloseDiv, InDiv ch :: parent :: rest =>
      Some (mkState (Data EmptyString) (add_child (Div (rev ch)) parent :: rest) cells)
  | CloseLink, InLink h t ch :: parent :: rest =>
      Some (mkState (Data EmptyString) (add_child (Link h t (rev ch)) parent :: rest) cells)
  | _, _ => None
  end.

Definition step (st : State) (c : ascii) : option State :=
  let frames := open_elements st in
  let cells := closed_cells st in
  if unmodelled c then None else
  match mode st with
  | Data text =>
      if Ascii.eqb c "<" then Some (mkState (Tag EmptyString false) (flush text frames) cells)
      else
        match frames with
        | [] => if is_space c then Some st else None
        | _ :: _ =>
            if Ascii.eqb c "&" then Some (mkState (Reference text EmptyString) frames cells)
            else Some (mkState (Data (push c text)) frames cells)
        end
  | Reference text name =>
      if Ascii.eqb c ";" then
        match named_reference name with
        | Some d => Some (mkState (Data (push d text)) frames cells)
        | None => None
        end
      else if is_alnum c then Some (mkState (Reference text (push c name)) frames cells)
      else None
  | Tag source quoted =>
      if Ascii.eqb c "034" then Some (mkState (Tag (push c source) (negb quoted)) frames cells)
      else if Ascii.eqb c ">" && negb quoted then
        match read_tag source with
        | Some t => build t frames cells
        | None => None
        end
      else Some (mkState (Tag (push c source) quoted) frames cells)
  end.

Fixpoint run (st : option State) (markup : string) : option State :=
  match markup with
  | EmptyString => st
  | String c rest =>
      run (match st with Some s => step s c | None => None end) rest
  end.

(** The cells of a row whose [innerHTML] is set to [markup]. *)
Definition cells (markup : string) : option (list Cell) :=
  match run (Some (mkState (Data EmptyString) [] [])) markup with
  | Some (mkState (Data _) [] done) => Some (rev done)
  | _ => None
  end.

(** A text without the characters that are markup in text or in a
    quoted attribute value. *)
Definition plain (s : string) : bool :=
  forallb (fun c => negb (Ascii.eqb c "&" || Ascii.eqb c "<" || Ascii.eqb c "034"
                          || unmodelled c))
    (list_ascii_of_string s).

End Html.

(** *** The rows of the specification, as cells *)

Definition related_nodes (r : Spec.RelatedArticle) : Html.Node :=
  Html.Div
    [Html.Link (Spec.or_else (Spec.rel_url r) "#") "_blank"
       [Html.Text (Spec.or_else (Spec.rel_title r) "No Title")];
     Html.Text (" (" ++ Spec.or_else (Spec.rel_source r) "Unknown Source" ++ ", "
                ++ Spec.or_else (Spec.rel_publishedAt r) "Unknown Date" ++ ")")].

(** A link labelled with the title that opens the url in a new
    context; the category; the source; the publication time; the
    related articles, each a link with source and date, or "None". *)
Definition article_cells (a : Spec.Article) : list Html.Cell :=
  [[Html.Link (Spec.or_else (Spec.url a) "#") "_blank"
      [Html.Text (Spec.or_else (Spec.title a) "No Title")]];
   [Html.Text (Spec.or_else (Spec.category a) "Unknown")];
   [Html.Text (Spec.or_else (Spec.source a) "Unknown Source")];
   [Html.Text (Spec.or_else (Spec.publishedAt a) "Unknown Date")];
   match Spec.relatedArticles a with
   | [] => [Html.Text "None"]
   | rs => map related_nodes rs
   end].

Definition plain_field (x : option string) : bool :=
  match x with
  | Some s => Html.plain s
  | None => true
  end.

Definition plain_related (r : Spec.RelatedArticle) : bool :=
  plain_field (Spec.rel_title r) && plain_field (Spec.rel_url r)
  && plain_field (Spec.rel_source r) && plain_field (Spec.rel_publishedAt r).

(** An article none of whose texts holds a markup character. *)
Definition plain_article (a : Spec.Article) : bool :=
  plain_field (Spec.title a) && plain_field (Spec.url a)
  && plain_field (Spec.category a) && plain_field (Spec.source a)
  && plain_field (Spec.publishedAt a)
  && forallb plain_related (Spec.relatedArticles a).

(** The rows of the table as the browser builds them: for each row,
    the cells parsed from the markup that the handler gave it. *)
Definition table_rows (w : World) : list (option (list Html.Cell)) :=
  map Html.cells (news_rows w).

(** ** Running a handler *)

(** The world a handler leaves. *)
Definition after {S A} (m : Stmt S A) (w : S) : S := fst (m w).

(** The handler returns, rather than throws. *)
Definition completes {S A} (m : Stmt S A) (w : S) : Prop := exists a, snd (m w) = Normal a.

(** A statement that leaves an observation of the world as it was,
    however it ends. *)
Definition preserves {S T A} (obs : S -> T) (m : Stmt S A) : Prop :=
  forall w, obs (fst (m w)) = obs w.

(** The world once the request of the fetch flow is out. *)
Definition sent (district date : string) (w : World) : World :=
  set_requests (requests w ++ [Spec.news_request district date])
    (set_console
       (console w ++ [Log "Fetch news request:"
                        (JObj [("district", JStr district); ("date", JStr date)])])
       (set_status_text "Fetching news..." w)).

(** The world once a body has been read and, when readable, logged. *)
Definition logged (label : string) (b : option BodyStream) (w : World) : World :=
  match Spec.readable b with
  | Some t => set_console (console w ++ [Log label (JStr t)]) w
  | None => w
  end.

(** The request of the PDF flow. *)
Definition pdf_request (closure : PdfAction) : Request :=
  mkRequest "/generate_pdf" "POST" [("Content-Type", "application/json")]
    (JObj [("articles", pdf_articles closure); ("district", JStr (pdf_district closure));
           ("date", JStr (pdf_date closure))]) (Some 15000).

(** The world once the request of the PDF flow is out. *)
Definition pdf_sent (closure : PdfAction) (w : World) : World :=
  set_requests (requests w ++ [pdf_request closure])
    (set_console
       (console w ++ [Log "Generate PDF request:" (req_payload (pdf_request closure))])
       (set_status_text "Generating PDF..." w)).

(** The response object once its text has been read. *)
Definition read_response (st : Z) (b : option BodyStream) : Response :=
  mkResponse st b (match b with Some _ => true | None => false end).

(** The file name of the digest. *)
Definition digest_name (closure : PdfAction) : string :=
  "news_digest_" ++ pdf_district closure ++ "_" ++ pdf_date closure ++ ".pdf".

(** ** Sessions *)

(** What the user does on the news page, with what the clock and the
    network do at that moment. *)
Inductive Event : Type :=
| FetchClick (now : Z) (net : FetchOutcome)
| DownloadClick (net : FetchOutcome).

Section Sessions.
Context {engine : Engine}.

Definition step (w : World) (ev : Event) : World :=
  match ev with
  | FetchClick now net => after (fetch_news_click now net) w
  | DownloadClick net => after (click_download net) w
  end.

Definition session (events : list Event) (w : World) : World :=
  fold_left step events w.

(** The table is empty, or it holds the rows of the articles that the
    download button is bound to. *)
Definition shows_bound_articles (w : World) : Prop :=
  news_rows w = []
  \/ exists articles district date rows,
       download_onclick w = Some (mkPdfAction (JArr articles) district date)
       /\ map_c render_row articles = Normal rows
       /\ news_rows w = rows.

End Sessions.

(** ** Bodies without a usable error field *)

Section Fallbacks.
Context {engine : Engine}.

(** A body from which lines 54-61 take no message: it is not JSON, it
    parses to [null], or its [error] is missing or falsy. *)
Inductive no_server_error (text : string) : Prop :=
| NotJson msg :
    JSON_parse text = inr msg -> no_server_error text
| NotAnObject v err :
    JSON_parse text = inl v -> Get v "error" = Throw err -> no_server_error text
| NoErrorField v e :
    JSON_parse text = inl v -> Get v "error" = Normal e -> truthy e = false ->
    no_server_error text.

End Fallbacks.

(** ** Responses that are rendered *)

Section Rendered.
Context {engine : Engine}.

(** An outcome of the request whose articles the handler renders: a
    response with a status in 200-299 and a body that parses to a value
    without a truthy [error], whose [articles] are a list that is not
    empty and each of which has its markup. *)
Definition rendered (net : FetchOutcome) (articles : list jsval) (rows : list string)
    : Prop :=
  exists st b result e,
    net = Resolves st b /\ ok_status st = true
    /\ JSON_parse (Spec.received_text b) = inl result
    /\ Get result "error" = Normal e /\ truthy e = false
    /\ Get result "articles" = Normal (JArr articles)
    /\ articles <> []
    /\ map_c render_row articles = Normal rows.

End Rendered.

(** A statement that leaves an observation of the world as it was
    whenever it throws. *)
Definition keeps_on_throw {S T A} (obs : S -> T) (m : Stmt S A) : Prop :=
  forall w w' e, m w = (w', Throw e) -> obs w' = obs w.

(** The request of the login flow. *)
Definition login_request (username password : string) : Request :=
  mkRequest "/login" "POST" [("Content-Type", "application/json")]
    (JObj [("username", JStr username); ("password", JStr password)]) None.

(** ** Sample inputs *)

Definition sample_page (district date : string) : World :=
  mkWorld district date "" [] "none" None [] [] [] [] O [].

(** A page that shows one row of an earlier result. *)
Definition page_with_results (district date : string) : World :=
  mkWorld district date "Articles loaded successfully." ["<td>earlier</td>"] "block"
    (Some (mkPdfAction (JArr [JObj []]) "Pune" "2024-01-14")) [] [] [] [] O [].

(** 2024-01-15 12:00:00 and 2024-01-16 12:00:00 in India. *)
Definition noon_2024_01_15_ist : Z := 1705300200000.
Definition noon_2024_01_16_ist : Z := 1705386600000.

Definition sample_article_body : string :=
  "{" ++ q "articles" ++ ":[{" ++ q "title" ++ ":" ++ q "A" ++ ","
  ++ q "url" ++ ":" ++ q "http://x" ++ "," ++ q "category" ++ ":" ++ q "Sports" ++ ","
  ++ q "source" ++ ":{" ++ q "name" ++ ":" ++ q "S" ++ "},"
  ++ q "publishedAt" ++ ":" ++ q "2024-01-01" ++ ","
  ++ q "related_articles" ++ ":[]}]," ++ q "is_mock" ++ ":false}".

(** An article with a related article. *)
Definition sample_related_body : string :=
  "{" ++ q "articles" ++ ":[{" ++ q "title" ++ ":" ++ q "A" ++ ","
  ++ q "url" ++ ":" ++ q "http://x" ++ "," ++ q "category" ++ ":" ++ q "Sports" ++ ","
  ++ q "source" ++ ":{" ++ q "name" ++ ":" ++ q "S" ++ "},"
  ++ q "related_articles" ++ ":[{" ++ q "title" ++ ":" ++ q "B" ++ ","
  ++ q "url" ++ ":" ++ q "http://y" ++ "," ++ q "publishedAt" ++ ":" ++ q "2024-01-02"
  ++ "}]}]}".

(** An article whose title holds a character reference. *)
Definition sample_markup_title_body : string :=
  "{" ++ q "articles" ++ ":[{" ++ q "title" ++ ":" ++ q "Q&amp;A" ++ ","
  ++ q "url" ++ ":" ++ q "http://x" ++ "}]}".

Definition sample_pdf_error_body : string := "{" ++ q "error" ++ ":" ++ q "bad input" ++ "}".

Definition sample_server_error_body : string :=
  "{" ++ q "error" ++ ":" ++ q "upstream unavailable" ++ "}".

(** A fetch that fails in the network. *)
Definition offline : FetchOutcome := Rejects (TypeError "Failed to fetch").

Definition sample_mock_body : string :=
  "{" ++ q "articles" ++ ":[{" ++ q "title" ++ ":" ++ q "Sample" ++ "}],"
  ++ q "is_mock" ++ ":true}".

Definition sample_broken_list_body : string :=
  "{" ++ q "articles" ++ ":[{" ++ q "title" ++ ":" ++ q "A" ++ "},null]}".

Definition sample_text_articles_body : string :=
  "{" ++ q "articles" ++ ":" ++ q "none today" ++ "}".

Definition sample_unprintable_error_body : string :=
  "{" ++ q "error" ++ ":{" ++ q "toString" ++ ":1}}".

Definition sample_session : list Event :=
  [FetchClick noon_2024_01_16_ist (Resolves 200 (Some (BodyText sample_article_body)));
   DownloadClick (Resolves 500 (Some (BodyText sample_pdf_error_body)));
   FetchClick noon_2024_01_16_ist offline].

Definition sample_closure : PdfAction := mkPdfAction (JArr [JObj []]) "Pune" "2024-01-15".

Definition sample_login_page : Login.Page :=
  Login.mkPage "asha" "secret" "" "/login" false [].

Definition sample_login_failure_body : string :=
  "{" ++ q "success" ++ ":false," ++ q "message" ++ ":" ++ q "bad creds" ++ "}".

Definition sample_empty_message_body : string :=
  "{" ++ q "success" ++ ":false," ++ q "message" ++ ":" ++ q "" ++ "}".

Definition sample_unprintable_message_body : string :=
  "{" ++ q "success" ++ ":false," ++ q "message" ++ ":{" ++ q "toString" ++ ":1}}".

(** * Properties *)

Ltac Zify.zify_post_hook ::= Z.to_euclidean_division_equations.

(** ** Strings *)

Lemma append_assoc (a b c : string) : ((a ++ b) ++ c)%string = (a ++ (b ++ c))%string.
Proof. induction a as [|x a IH]; cbn; [reflexivity|]. now rewrite IH. Qed.

(** ** The date format and the date arithmetic *)

Lemma regex_is_date_format (s : string) :
  regex_test dateRegex s = Spec.has_date_format s.
Proof.
  unfold dateRegex, Spec.has_date_format.
  do 11 (destruct s as [|? s];
         [cbn -[Ascii.eqb JsDate.is_digit]; rewrite ?andb_false_r; try reflexivity|]).
  - rewrite !(Ascii.eqb_sym "-"%char). btauto.
  - cbn -[Ascii.eqb JsDate.is_digit]. rewrite ?andb_false_r. reflexivity.
Qed.

Lemma digit_value_range (c : ascii) :
  JsDate.is_digit c = true -> 0 <= JsDate.digit_value c <= 9.
Proof.
  unfold JsDate.is_digit, JsDate.digit_value. intros H.
  apply andb_true_iff in H. destruct H as [H1 H2].
  apply Nat.leb_le in H1. apply Nat.leb_le in H2. lia.
Qed.

Lemma DaysBeforeMonth_range (leap : bool) (m : Z) :
  0 <= JsDate.DaysBeforeMonth leap m <= 335.
Proof.
  unfold JsDate.DaysBeforeMonth.
  destruct leap; destruct m as [|p|p]; try lia;
    do 4 (try (destruct p as [p|p|]; try lia)).
Qed.

(** The fields of a well-formed date string are a year of four digits,
    a month and a day. *)
Lemma date_fields_range (s : string) (y m d : Z) :
  JsDate.date_fields s = Some (y, m, d) ->
  0 <= y <= 9999 /\ 1 <= m <= 12 /\ 1 <= d <= 31.
Proof.
  unfold JsDate.date_fields.
  destruct (negb (String.length s =? 10)%nat) eqn:Hlen; [discriminate|].
  apply negb_false_iff, Nat.eqb_eq in Hlen.
  do 10 (destruct s as [|? s]; [simpl in Hlen; lia|]).
  destruct s; [|simpl in Hlen; lia].
  destruct (negb _); [discriminate|].
  cbn -[JsDate.is_digit JsDate.digit_value Z.mul Z.add].
  repeat match goal with
         | |- context [JsDate.is_digit ?c] =>
             let H := fresh "D" in
             destruct (JsDate.is_digit c) eqn:H;
             [apply digit_value_range in H|discriminate]
         end.
  destruct (_ && _) eqn:R; [|discriminate].
  intros E.
  match type of E with
  | Some (?a, ?b, ?c) = _ =>
      assert (Ey : a = y) by congruence;
      assert (Em : b = m) by congruence;
      assert (Ed : c = d) by congruence
  end.
  clear E. rewrite <- Ey, <- Em, <- Ed.
  repeat (apply andb_true_iff in R; destruct R as [R ?]).
  repeat match goal with H : (_ <=? _) = true |- _ => apply Z.leb_le in H end.
  lia.
Qed.

Lemma end_of_day_in_range (y m d : Z) :
  0 <= y <= 9999 -> 1 <= m <= 12 -> 1 <= d <= 31 ->
  JsDate.TimeClip (JsDate.MakeDate (JsDate.MakeDay y (m - 1) d) 66599000)
  = Some (JsDate.MakeDate (JsDate.MakeDay y (m - 1) d) (JsDate.MakeTime 23 59 59 0)
          - Spec.ist_offset).
Proof.
  intros Hy Hm Hd.
  unfold JsDate.TimeClip, JsDate.MakeDate, JsDate.MakeDay, JsDate.MakeTime,
    Spec.ist_offset, JsDate.msPerDay, JsDate.msPerHour, JsDate.msPerMinute,
    JsDate.msPerSecond, JsDate.DayFromYear.
  replace ((m - 1) / 12) with 0 by lia.
  replace ((m - 1) mod 12) with (m - 1) by lia.
  pose proof (DaysBeforeMonth_range (JsDate.InLeapYear (y + 0)) (m - 1)) as B.
  set (b := JsDate.DaysBeforeMonth _ _) in *.
  match goal with
  | |- (if ?c then _ else _) = _ => replace c with true by (symmetry; apply Z.leb_le; lia)
  end.
  f_equal. lia.
Qed.

(** The date the handler builds, [date + 'T23:59:59+05:30'], is the end
    of that day in India. *)
Lemma selected_date_is_ist_end_of_day (date : string) :
  Spec.has_date_format date = true ->
  JsDate.parse (date ++ "T23:59:59+05:30") = Spec.ist_instant date 23 59 59.
Proof.
  intros F. unfold Spec.has_date_format in F.
  do 10 (destruct date as [|? date]; [simpl in F; discriminate F|]).
  destruct date; [|simpl in F; discriminate F]. clear F.
  unfold JsDate.parse, Spec.ist_instant.
  match goal with
  | |- context [substring 0 10 ?s] =>
      match goal with
      | |- context [JsDate.date_fields ?d] =>
          change (substring 0 10 s) with d;
          change (substring 10 (String.length s - 10) s) with "T23:59:59+05:30"
      end
  end.
  change (JsDate.parse_time_part "T23:59:59+05:30") with (Some 66599000).
  unfold JsDate.parse_date_part.
  destruct (JsDate.date_fields _) as [[[y m] d]|] eqn:E; [|reflexivity].
  apply date_fields_range in E. destruct E as (Hy & Hm & Hd).
  now apply end_of_day_in_range.
Qed.


(** ** Frames *)

Section Frames.
Context {S T : Type} (obs : S -> T).

Lemma preserves_ret {A} (a : A) : preserves obs (ret a).
Proof. intros w. reflexivity. Qed.

Lemma preserves_throw {A} (e : JsError) : preserves obs (@throw S A e).
Proof. intros w. reflexivity. Qed.

Lemma preserves_eval {A} (c : completion A) : preserves obs (eval c).
Proof. intros w. reflexivity. Qed.

Lemma preserves_gets {A} (f : S -> A) : preserves obs (gets f).
Proof. intros w. reflexivity. Qed.

Lemma preserves_bind {A B} (m : Stmt S A) (k : A -> Stmt S B) :
  preserves obs m -> (forall a, preserves obs (k a)) -> preserves obs (bind m k).
Proof.
  intros Hm Hk w. unfold bind. specialize (Hm w).
  destruct (m w) as [w' [a|e]]; cbn in *; [|assumption].
  rewrite Hk. assumption.
Qed.

Lemma preserves_try_catch {A} (m : Stmt S A) (handler : JsError -> Stmt S A) :
  preserves obs m -> (forall e, preserves obs (handler e)) ->
  preserves obs (try_catch m handler).
Proof.
  intros Hm Hh w. unfold try_catch. specialize (Hm w).
  destruct (m w) as [w' [a|e]]; cbn in *; [assumption|].
  rewrite Hh. assumption.
Qed.

Lemma preserves_for_each {A} (xs : list A) (body : A -> Stmt S unit) :
  (forall x, preserves obs (body x)) -> preserves obs (for_each xs body).
Proof.
  intros Hb. induction xs as [|x xs IH]; cbn.
  - apply preserves_ret.
  - apply preserves_bind; [apply Hb|intros _; apply IH].
Qed.

End Frames.

Lemma preserves_fetch {T} (obs : World -> T) (url : string) (payload : jsval)
    (timeout : option Z) (net : FetchOutcome) :
  (forall rs w, obs (set_requests rs w) = obs w) ->
  preserves obs (fetch url payload timeout net).
Proof. intros H w. unfold fetch. destruct net; cbn; apply H. Qed.

(** Decomposes a frame goal along the structure of the statement. *)
Ltac frame :=
  repeat first
    [ apply preserves_bind; [|intros ?]
    | apply preserves_try_catch; [|intros ?]
    | apply preserves_for_each; intros ?
    | apply preserves_ret
    | apply preserves_throw
    | apply preserves_eval
    | apply preserves_gets
    | apply preserves_fetch; intros ? ?; reflexivity
    | match goal with
      | |- preserves _ (if ?c then _ else _) => destruct c
      | |- preserves _ (let '(_, _) := ?p in _) => destruct p
      end
    | (intros ?; reflexivity) ].

#[local] Arguments String.append : simpl never.

(** ** Rows as cells

    What the parser makes of the markup of a row of the template, when
    the texts put into it hold no markup character. *)

Lemma append_nil_r (s : string) : s ++ "" = s.
Proof.
  induction s as [|c s IH]; [reflexivity|].
  change (String c s ++ "") with (String c (s ++ "")). now rewrite IH.
Qed.

Lemma run_app (st : option Html.State) (a b : string) :
  Html.run st (a ++ b) = Html.run (Html.run st a) b.
Proof.
  revert st. induction a as [|c a IH]; intros st; [reflexivity|].
  change (String c a ++ b) with (String c (a ++ b)). cbn [Html.run]. apply IH.
Qed.

Lemma plain_cons (c : ascii) (s : string) :
  Html.plain (String c s) = true ->
  Ascii.eqb c "&" = false /\ Ascii.eqb c "<" = false /\ Ascii.eqb c "034" = false
  /\ Html.unmodelled c = false /\ Html.plain s = true.
Proof.
  unfold Html.plain. cbn [list_ascii_of_string forallb]. intros H.
  apply andb_true_iff in H as [H1 H2]. apply negb_true_iff in H1.
  apply orb_false_iff in H1 as [H1 U]. apply orb_false_iff in H1 as [H1 Q].
  apply orb_false_iff in H1 as [A L]. auto.
Qed.

Lemma push_append (c : ascii) (t s : string) : Html.push c t ++ s = t ++ String c s.
Proof. unfold Html.push. rewrite append_assoc. reflexivity. Qed.

(** Plain text inside an element is taken as it is. *)
Lemma run_plain_text (s t : string) (f : Html.Frame) (frames : list Html.Frame)
    (cells : list Html.Cell) :
  Html.plain s = true ->
  Html.run (Some (Html.mkState (Html.Data t) (f :: frames) cells)) s
  = Some (Html.mkState (Html.Data (t ++ s)) (f :: frames) cells).
Proof.
  revert t. induction s as [|c s IH]; intros t P.
  - now rewrite append_nil_r.
  - apply plain_cons in P as (A & L & Q & U & P).
    cbn [Html.run]. unfold Html.step at 1. cbn [Html.mode Html.open_elements Html.closed_cells].
    rewrite U, L, A. rewrite (IH _ P), push_append. reflexivity.
Qed.

(** Plain text inside a quoted attribute value is taken as it is. *)
Lemma run_plain_value (s src : string) (frames : list Html.Frame) (cells : list Html.Cell) :
  Html.plain s = true ->
  Html.run (Some (Html.mkState (Html.Tag src true) frames cells)) s
  = Some (Html.mkState (Html.Tag (src ++ s) true) frames cells).
Proof.
  revert src. induction s as [|c s IH]; intros src P.
  - now rewrite append_nil_r.
  - apply plain_cons in P as (A & L & Q & U & P).
    cbn [Html.run]. unfold Html.step at 1. cbn [Html.mode Html.open_elements Html.closed_cells].
    rewrite U, Q. cbn [negb andb]. rewrite andb_false_r.
    rewrite (IH _ P), push_append. reflexivity.
Qed.

Lemma decode_plain (s : string) : Html.plain s = true -> Html.decode None s = Some s.
Proof.
  induction s as [|c s IH]; intros P; [reflexivity|].
  apply plain_cons in P as (A & L & Q & U & P).
  cbn [Html.decode]. rewrite A, (IH P). reflexivity.
Qed.

Lemma until_quote_plain (s rest : string) :
  Html.plain s = true ->
  Html.until_quote (s ++ String "034" rest) = Some (s, rest).
Proof.
  induction s as [|c s IH]; intros P; [reflexivity|].
  apply plain_cons in P as (A & L & Q & U & P).
  change (String c s ++ String "034" rest) with (String c (s ++ String "034" rest)).
  cbn [Html.until_quote]. rewrite Q, (IH P). reflexivity.
Qed.

Lemma substring_all (s : string) : substring 0 (String.length s) s = s.
Proof. induction s as [|c s IH]; cbn; [reflexivity|]. now rewrite IH. Qed.


Lemma strip_prefix (p s : string) : Html.strip p (p ++ s) = Some s.
Proof.
  unfold Html.strip.
  assert (P : String.prefix p (p ++ s) = true).
  { induction p as [|c p IH]; [now destruct s|].
    change (String c p ++ s) with (String c (p ++ s)). cbn [String.prefix].
    destruct (ascii_dec c c) as [_|N]; [exact IH|now destruct N]. }
  rewrite P. f_equal.
  induction p as [|c p IH].
  - change ("" ++ s) with s. cbn [String.length]. rewrite Nat.sub_0_r. apply substring_all.
  - change (String c p ++ s) with (String c (p ++ s)).
    cbn [String.length Nat.sub substring]. apply IH.
    clear IH. revert P. change (String c p ++ s) with (String c (p ++ s)). cbn [String.prefix].
    now destruct (ascii_dec c c).
Qed.

Lemma read_link_tag (url : string) :
  Html.plain url = true ->
  Html.read_tag (("a href=" ++ dq) ++ url ++ dq ++ (" target=" ++ dq) ++ "_blank" ++ dq)
  = Some (Html.OpenLink url "_blank").
Proof.
  intros P. unfold Html.read_tag.
  assert (E : forall t, String.eqb (("a href=" ++ dq) ++ t) "td" = false
                      /\ String.eqb (("a href=" ++ dq) ++ t) "/td" = false
                      /\ String.eqb (("a href=" ++ dq) ++ t) "div" = false
                      /\ String.eqb (("a href=" ++ dq) ++ t) "/div" = false
                      /\ String.eqb (("a href=" ++ dq) ++ t) "/a" = false).
  { intros t. repeat split; reflexivity. }
  destruct (E (url ++ dq ++ (" target=" ++ dq) ++ "_blank" ++ dq)) as (-> & -> & -> & -> & ->).
  change ("a href=" ++ String "034" "") with ("a href=" ++ dq).
  rewrite strip_prefix.
  change (dq ++ (" target=" ++ dq) ++ "_blank" ++ dq)
    with (String "034" ((" target=" ++ dq) ++ "_blank" ++ dq)).
  rewrite (until_quote_plain _ _ P).
  change (" target=" ++ String "034" "") with (" target=" ++ dq).
  rewrite strip_prefix.
  change ("_blank" ++ dq) with ("_blank" ++ String "034" "").
  rewrite (until_quote_plain "_blank" "" eq_refl).
  rewrite (decode_plain _ P). reflexivity.
Qed.

Lemma run_lt (text tag : string) (frames : list Html.Frame) (cells : list Html.Cell) :
  Html.run (Some (Html.mkState (Html.Data text) frames cells)) (String "<" tag)
  = Html.run (Some (Html.mkState (Html.Tag "" false) (Html.flush text frames) cells)) tag.
Proof. reflexivity. Qed.

Lemma flush_text (text : string) (f : Html.Frame) (frames : list Html.Frame) :
  String.eqb text "" = false ->
  Html.flush text (f :: frames) = Html.add_child (Html.Text text) f :: frames.
Proof. intros H. unfold Html.flush. now rewrite H. Qed.

Lemma or_else_plain (x : option string) (fallback : string) :
  plain_field x = true -> Html.plain fallback = true ->
  Html.plain (Spec.or_else x fallback) = true.
Proof.
  intros Px Pf. destruct x as [s|]; cbn [Spec.or_else]; [|exact Pf].
  destruct (String.eqb s ""); [exact Pf|exact Px].
Qed.

Lemma or_else_not_empty (x : option string) (fallback : string) :
  String.eqb fallback "" = false -> String.eqb (Spec.or_else x fallback) "" = false.
Proof.
  intros Hf. destruct x as [s|]; cbn [Spec.or_else]; [|exact Hf].
  destruct (String.eqb s "") eqn:E; [exact Hf|exact E].
Qed.

(** A link with plain target and label is one link node with one text. *)
Lemma run_link (url label : string) (f : Html.Frame) (frames : list Html.Frame)
    (cells : list Html.Cell) :
  Html.plain url = true -> Html.plain label = true -> String.eqb label "" = false ->
  existsb Html.in_link (f :: frames) = false ->
  Html.run (Some (Html.mkState (Html.Data "") (f :: frames) cells)) (Spec.link url label)
  = Some (Html.mkState (Html.Data "")
            (Html.add_child (Html.Link url "_blank" [Html.Text label]) f :: frames) cells).
Proof.
  intros Pu Pl Nl Hf. unfold Spec.link.
  replace ("<a href=" ++ dq ++ url ++ dq ++ " target=" ++ dq ++ "_blank" ++ dq ++ ">"
           ++ label ++ "</a>")
    with (("<a href=" ++ dq) ++ url
          ++ (dq ++ " target=" ++ dq ++ "_blank" ++ dq ++ ">") ++ label ++ "</a>")
    by (rewrite !append_assoc; reflexivity).
  rewrite run_app.
  change (Html.run (Some (Html.mkState (Html.Data "") (f :: frames) cells)) ("<a href=" ++ dq))
    with (Some (Html.mkState (Html.Tag ("a href=" ++ dq) true) (f :: frames) cells)).
  rewrite run_app, (run_plain_value _ _ _ _ Pu), run_app.
  assert (T : Html.run (Some (Html.mkState (Html.Tag (("a href=" ++ dq) ++ url) true)
                                (f :: frames) cells))
                (dq ++ " target=" ++ dq ++ "_blank" ++ dq ++ ">")
              = Some (Html.mkState (Html.Data "")
                        (Html.InLink url "_blank" [] :: f :: frames) cells)).
  { transitivity
      (match Html.read_tag (("a href=" ++ dq) ++ url ++ dq ++ (" target=" ++ dq)
                            ++ "_blank" ++ dq) with
       | Some t => Html.build t (f :: frames) cells
       | None => None
       end).
    - replace (("a href=" ++ dq) ++ url ++ dq ++ (" target=" ++ dq) ++ "_blank" ++ dq)
        with (Html.push "034" (Html.push "k" (Html.push "n" (Html.push "a" (Html.push "l"
               (Html.push "b" (Html.push "_" (Html.push "034" (Html.push "="
               (Html.push "t" (Html.push "e" (Html.push "g" (Html.push "r" (Html.push "a"
               (Html.push "t" (Html.push " " (Html.push "034"
                  (("a href=" ++ dq) ++ url))))))))))))))))))
        by (unfold Html.push; rewrite !append_assoc; reflexivity).
      reflexivity.
    - rewrite (read_link_tag _ Pu). cbn [Html.build]. now rewrite Hf. }
  rewrite T, run_app, (run_plain_text _ _ _ _ _ Pl).
  change ("" ++ label) with label.
  change "</a>" with (String "<" "/a>").
  rewrite run_lt, (flush_text _ _ _ Nl). reflexivity.
Qed.

Lemma plain_app (a b : string) :
  Html.plain a = true -> Html.plain b = true -> Html.plain (a ++ b) = true.
Proof.
  intros Pa Pb. induction a as [|c a IH]; [exact Pb|].
  change (String c a ++ b) with (String c (a ++ b)).
  unfold Html.plain in *. cbn [list_ascii_of_string forallb] in *.
  apply andb_true_iff in Pa as [Pc Pa]. rewrite Pc. exact (IH Pa).
Qed.

(** One related article is one block: its link, then its source and date. *)
Lemma run_related_item (r : Spec.RelatedArticle) (ch : list Html.Node)
    (cells : list Html.Cell) :
  plain_related r = true ->
  Html.run (Some (Html.mkState (Html.Data "") [Html.InCell ch] cells)) (Spec.related_item r)
  = Some (Html.mkState (Html.Data "") [Html.InCell (related_nodes r :: ch)] cells).
Proof.
  unfold plain_related. intros P.
  apply andb_true_iff in P as [P Pd]. apply andb_true_iff in P as [P Ps].
  apply andb_true_iff in P as [Pt Pu].
  unfold Spec.related_item.
  set (u := Spec.or_else (Spec.rel_url r) "#").
  set (t := Spec.or_else (Spec.rel_title r) "No Title").
  set (s := Spec.or_else (Spec.rel_source r) "Unknown Source").
  set (d := Spec.or_else (Spec.rel_publishedAt r) "Unknown Date").
  replace ("<div>" ++ Spec.link u t ++ " (" ++ s ++ ", " ++ d ++ ")</div>")
    with ("<div>" ++ Spec.link u t ++ (" (" ++ s ++ ", " ++ d ++ ")") ++ "</div>")
    by (rewrite !append_assoc; reflexivity).
  rewrite run_app.
  change (Html.run (Some (Html.mkState (Html.Data "") [Html.InCell ch] cells)) "<div>")
    with (Some (Html.mkState (Html.Data "") [Html.InDiv []; Html.InCell ch] cells)).
  rewrite run_app, run_link;
    [|now apply or_else_plain|now apply or_else_plain|now apply or_else_not_empty|reflexivity].
  rewrite run_app, run_plain_text.
  2:{ apply (plain_app " ("), plain_app, (plain_app ", "), plain_app;
        solve [reflexivity | now apply or_else_plain]. }
  change ("" ++ ?x) with x.
  change "</div>" with (String "<" "/div>").
  rewrite run_lt, flush_text by reflexivity.
  reflexivity.
Qed.

Lemma concat_cons (x : string) (xs : list string) :
  String.concat "" (x :: xs) = x ++ String.concat "" xs.
Proof. destruct xs; cbn [String.concat]; [now rewrite append_nil_r|reflexivity]. Qed.

Lemma run_related_items (rs : list Spec.RelatedArticle) (ch : list Html.Node)
    (cells : list Html.Cell) :
  forallb plain_related rs = true ->
  Html.run (Some (Html.mkState (Html.Data "") [Html.InCell ch] cells))
    (String.concat "" (map Spec.related_item rs))
  = Some (Html.mkState (Html.Data "") [Html.InCell (rev (map related_nodes rs) ++ ch)] cells).
Proof.
  revert ch. induction rs as [|r rs IH]; intros ch P; [reflexivity|].
  cbn [forallb] in P. apply andb_true_iff in P as [Pr P].
  cbn [map]. rewrite concat_cons, run_app, (run_related_item _ _ _ Pr), (IH _ P).
  cbn [rev]. now rewrite <- app_assoc.
Qed.

(** A cell of the template: what its content leaves in the open cell. *)
Lemma run_cell (content text : string) (ch ch' : list Html.Node) (cells : list Html.Cell) :
  Html.run (Some (Html.mkState (Html.Data "") [Html.InCell []] cells)) content
  = Some (Html.mkState (Html.Data text) [Html.InCell ch] cells) ->
  Html.flush text [Html.InCell ch] = [Html.InCell ch'] ->
  Html.run (Some (Html.mkState (Html.Data "") [] cells)) (Spec.cell content)
  = Some (Html.mkState (Html.Data "") [] (rev ch' :: cells)).
Proof.
  intros Hc Hf. unfold Spec.cell.
  replace (nl ++ spaces 16 ++ "<td>" ++ content ++ "</td>")
    with ((nl ++ spaces 16 ++ "<td>") ++ content ++ "</td>")
    by (rewrite !append_assoc; reflexivity).
  rewrite run_app.
  change (Html.run (Some (Html.mkState (Html.Data "") [] cells)) (nl ++ spaces 16 ++ "<td>"))
    with (Some (Html.mkState (Html.Data "") [Html.InCell []] cells)).
  rewrite run_app, Hc.
  change "</td>" with (String "<" "/td>").
  rewrite run_lt, Hf. reflexivity.
Qed.

Lemma run_text_cell (content : string) (cells : list Html.Cell) :
  Html.plain content = true -> String.eqb content "" = false ->
  Html.run (Some (Html.mkState (Html.Data "") [] cells)) (Spec.cell content)
  = Some (Html.mkState (Html.Data "") [] ([Html.Text content] :: cells)).
Proof.
  intros P N.
  apply (run_cell content content [] [Html.Text content]).
  - now rewrite run_plain_text.
  - now rewrite flush_text.
Qed.

(** The markup of a row whose texts are plain is five cells: those of
    the article. *)
Lemma row_cells (a : Spec.Article) :
  plain_article a = true -> Html.cells (Spec.row a) = Some (article_cells a).
Proof.
  unfold plain_article. intros P.
  apply andb_true_iff in P as [P Pr]. apply andb_true_iff in P as [P Pd].
  apply andb_true_iff in P as [P Ps]. apply andb_true_iff in P as [P Pc].
  apply andb_true_iff in P as [Pt Pu].
  unfold Html.cells, Spec.row.
  rewrite run_app.
  rewrite (run_cell _ "" [Html.Link (Spec.or_else (Spec.url a) "#") "_blank"
                            [Html.Text (Spec.or_else (Spec.title a) "No Title")]]
             [Html.Link (Spec.or_else (Spec.url a) "#") "_blank"
                [Html.Text (Spec.or_else (Spec.title a) "No Title")]]);
    [|apply run_link;
        solve [reflexivity | now apply or_else_plain | now apply or_else_not_empty]
     |reflexivity].
  rewrite run_app, run_text_cell by (now apply or_else_plain || now apply or_else_not_empty).
  rewrite run_app, run_text_cell by (now apply or_else_plain || now apply or_else_not_empty).
  rewrite run_app, run_text_cell by (now apply or_else_plain || now apply or_else_not_empty).
  rewrite run_app.
  assert (R : forall cells,
             Html.run (Some (Html.mkState (Html.Data "") [] cells))
               (Spec.cell (Spec.related_cell (Spec.relatedArticles a)))
             = Some (Html.mkState (Html.Data "") []
                       (match Spec.relatedArticles a with
                        | [] => [Html.Text "None"]
                        | rs => map related_nodes rs
                        end :: cells))).
  { intros cells. destruct (Spec.relatedArticles a) as [|r rs] eqn:E.
    - apply run_text_cell; reflexivity.
    - unfold Spec.related_cell.
      rewrite (run_cell _ "" (rev (map related_nodes (r :: rs)) ++ [])
                 (rev (map related_nodes (r :: rs)) ++ []));
        [|now apply run_related_items|reflexivity].
      now rewrite app_nil_r, rev_involutive. }
  rewrite R. reflexivity.
Qed.

(** ** The fetch flow *)

Section FetchFlow.
Context {engine : Engine}.

Lemma accepted_query_is_fetched (now : Z) (net : FetchOutcome) (w : World) :
  Spec.accepted (district_value w) (date_value w) now = true ->
  fetch_news_click now net w
  = try_catch (fetch_phase (district_value w) (date_value w) net) fetch_catch w.
Proof.
  unfold Spec.accepted, fetch_news_click, bind, gets. intros H.
  apply andb_true_iff in H as [H Hfuture].
  apply andb_true_iff in H as [H Hformat].
  apply andb_true_iff in H as [Hdistrict Hdate].
  cbn [truthy]. rewrite Hdistrict, Hdate, regex_is_date_format, Hformat.
  rewrite selected_date_is_ist_end_of_day by assumption.
  unfold JsDate.gt. cbn [negb].
  destruct (Spec.ist_instant _ _ _ _); [|reflexivity].
  apply negb_true_iff in Hfuture. rewrite Hfuture. reflexivity.
Qed.

(** A query that is not accepted changes the status line and nothing
    else. *)
Lemma refused_query_sets_status (now : Z) (net : FetchOutcome) (w : World) :
  Spec.accepted (district_value w) (date_value w) now = false ->
  exists msg, fetch_news_click now net w = (set_status_text msg w, Normal tt).
Proof.
  unfold Spec.accepted, fetch_news_click, bind, gets, set_status, modify. intros H.
  cbn [truthy].
  destruct (district_value w =? "")%string; cbn [negb andb] in *; [eauto|].
  destruct (date_value w =? "")%string; cbn [negb andb] in *; [eauto|].
  rewrite regex_is_date_format.
  destruct (Spec.has_date_format (date_value w)) eqn:F; cbn [negb andb] in *; [|eauto].
  rewrite selected_date_is_ist_end_of_day by assumption.
  unfold JsDate.gt.
  destruct (Spec.ist_instant _ _ _ _); [|discriminate].
  apply negb_false_iff in H. rewrite H. eauto.
Qed.

Lemma fetch_phase_rejects (district date : string) (e : JsError) (w : World) :
  fetch_phase district date (Rejects e) w = (sent district date w, Throw e).
Proof. reflexivity. Qed.

Lemma fetch_phase_resolves (district date : string) (st : Z) (b : option BodyStream)
    (w : World) :
  fetch_phase district date (Resolves st b) w
  = (if ok_status st then handle_success (Spec.received_text b) district date
     else handle_failure (Spec.received_text b))
      (logged "Fetch news response:" b (sent district date w)).
Proof.
  unfold fetch_phase, bind, fetch, set_status, console_log, modify, Response_text,
    consume_body, read_body_text, try_catch, eval, ret, logged, Spec.received_text,
    Spec.readable, ok, sent.
  cbn. destruct b as [[t|e]|]; cbn; destruct (ok_status st); reflexivity.
Qed.

Lemma fetch_catch_runs (e : JsError) (w : World) :
  exists w',
    fetch_catch e w = (w', Normal tt)
    /\ status_text w' = (if (err_name e =? "TimeoutError")%string then msg_timeout
                         else "Error: " ++ err_message e)
    /\ news_rows w' = [] /\ download_display w' = "none"
    /\ download_onclick w' = download_onclick w
    /\ requests w' = requests w.
Proof.
  eexists. split; [reflexivity|]. cbn. repeat split.
Qed.

Lemma Get_of_value (v : jsval) (k : string) :
  nullish v = false -> exists x, Get v k = Normal x.
Proof.
  destruct v; cbn; try discriminate; intros _; eauto.
  - destruct (k =? "length")%string; eauto.
  - destruct (k =? "length")%string; eauto.
  - destruct (own_property k props); eauto.
Qed.

Lemma Get_only_of_value (v : jsval) (k : string) (x : jsval) :
  Get v k = Normal x -> nullish v = false.
Proof. destruct v; cbn; intros; try discriminate; reflexivity. Qed.

(** A response with a failure status always throws, and writes
    nothing. *)
Lemma handle_failure_throws (text : string) (w : World) :
  exists e, handle_failure text w = (w, Throw e).
Proof.
  unfold handle_failure, bind, try_catch, eval, ret, throw, JSON_parse_c.
  destruct (JSON_parse text) as [v|msg]; cbn.
  - destruct (Get v "error") as [e|err]; cbn.
    + destruct (truthy e); cbn; [|eauto].
      destruct (ToString e); cbn; eauto.
    + eauto.
  - eauto.
Qed.

Lemma handle_failure_error_field (text : string) (v : jsval) (s : string) (w : World) :
  JSON_parse text = inl v -> Get v "error" = Normal (JStr s) -> s <> "" ->
  handle_failure text w = (w, Throw (Error s)).
Proof.
  intros P G N.
  unfold handle_failure, bind, try_catch, eval, ret, throw, JSON_parse_c.
  rewrite P. cbn. rewrite G. cbn.
  apply String.eqb_neq in N. rewrite N. reflexivity.
Qed.

Lemma handle_success_malformed (text district date msg : string) (w : World) :
  JSON_parse text = inr msg ->
  handle_success text district date w = (w, Throw (SyntaxError msg)).
Proof.
  intros P. unfold handle_success, bind, eval, JSON_parse_c. rewrite P. reflexivity.
Qed.

Lemma handle_success_stops (text district date : string) (result : jsval) (msg : string)
    (w : World) :
  JSON_parse text = inl result -> Spec.stops_with result msg ->
  handle_success text district date w
  = (set_download_display "none" (set_news_rows [] (set_status_text msg w)), Normal tt).
Proof.
  intros P S. unfold handle_success, bind, eval, JSON_parse_c. rewrite P.
  destruct S as [e s G T C|e articles G T A E]; rewrite G, T.
  - rewrite C. reflexivity.
  - rewrite A. destruct E as [F| ->].
    + rewrite F. reflexivity.
    + reflexivity.
Qed.

(** The loop over the articles appends the rows in order. *)
Lemma render_loop_appends (articles : list jsval) (rows : list string) (w : World) :
  map_c render_row articles = Normal rows ->
  for_each articles add_row w = (set_news_rows (news_rows w ++ rows) w, Normal tt).
Proof.
  revert rows w. induction articles as [|a rest IH]; intros rows w.
  - cbn. intros [= <-]. rewrite app_nil_r. destruct w; reflexivity.
  - cbn [map_c for_each]. unfold bind at 1. unfold add_row at 1. unfold bind at 1. unfold eval at 1.
    destruct (render_row a) as [html|e]; cbn [cbind]; [|discriminate].
    destruct (map_c render_row rest) as [rows'|e] eqn:R; cbn [cbind]; [|discriminate].
    intros [= <-]. unfold append_row at 1, modify.
    rewrite (IH rows') by reflexivity. cbn. rewrite <- app_assoc. reflexivity.
Qed.

Lemma render_loop_throws (articles : list jsval) (e : JsError) (w : World) :
  map_c render_row articles = Throw e ->
  exists w', for_each articles add_row w = (w', Throw e).
Proof.
  revert w. induction articles as [|a rest IH]; intros w.
  - discriminate.
  - cbn [map_c for_each]. unfold bind at 1. unfold add_row at 1. unfold bind at 1. unfold eval at 1.
    destruct (render_row a) as [html|e']; cbn [cbind].
    + destruct (map_c render_row rest) as [rows'|e''] eqn:R; cbn [cbind]; [discriminate|].
      intros [= ->]. unfold append_row at 1, modify. apply IH. reflexivity.
    + intros [= ->]. eauto.
Qed.

Lemma map_c_length {A B} (f : A -> completion B) (l : list A) (r : list B) :
  map_c f l = Normal r -> List.length r = List.length l.
Proof.
  revert r. induction l as [|x l IH]; intros r; cbn.
  - intros [= <-]. reflexivity.
  - destruct (f x); cbn; [|discriminate].
    destruct (map_c f l); cbn; [|discriminate].
    intros [= <-]. cbn. f_equal. now apply IH.
Qed.

Lemma length_truthy (l : list jsval) :
  truthy (JNum (num_of_nat (List.length l))) = negb (match l with [] => true | _ => false end).
Proof. destruct l; reflexivity. Qed.

(** Rendering a list of articles whose rows can all be built. *)
Lemma render_result_renders (result : jsval) (articles : list jsval) (rows : list string)
    (district date : string) (mock : jsval) (w : World) :
  Get result "is_mock" = Normal mock ->
  map_c render_row articles = Normal rows ->
  render_result result (JArr articles) district date w
  = (set_download_onclick (Some (mkPdfAction (JArr articles) district date))
       (set_download_display (match articles with [] => "none" | _ => "block" end)
          (set_news_rows rows
             (set_status_text (if truthy mock then msg_mock district
                               else "Articles loaded successfully.") w))),
     Normal tt).
Proof.
  intros M R. unfold render_result.
  unfold bind at 1. unfold eval at 1. rewrite M.
  unfold bind at 1.
  destruct (truthy mock); unfold set_status at 1, modify at 1;
    unfold bind at 1; unfold clear_rows at 1, modify at 1;
    unfold bind at 1; unfold eval at 1; cbn [array_elements];
    unfold bind at 1; rewrite (render_loop_appends _ _ _ R);
    unfold bind at 1; unfold eval at 1; cbn [Get String.eqb Ascii.eqb Bool.eqb];
    unfold bind, set_display, set_onclick, modify;
    rewrite length_truthy; destruct articles; reflexivity.
Qed.

Lemma render_result_throws (result : jsval) (articles : list jsval) (e : JsError)
    (district date : string) (mock : jsval) (w : World) :
  Get result "is_mock" = Normal mock ->
  map_c render_row articles = Throw e ->
  exists w', render_result result (JArr articles) district date w = (w', Throw e).
Proof.
  intros M R. unfold render_result.
  unfold bind at 1. unfold eval at 1. rewrite M.
  unfold bind at 1.
  destruct (truthy mock); unfold set_status at 1, modify at 1;
    unfold bind at 1; unfold clear_rows at 1, modify at 1;
    unfold bind at 1; unfold eval at 1; cbn [array_elements];
    unfold bind at 1;
    match goal with
    | |- context [for_each _ _ ?w'] =>
        destruct (render_loop_throws _ _ w' R) as [w2 E]
    end; rewrite E; eauto.
Qed.

Lemma render_result_not_array (result a : jsval) (district date : string)
    (mock : jsval) (w : World) :
  Get result "is_mock" = Normal mock ->
  (forall l, a <> JArr l) ->
  exists w' e, render_result result a district date w = (w', Throw e).
Proof.
  intros M N. unfold render_result.
  unfold bind at 1. unfold eval at 1. rewrite M.
  unfold bind at 1.
  destruct (truthy mock); unfold set_status at 1, modify at 1;
    unfold bind at 1; unfold clear_rows at 1, modify at 1;
    unfold bind at 1; unfold eval at 1;
    (destruct a; cbn [array_elements]; eauto; exfalso; eapply N; reflexivity).
Qed.

(** What a completed [try] block leaves: an empty table with the
    download button hidden, or the rows of the articles received. *)
Lemma fetch_phase_returns (district date : string) (net : FetchOutcome) (w w1 : World) :
  fetch_phase district date net w = (w1, Normal tt) ->
  (news_rows w1 = [] /\ download_display w1 = "none")
  \/ (exists st b result articles rows,
        net = Resolves st b /\ ok_status st = true
        /\ JSON_parse (Spec.received_text b) = inl result
        /\ Get result "articles" = Normal (JArr articles)
        /\ articles <> []
        /\ map_c render_row articles = Normal rows
        /\ news_rows w1 = rows
        /\ download_display w1 = "block"
        /\ download_onclick w1 = Some (mkPdfAction (JArr articles) district date)
        /\ exists e, Get result "error" = Normal e /\ truthy e = false).
Proof.
  destruct net as [e|st b].
  { rewrite fetch_phase_rejects. discriminate. }
  rewrite fetch_phase_resolves.
  set (w0 := logged _ _ _). clearbody w0.
  set (text := Spec.received_text b).
  destruct (ok_status st) eqn:S.
  2: { destruct (handle_failure_throws text w0) as [e ->]. discriminate. }
  destruct (JSON_parse text) as [result|msg] eqn:P.
  2: { rewrite (handle_success_malformed _ _ _ _ _ P). discriminate. }
  unfold handle_success. unfold bind at 1. unfold eval at 1, JSON_parse_c. rewrite P.
  unfold bind at 1. unfold eval at 1.
  destruct (Get result "error") as [e|err] eqn:G; [|discriminate].
  destruct (truthy e) eqn:Te.
  { unfold bind at 1. unfold eval at 1.
    destruct (ToString e); [|discriminate].
    intros [= <-]. left. split; reflexivity. }
  destruct (Get_of_value result "articles" (Get_only_of_value _ _ _ G)) as [a A].
  destruct (Get_of_value result "is_mock" (Get_only_of_value _ _ _ G)) as [m M].
  unfold bind at 1. unfold eval at 1. rewrite A.
  destruct (truthy a) eqn:T; cbn [negb].
  2: { unfold bind at 1. unfold ret at 1. intros [= <-]. left. split; reflexivity. }
  destruct (Get_of_value a "length") as [len L].
  { destruct a; try discriminate; reflexivity. }
  unfold bind at 1. unfold bind at 1. unfold eval at 1. rewrite L.
  unfold ret at 1.
  destruct (strict_eq_zero len) eqn:Z.
  { intros [= <-]. left. split; reflexivity. }
  assert (D : (exists l, a = JArr l) \/ (forall l, a <> JArr l)).
  { destruct a; try (right; discriminate). left. eauto. }
  destruct D as [[articles ->]|N].
  2: { destruct (render_result_not_array _ _ district date _ w0 M N) as (w' & e' & ->).
       discriminate. }
  destruct (map_c render_row articles) as [rows|e'] eqn:R.
  2: { destruct (render_result_throws _ _ _ district date _ w0 M R) as (w' & ->).
       discriminate. }
  rewrite (render_result_renders _ _ _ _ _ _ _ M R).
  intros [= <-]. right.
  exists st, b, result, articles, rows.
  assert (articles <> []).
  { intros ->. cbn in L. injection L as <-. discriminate. }
  repeat (split; [assumption || reflexivity|]).
  split; [cbn; destruct articles; [contradiction|reflexivity]|].
  split; [reflexivity|]. now exists e.
Qed.

(** ** Rows against the data model *)

Lemma text_or_string (s fallback : string) :
  text_or (JStr s) fallback = Normal (Spec.or_else (Some s) fallback).
Proof.
  unfold text_or, js_or, Spec.or_else. cbn [truthy].
  destruct (s =? "")%string; reflexivity.
Qed.

(** An optional string field, read by the handler with a fallback. *)
Lemma optional_string_read (props : list (string * jsval)) (k : string)
    (field : option string) :
  Spec.optional_string props k = Some field ->
  exists x, Get (JObj props) k = Normal x
            /\ forall fallback, text_or x fallback = Normal (Spec.or_else field fallback).
Proof.
  unfold Spec.optional_string. cbn [Get].
  destruct (own_property k props) as [[| | | |s| |]|]; intros [= <-];
    eexists; (split; [reflexivity|]); intros fallback;
    try reflexivity; apply text_or_string.
Qed.

Lemma optional_source_read (props : list (string * jsval)) (field : option string) :
  Spec.optional_source props = Some field ->
  exists src name,
    Get (JObj props) "source" = Normal src
    /\ GetOpt src "name" = Normal name
    /\ forall fallback, text_or name fallback = Normal (Spec.or_else field fallback).
Proof.
  unfold Spec.optional_source. cbn [Get].
  destruct (own_property "source" props) as [[| | | | | |src]|] eqn:E; try discriminate.
  - intros [= <-]. exists JNull, JUndefined. repeat split.
  - intros H. destruct (optional_string_read _ _ _ H) as (x & G & T).
    exists (JObj src), x. repeat split; assumption.
  - intros [= <-]. exists JUndefined, JUndefined. repeat split.
Qed.

Lemma render_related_item (v : jsval) (r : Spec.RelatedArticle) :
  Spec.read_related v = Some r -> render_related v = Normal (Spec.related_item r).
Proof.
  unfold Spec.read_related. destruct v as [| | | | | |props]; try discriminate.
  destruct (Spec.optional_string props "title") as [t|] eqn:Et; [|discriminate].
  destruct (Spec.optional_string props "url") as [u|] eqn:Eu; [|discriminate].
  destruct (Spec.optional_source props) as [src|] eqn:Es; [|discriminate].
  destruct (Spec.optional_string props "publishedAt") as [pa|] eqn:Ep; [|discriminate].
  intros [= <-].
  destruct (optional_string_read _ _ _ Et) as (xt & Gt & Tt).
  destruct (optional_string_read _ _ _ Eu) as (xu & Gu & Tu).
  destruct (optional_string_read _ _ _ Ep) as (xp & Gp & Tp).
  destruct (optional_source_read _ _ Es) as (xs & xn & Gs & Gn & Tn).
  unfold render_related.
  rewrite Gu. cbn [cbind]. rewrite Tu. cbn [cbind].
  rewrite Gt. cbn [cbind]. rewrite Tt. cbn [cbind].
  rewrite Gs. cbn [cbind]. rewrite Gn. cbn [cbind]. rewrite Tn. cbn [cbind].
  rewrite Gp. cbn [cbind]. rewrite Tp. cbn [cbind].
  unfold Spec.related_item, Spec.link. cbn [Spec.rel_url Spec.rel_title Spec.rel_source
    Spec.rel_publishedAt].
  f_equal. rewrite !append_assoc. reflexivity.
Qed.

Lemma render_related_items (l : list jsval) (rs : list Spec.RelatedArticle) :
  Spec.read_all Spec.read_related l = Some rs ->
  map_c render_related l = Normal (map Spec.related_item rs).
Proof.
  revert rs. induction l as [|v l IH]; intros rs; cbn.
  - intros [= <-]. reflexivity.
  - destruct (Spec.read_related v) as [r|] eqn:R; [|discriminate].
    destruct (Spec.read_all Spec.read_related l) as [rs'|]; [|discriminate].
    intros [= <-]. rewrite (render_related_item _ _ R). cbn [cbind].
    rewrite (IH rs') by reflexivity. reflexivity.
Qed.

Lemma related_list_read (props : list (string * jsval)) (rs : list Spec.RelatedArticle) :
  Spec.read_related_list props = Some rs ->
  exists x l,
    Get (JObj props) "related_articles" = Normal x
    /\ array_elements "(article.related_articles || []).map" (js_or x (JArr [])) = Normal l
    /\ map_c render_related l = Normal (map Spec.related_item rs).
Proof.
  unfold Spec.read_related_list. cbn [Get].
  destruct (own_property "related_articles" props) as [[| | | | |l|]|]; try discriminate.
  - intros [= <-]. exists JNull, []. repeat split.
  - intros H. exists (JArr l), l. repeat split. now apply render_related_items.
  - intros [= <-]. exists JUndefined, []. repeat split.
Qed.

Lemma related_cell_joined (rs : list Spec.RelatedArticle) :
  (if (String.concat "" (map Spec.related_item rs) =? "")%string then "None"
   else String.concat "" (map Spec.related_item rs))
  = Spec.related_cell rs.
Proof.
  destruct rs as [|r rs]; [reflexivity|].
  unfold Spec.related_cell.
  assert (E : exists c rest, String.concat "" (map Spec.related_item (r :: rs))
                             = String c rest).
  { cbn [map]. destruct (map Spec.related_item rs); cbn [String.concat];
      unfold Spec.related_item; eexists; eexists; reflexivity. }
  destruct E as (c & rest & ->). reflexivity.
Qed.

(** The markup the handler builds for an article of the data model is
    the row of the specification. *)
Lemma render_row_is_spec_row (v : jsval) (a : Spec.Article) :
  Spec.read_article v = Some a -> render_row v = Normal (Spec.row a).
Proof.
  unfold Spec.read_article. destruct v as [| | | | | |props]; try discriminate.
  destruct (Spec.optional_string props "title") as [t|] eqn:Et; [|discriminate].
  destruct (Spec.optional_string props "url") as [u|] eqn:Eu; [|discriminate].
  destruct (Spec.optional_string props "category") as [c|] eqn:Ec; [|discriminate].
  destruct (Spec.optional_source props) as [src|] eqn:Es; [|discriminate].
  destruct (Spec.optional_string props "publishedAt") as [pa|] eqn:Ep; [|discriminate].
  destruct (Spec.read_related_list props) as [rs|] eqn:Er; [|discriminate].
  intros [= <-].
  destruct (optional_string_read _ _ _ Et) as (xt & Gt & Tt).
  destruct (optional_string_read _ _ _ Eu) as (xu & Gu & Tu).
  destruct (optional_string_read _ _ _ Ec) as (xc & Gc & Tc).
  destruct (optional_string_read _ _ _ Ep) as (xp & Gp & Tp).
  destruct (optional_source_read _ _ Es) as (xs & xn & Gs & Gn & Tn).
  destruct (related_list_read _ _ Er) as (xr & l & Gr & Ar & Mr).
  unfold render_row.
  rewrite Gs. cbn [cbind]. rewrite Gn. cbn [cbind].
  rewrite Gp. cbn [cbind]. rewrite Gr. cbn [cbind]. rewrite Ar. cbn [cbind].
  rewrite Mr. cbn [cbind].
  rewrite Gu. cbn [cbind]. rewrite Tu. cbn [cbind].
  rewrite Gt. cbn [cbind]. rewrite Tt. cbn [cbind].
  rewrite Gc. cbn [cbind]. rewrite Tc. cbn [cbind].
  fold (text_or xn "Unknown Source"). rewrite Tn. cbn [cbind].
  fold (text_or xp "Unknown Date"). rewrite Tp. cbn [cbind].
  rewrite related_cell_joined.
  unfold Spec.row, Spec.cell, Spec.link.
  cbn [Spec.url Spec.title Spec.category Spec.source Spec.publishedAt Spec.relatedArticles].
  f_equal. rewrite !append_assoc. reflexivity.
Qed.

Lemma render_rows_are_spec_rows (l : list jsval) (arts : list Spec.Article) :
  Spec.read_all Spec.read_article l = Some arts ->
  map_c render_row l = Normal (map Spec.row arts).
Proof.
  revert arts. induction l as [|v l IH]; intros arts; cbn.
  - intros [= <-]. reflexivity.
  - destruct (Spec.read_article v) as [a|] eqn:R; [|discriminate].
    destruct (Spec.read_all Spec.read_article l) as [arts'|]; [|discriminate].
    intros [= <-]. rewrite (render_row_is_spec_row _ _ R). cbn [cbind].
    rewrite (IH arts') by reflexivity. reflexivity.
Qed.

(** ** The request log *)

Lemma handle_success_keeps_requests (text district date : string) :
  preserves requests (handle_success text district date).
Proof. unfold handle_success, render_result, add_row. frame. Qed.

Lemma handle_failure_keeps_requests (text : string) :
  preserves requests (handle_failure text).
Proof. unfold handle_failure. frame. Qed.

Lemma fetch_catch_keeps_requests (e : JsError) : preserves requests (fetch_catch e).
Proof. unfold fetch_catch. frame. Qed.

(** An accepted query issues exactly one request, whatever follows. *)
Lemma accepted_query_is_sent (now : Z) (net : FetchOutcome) (w : World) :
  Spec.accepted (district_value w) (date_value w) now = true ->
  requests (after (fetch_news_click now net) w)
  = (requests w ++ [Spec.news_request (district_value w) (date_value w)])%list.
Proof.
  intros A. unfold after. rewrite accepted_query_is_fetched by assumption.
  unfold try_catch.
  assert (P : requests (fst (fetch_phase (district_value w) (date_value w) net w))
              = (requests w ++ [Spec.news_request (district_value w) (date_value w)])%list).
  { destruct net as [e|st b].
    - rewrite fetch_phase_rejects. reflexivity.
    - rewrite fetch_phase_resolves.
      destruct (ok_status st);
        [rewrite handle_success_keeps_requests|rewrite handle_failure_keeps_requests];
        unfold logged; destruct (Spec.readable b); reflexivity. }
  destruct (fetch_phase _ _ net w) as [w1 [[]|e]]; cbn [fst] in *; [assumption|].
  rewrite fetch_catch_keeps_requests. assumption.
Qed.

(** The handler returns on every input. *)
Lemma fetch_news_click_completes (now : Z) (net : FetchOutcome) (w : World) :
  snd (fetch_news_click now net w) = Normal tt.
Proof.
  destruct (Spec.accepted (district_value w) (date_value w) now) eqn:A.
  - rewrite accepted_query_is_fetched by assumption. unfold try_catch.
    destruct (fetch_phase _ _ net w) as [w1 [[]|e]]; reflexivity.
  - destruct (refused_query_sets_status now net w A) as [msg ->]. reflexivity.
Qed.

(** ** Input validation *)

Lemma date_format_not_empty (date : string) :
  Spec.has_date_format date = true -> (date =? "")%string = false.
Proof. destruct date; [discriminate|reflexivity]. Qed.

Lemma accepted_iff_not_future (district date : string) (now : Z) :
  district <> "" -> Spec.has_date_format date = true ->
  (Spec.accepted district date now = true <-> ~ Spec.in_the_future date now).
Proof.
  intros D F. unfold Spec.accepted, Spec.in_the_future.
  apply String.eqb_neq in D. rewrite D, (date_format_not_empty _ F), F. cbn [negb andb].
  destruct (Spec.ist_instant date 23 59 59) as [t|].
  - destruct (now <? t) eqn:L; cbn [negb]; split; intros H; try discriminate.
    + exfalso. apply H. exists t. split; [reflexivity|]. now apply Z.ltb_lt.
    + intros (t' & [= <-] & Lt). apply Z.ltb_ge in L. lia.
    + reflexivity.
  - split; [|reflexivity]. intros _ (t' & E & _). discriminate.
Qed.

Lemma future_query_is_refused (now : Z) (net : FetchOutcome) (w : World) :
  district_value w <> "" -> Spec.has_date_format (date_value w) = true ->
  Spec.in_the_future (date_value w) now ->
  fetch_news_click now net w = (set_status_text "Date cannot be in the future" w, Normal tt).
Proof.
  intros D F (t & E & L).
  unfold fetch_news_click, bind, gets. cbn [truthy].
  apply String.eqb_neq in D. rewrite D, (date_format_not_empty _ F).
  rewrite regex_is_date_format, F. cbn [negb].
  rewrite selected_date_is_ist_end_of_day, E by assumption.
  unfold JsDate.gt. apply Z.ltb_lt in L. rewrite L. reflexivity.
Qed.

Lemma end_of_day_after_start (date : string) (start : Z) :
  Spec.ist_instant date 0 0 0 = Some start ->
  Spec.ist_instant date 23 59 59 = Some (start + 86399000).
Proof.
  unfold Spec.ist_instant. destruct (JsDate.date_fields date) as [[[y m] d]|]; [|discriminate].
  intros [= <-]. f_equal.
  unfold JsDate.MakeDate, JsDate.MakeTime, JsDate.msPerHour, JsDate.msPerMinute,
    JsDate.msPerSecond. lia.
Qed.

(** C4: the input validation is sequential and its first failure wins:
    an empty district is reported with "Please select a district";
    otherwise an empty date with "Please select a date"; otherwise a
    date that is not of the form YYYY-MM-DD with "Invalid date format
    (use YYYY-MM-DD)"; in each case the handler stops there, the status
    line being its only effect, and no request is issued. *)
Theorem validation_first_failure_wins (now : Z) (net : FetchOutcome) (w : World)
    (msg : string) :
  Spec.validation_failure (district_value w) (date_value w) msg ->
  fetch_news_click now net w = (set_status_text msg w, Normal tt)
  /\ status_text (after (fetch_news_click now net) w) = msg
  /\ requests (after (fetch_news_click now net) w) = requests w.
Proof.
  intros V.
  assert (E : fetch_news_click now net w = (set_status_text msg w, Normal tt)).
  { unfold fetch_news_click, bind, gets. cbn [truthy].
    inversion V as [date Hd Hdate|district Hn Hd Hdate|district date Hn Hm Hf Hd Hdate].
    - reflexivity.
    - apply String.eqb_neq in Hn. rewrite Hn. reflexivity.
    - apply String.eqb_neq in Hn. apply String.eqb_neq in Hm. rewrite Hn, Hm.
      rewrite regex_is_date_format, Hf. reflexivity. }
  unfold after. rewrite E. repeat split.
Qed.

(** The check of lines 24-29 as it is written: for a query with a
    district and a date of the form YYYY-MM-DD, the handler reports
    "Date cannot be in the future", changes nothing else and issues no
    request exactly when the instant 23:59:59 UTC+05:30 of the date is
    strictly after the current instant; otherwise the request is
    issued.  For the date that India has at the current instant the
    comparison is with the end of that same day. *)
Theorem future_date_check (now : Z) (net : FetchOutcome) (w : World) :
  district_value w <> "" ->
  Spec.has_date_format (date_value w) = true ->
  let w' := after (fetch_news_click now net) w in
  (Spec.in_the_future (date_value w) now
   <-> w' = set_status_text "Date cannot be in the future" w)
  /\ (Spec.in_the_future (date_value w) now -> requests w' = requests w)
  /\ (~ Spec.in_the_future (date_value w) now ->
      requests w'
      = (requests w ++ [Spec.news_request (district_value w) (date_value w)])%list)
  /\ (Spec.is_today_ist (date_value w) now = true ->
      exists start,
        Spec.ist_instant (date_value w) 0 0 0 = Some start
        /\ start <= now < start + JsDate.msPerDay
        /\ (Spec.in_the_future (date_value w) now <-> now < start + 86399000)).
Proof.
  intros D F w'.
  assert (Refused : Spec.in_the_future (date_value w) now ->
                    w' = set_status_text "Date cannot be in the future" w).
  { intros H. unfold w', after. now rewrite future_query_is_refused. }
  assert (Sent : ~ Spec.in_the_future (date_value w) now ->
                 requests w' = (requests w
                   ++ [Spec.news_request (district_value w) (date_value w)])%list).
  { intros H. apply accepted_query_is_sent. now apply accepted_iff_not_future. }
  repeat split.
  - exact Refused.
  - intros E.
    destruct (Spec.accepted (district_value w) (date_value w) now) eqn:A.
    + exfalso. apply (accepted_iff_not_future _ _ now D F) in A.
      specialize (Sent A). rewrite E in Sent. cbn in Sent.
      apply (f_equal (@List.length _)) in Sent. rewrite length_app in Sent.
      cbn in Sent. lia.
    + destruct (Spec.ist_instant (date_value w) 23 59 59) as [t|] eqn:I.
      * exists t. split; [exact I|].
        unfold Spec.accepted in A.
        apply String.eqb_neq in D.
        rewrite D, (date_format_not_empty _ F), F, I in A. cbn in A.
        apply negb_false_iff, Z.ltb_lt in A. exact A.
      * unfold Spec.accepted in A.
        apply String.eqb_neq in D.
        rewrite D, (date_format_not_empty _ F), F, I in A. discriminate.
  - intros H. rewrite (Refused H). reflexivity.
  - exact Sent.
  - unfold Spec.is_today_ist.
    destruct (Spec.ist_instant (date_value w) 0 0 0) as [start|] eqn:I; [|discriminate].
    intros T. apply andb_true_iff in T as [T1 T2].
    apply Z.leb_le in T1. apply Z.ltb_lt in T2.
    exists start. split; [reflexivity|]. split; [lia|]. split.
    + intros (t & E & L). rewrite (end_of_day_after_start _ _ I) in E.
      injection E as <-. exact L.
    + intros L. exists (start + 86399000). split; [|exact L].
      now apply end_of_day_after_start.
Qed.

(** C1 (the code against the claim): a query for the date that India
    has at the current instant is refused as a future date until the
    last second of that day.  With a district selected and a date of
    the form YYYY-MM-DD whose day in India began at or before the
    current instant and whose 23:59:59 there is still to come, the
    handler reports "Date cannot be in the future", changes nothing
    else and issues no request: the check of line 26 compares the clock
    with the end of the selected day. *)
Theorem current_date_is_refused (now start : Z) (net : FetchOutcome) (w : World) :
  district_value w <> "" ->
  Spec.has_date_format (date_value w) = true ->
  Spec.ist_instant (date_value w) 0 0 0 = Some start ->
  start <= now < start + 86399000 ->
  let w' := after (fetch_news_click now net) w in
  Spec.is_today_ist (date_value w) now = true
  /\ w' = set_status_text "Date cannot be in the future" w
  /\ status_text w' = "Date cannot be in the future"
  /\ requests w' = requests w.
Proof.
  intros D F I L w'.
  assert (T : Spec.is_today_ist (date_value w) now = true).
  { unfold Spec.is_today_ist. rewrite I. apply andb_true_iff. split.
    - apply Z.leb_le. lia.
    - apply Z.ltb_lt. unfold JsDate.msPerDay. lia. }
  assert (E : w' = set_status_text "Date cannot be in the future" w).
  { unfold w', after. rewrite future_query_is_refused; [reflexivity|assumption..|].
    exists (start + 86399000). split; [now apply end_of_day_after_start|lia]. }
  split; [exact T|]. split; [exact E|]. rewrite E. split; reflexivity.
Qed.

(** ** Responses *)

Lemma accepted_response_is_handled (now st : Z) (b : option BodyStream) (w : World) :
  Spec.accepted (district_value w) (date_value w) now = true ->
  fetch_news_click now (Resolves st b) w
  = try_catch
      (if ok_status st
       then handle_success (Spec.received_text b) (district_value w) (date_value w)
       else handle_failure (Spec.received_text b))
      fetch_catch
      (logged "Fetch news response:" b (sent (district_value w) (date_value w) w)).
Proof.
  intros A. rewrite accepted_query_is_fetched by assumption.
  unfold try_catch. rewrite fetch_phase_resolves. reflexivity.
Qed.

Lemma logged_keeps_page (label : string) (b : option BodyStream) (w : World) :
  news_rows (logged label b w) = news_rows w
  /\ download_display (logged label b w) = download_display w
  /\ download_onclick (logged label b w) = download_onclick w
  /\ status_text (logged label b w) = status_text w.
Proof. unfold logged. destruct (Spec.readable b); repeat split. Qed.

Lemma handle_success_renders (text district date : string) (result e : jsval)
    (articles : list jsval) (rows : list string) (w : World) :
  JSON_parse text = inl result ->
  Get result "error" = Normal e -> truthy e = false ->
  Get result "articles" = Normal (JArr articles) -> articles <> [] ->
  map_c render_row articles = Normal rows ->
  exists w',
    handle_success text district date w = (w', Normal tt)
    /\ news_rows w' = rows
    /\ download_display w' = "block"
    /\ download_onclick w' = Some (mkPdfAction (JArr articles) district date).
Proof.
  intros P G T A N R.
  destruct (Get_of_value result "is_mock" (Get_only_of_value _ _ _ G)) as [m M].
  unfold handle_success. unfold bind at 1. unfold eval at 1, JSON_parse_c. rewrite P.
  unfold bind at 1. unfold eval at 1. rewrite G, T.
  unfold bind at 1. unfold eval at 1. rewrite A. cbn [truthy negb].
  unfold bind at 1. unfold bind at 1. unfold eval at 1.
  cbn [Get String.eqb Ascii.eqb Bool.eqb]. unfold ret at 1.
  destruct articles as [|a rest]; [contradiction|].
  cbn [List.length num_of_nat strict_eq_zero].
  rewrite (render_result_renders _ _ _ _ _ _ _ M R).
  eexists. split; [reflexivity|]. repeat split.
Qed.

(** C2 (as amended): for a response to /fetch_news with a status outside
    200-299 whose body parses as JSON with a non-empty string in its
    [error] field, the status line is "Error: " followed by that string
    (for instance "Error: rate limited"), not the generic fallback; the
    table is cleared and the download button hidden. *)
Theorem failure_status_shows_server_error (now st : Z) (b : option BodyStream)
    (w : World) (v : jsval) (e : string) :
  Spec.accepted (district_value w) (date_value w) now = true ->
  ok_status st = false ->
  JSON_parse (Spec.received_text b) = inl v ->
  Get v "error" = Normal (JStr e) -> e <> "" ->
  let w' := after (fetch_news_click now (Resolves st b)) w in
  status_text w' = ("Error: " ++ e)%string
  /\ news_rows w' = [] /\ download_display w' = "none".
Proof.
  intros A S P G N w'. unfold w', after.
  rewrite accepted_response_is_handled, S by assumption.
  unfold try_catch. rewrite (handle_failure_error_field _ _ _ _ P G N).
  repeat split.
Qed.

(** C3 (as amended): after every invocation of the handler the rows of
    the table are settled by the query and the response.  When the
    input validation fails they are the rows shown before, untouched,
    as are the download button and its binding, and no request is
    issued.  When the query is accepted and the response is rendered (a
    status in 200-299, no truthy error, a non-empty list of articles
    each of which has its markup), the rows shown before are gone and
    the rows are exactly those of the articles of that response, one
    per article in order, with the download button shown and bound to
    those articles.  When the query is accepted and the response is not
    rendered (every error path and the empty result), there is no row
    and the download button is hidden. *)
Theorem rows_after_click (now : Z) (net : FetchOutcome) (w : World) :
  let w' := after (fetch_news_click now net) w in
  (Spec.accepted (district_value w) (date_value w) now = false ->
   news_rows w' = news_rows w
   /\ download_display w' = download_display w
   /\ download_onclick w' = download_onclick w
   /\ requests w' = requests w)
  /\ (Spec.accepted (district_value w) (date_value w) now = true ->
      forall articles rows,
        rendered net articles rows ->
        news_rows w' = rows
        /\ List.length (news_rows w') = List.length articles
        /\ download_display w' = "block"
        /\ download_onclick w'
           = Some (mkPdfAction (JArr articles) (district_value w) (date_value w)))
  /\ (Spec.accepted (district_value w) (date_value w) now = true ->
      (forall articles rows, ~ rendered net articles rows) ->
      news_rows w' = [] /\ download_display w' = "none").
Proof.
  intros w'. unfold w', after. split; [|split].
  - intros A. destruct (refused_query_sets_status now net w A) as [msg ->].
    repeat split.
  - intros A articles rows (st & b & result & e & -> & S & P & G & T & V & N & R).
    rewrite accepted_response_is_handled, S by assumption. unfold try_catch.
    destruct (handle_success_renders _ (district_value w) (date_value w) _ _ _ _
                (logged "Fetch news response:" b
                   (sent (district_value w) (date_value w) w)) P G T V N R)
      as (w1 & -> & Hr & Hd & Ho).
    cbn [fst]. rewrite Hr.
    repeat split; try assumption.
    now apply map_c_length with (f := render_row).
  - intros A H. rewrite accepted_query_is_fetched by assumption. unfold try_catch.
    destruct (fetch_phase (district_value w) (date_value w) net w) as [w1 [[]|e]] eqn:E.
    + destruct (fetch_phase_returns _ _ _ _ _ E) as [[R D]|H'].
      * split; assumption.
      * exfalso.
        destruct H' as (st & b & result & articles & rows & Hn & S & P & V & N & M & _ & _
                        & _ & e & G & T).
        apply (H articles rows). exists st, b, result, e. repeat split; assumption.
    + destruct (fetch_catch_runs e w1) as (w2 & -> & _ & R & D & _).
      split; assumption.
Qed.



(** C10: for a response to /fetch_news with a status in 200-299 whose
    body is not valid JSON, [JSON.parse] throws, the exception is
    caught by the handler, which returns; the table is cleared, the
    download button hidden, and the status line is "Error: " followed
    by the message of the parse error. *)
Theorem malformed_success_body_is_reported (now st : Z) (b : option BodyStream)
    (w : World) (msg : string) :
  Spec.accepted (district_value w) (date_value w) now = true ->
  ok_status st = true ->
  JSON_parse (Spec.received_text b) = inr msg ->
  let run := fetch_news_click now (Resolves st b) w in
  JSON_parse_c (Spec.received_text b) = Throw (SyntaxError msg)
  /\ snd run = Normal tt
  /\ status_text (fst run) = ("Error: " ++ msg)%string
  /\ news_rows (fst run) = []
  /\ download_display (fst run) = "none".
Proof.
  intros A S P run. unfold run.
  split; [unfold JSON_parse_c; now rewrite P|].
  rewrite accepted_response_is_handled, S by assumption.
  unfold try_catch. rewrite (handle_success_malformed _ _ _ _ _ P).
  repeat split.
Qed.

End FetchFlow.

(** ** The PDF flow *)

Section PdfFlow.
Context {engine : Engine}.

(** The download handler touches neither the table nor the download
    button, however it ends. *)
Lemma download_click_keeps_table (closure : PdfAction) (net : FetchOutcome) :
  preserves news_rows (download_click closure net)
  /\ preserves download_display (download_click closure net)
  /\ preserves download_onclick (download_click closure net).
Proof.
  repeat split;
    unfold download_click, pdf_phase, pdf_catch, handle_pdf_failure, save_pdf,
      read_body_text; frame;
    intros w0; unfold click, modify; cbn; destruct (resolve_url _ _); reflexivity.
Qed.

Lemma download_click_completes (closure : PdfAction) (net : FetchOutcome) (w : World) :
  snd (download_click closure net w) = Normal tt.
Proof.
  unfold download_click, try_catch.
  destruct (pdf_phase closure net w) as [w1 [[]|e]]; reflexivity.
Qed.

Lemma pdf_phase_resolves (closure : PdfAction) (st : Z) (b : option BodyStream)
    (w : World) :
  pdf_phase closure (Resolves st b) w
  = (if ok_status st
     then save_pdf (read_response st b) (pdf_district closure) (pdf_date closure)
     else handle_pdf_failure (Spec.received_text b))
      (logged "PDF response:" b (pdf_sent closure w)).
Proof.
  unfold pdf_phase, bind, fetch, set_status, console_log, modify, Response_text,
    consume_body, read_body_text, try_catch, eval, ret, logged, Spec.received_text,
    Spec.readable, ok, pdf_sent, read_response.
  cbn. destruct b as [[t|e]|]; cbn; destruct (ok_status st); reflexivity.
Qed.

Lemma handle_pdf_failure_throws (text msg : string) (w : World) :
  Spec.pdf_failure text msg -> handle_pdf_failure text w = (w, Throw (Error msg)).
Proof.
  intros F. unfold handle_pdf_failure, bind, try_catch, eval, ret, throw, JSON_parse_c.
  destruct F as [v e s P G T C|m P|v err P G|v e P G T|v e err P G T C]; rewrite P; cbn.
  - rewrite G. cbn. rewrite T, C. reflexivity.
  - reflexivity.
  - rewrite G. reflexivity.
  - rewrite G. cbn. rewrite T. reflexivity.
  - rewrite G. cbn. rewrite T, C. reflexivity.
Qed.

(** Every body has its message. *)
Lemma pdf_failure_total (text : string) : exists msg, Spec.pdf_failure text msg.
Proof.
  destruct (JSON_parse text) as [v|m] eqn:P; [|eexists; exact (Spec.PdfNotJson _ _ P)].
  destruct (Get v "error") as [e|err] eqn:G; [|eexists; exact (Spec.PdfNotAnObject _ _ _ P G)].
  destruct (truthy e) eqn:T; [|eexists; exact (Spec.PdfNoField _ _ _ P G T)].
  destruct (ToString e) as [s|err] eqn:C.
  - eexists. exact (Spec.PdfError _ _ _ _ P G T C).
  - eexists. exact (Spec.PdfUnprintable _ _ _ _ P G T C).
Qed.

(** A body that has been read cannot be read again. *)
Lemma save_pdf_of_read_body (st : Z) (stream : BodyStream) (district date : string)
    (w : World) :
  save_pdf (read_response st (Some stream)) district date w
  = (w, Throw (TypeError (msg_body_used "blob"))).
Proof. reflexivity. Qed.

Lemma resolve_fresh_url (url : ObjectURL) (blob : Blob) (l : list (ObjectURL * Blob)) :
  Forall (fun e => (fst e < url)%nat) l ->
  resolve_url url (l ++ [(url, blob)]) = Some blob
  /\ filter (fun e => negb (Nat.eqb (fst e) url)) (l ++ [(url, blob)]) = l.
Proof.
  induction 1 as [|[u b0] l Hu Hl [IH1 IH2]]; cbn.
  - rewrite Nat.eqb_refl. split; reflexivity.
  - cbn in Hu. assert (E : Nat.eqb u url = false) by (apply Nat.eqb_neq; lia).
    rewrite E. cbn. rewrite IH2. split; [assumption|reflexivity].
Qed.

Lemma remove_appended (a : Anchor) (l : list Anchor) :
  rev (remove_first a (rev (l ++ [a]))) = l.
Proof.
  rewrite rev_app_distr. cbn. unfold anchor_eqb.
  rewrite Nat.eqb_refl, String.eqb_refl. cbn. apply rev_involutive.
Qed.

(** X8: the success branch on a [Response] whose body is null
    ([response.body === null], as a response made without a body has;
    a null body is never disturbed): the empty document is saved under
    the name of the digest, and the anchor and the object URL are gone
    again. *)
Lemma pdf_of_null_body_is_saved (closure : PdfAction) (st : Z) (w : World) :
  ok_status st = true ->
  Forall (fun e => (fst e < minted w)%nat) (object_urls w) ->
  let w' := after (download_click closure (Resolves st None)) w in
  status_text w' = "PDF downloaded successfully"
  /\ downloads w' = (downloads w ++ [(digest_name closure, mkBlob "")])%list
  /\ body_children w' = body_children w
  /\ object_urls w' = object_urls w
  /\ news_rows w' = news_rows w.
Proof.
  intros S Fresh w'. unfold w', after, download_click, try_catch.
  rewrite pdf_phase_resolves, S.
  unfold save_pdf, Response_blob, consume_body, read_response, logged, pdf_sent.
  cbn -[remove_first rev filter resolve_url].
  destruct (resolve_fresh_url (minted w) (mkBlob "") _ Fresh) as [R F].
  unfold click, modify, bind.
  cbn -[remove_first rev filter resolve_url].
  rewrite R. cbn -[remove_first rev filter resolve_url].
  rewrite F, remove_appended. repeat split.
Qed.

(** C7 (as amended): in the PDF flow, a response with a status outside
    200-299 whose body parses as JSON with a truthy [error] field that
    can be written as a string is reported as "PDF generation failed: "
    followed by that string; every other one (a body that is not JSON,
    that parses to null, that lacks the field or holds a falsy one, or
    whose error cannot be written as a string) is reported as "Failed
    to generate PDF. Please try again later."; in all cases the rows of
    the table are left as they were, as are the download button and its
    binding, and nothing is downloaded: of the page only the status
    line changes. *)
Theorem pdf_failure_is_reported (closure : PdfAction) (st : Z) (b : option BodyStream)
    (w : World) (msg : string) :
  ok_status st = false ->
  Spec.pdf_failure (Spec.received_text b) msg ->
  let w' := after (download_click closure (Resolves st b)) w in
  status_text w' = msg
  /\ news_rows w' = news_rows w
  /\ download_display w' = download_display w
  /\ download_onclick w' = download_onclick w
  /\ downloads w' = downloads w.
Proof.
  intros S F w'. unfold w', after, download_click, try_catch.
  rewrite pdf_phase_resolves, S, (handle_pdf_failure_throws _ _ _ F).
  unfold logged. destruct (Spec.readable b); repeat split.
Qed.

(** C8 (the code against the claim): a response to /generate_pdf with a
    status in 200-299 that carries a body is not saved.  Its body was
    read as text on the way, so [blob()] rejects; the handler reports
    the message of that TypeError, and no download is started, no
    anchor inserted and no object URL created. *)
Theorem pdf_with_body_is_not_saved (closure : PdfAction) (st : Z) (stream : BodyStream)
    (w : World) :
  ok_status st = true ->
  let w' := after (download_click closure (Resolves st (Some stream))) w in
  status_text w' = msg_body_used "blob"
  /\ downloads w' = downloads w
  /\ body_children w' = body_children w
  /\ object_urls w' = object_urls w
  /\ minted w' = minted w.
Proof.
  intros S w'. unfold w', after, download_click, try_catch.
  rewrite pdf_phase_resolves, S, save_pdf_of_read_body.
  unfold logged. destruct (Spec.readable (Some stream)); repeat split.
Qed.

End PdfFlow.

(** ** Sessions *)

Section SessionInvariant.
Context {engine : Engine}.

Lemma fetch_click_shows_bound_articles (now : Z) (net : FetchOutcome) (w : World) :
  shows_bound_articles w -> shows_bound_articles (after (fetch_news_click now net) w).
Proof.
  intros I. unfold after.
  destruct (Spec.accepted (district_value w) (date_value w) now) eqn:A.
  - rewrite accepted_query_is_fetched by assumption. unfold try_catch.
    destruct (fetch_phase (district_value w) (date_value w) net w) as [w1 [[]|e]] eqn:E.
    + destruct (fetch_phase_returns _ _ _ _ _ E) as [[R _]|H].
      * left. exact R.
      * destruct H as (st & b & result & articles & rows & _ & _ & _ & _ & _ & M & R & _
                       & O & _).
        right. exists articles, (district_value w), (date_value w), rows. auto.
    + left. destruct (fetch_catch_runs e w1) as (w2 & -> & _ & R & _). exact R.
  - destruct (refused_query_sets_status now net w A) as [msg ->]. exact I.
Qed.

Lemma download_click_shows_bound_articles (net : FetchOutcome) (w : World) :
  shows_bound_articles w -> shows_bound_articles (after (click_download net) w).
Proof.
  intros I. unfold after, click_download.
  destruct (download_onclick w) as [closure|] eqn:O; [|exact I].
  destruct (download_click_keeps_table closure net) as (R & _ & B).
  unfold shows_bound_articles. rewrite (R w), (B w), O.
  unfold shows_bound_articles in I. rewrite O in I. exact I.
Qed.

(** X9: through any sequence of clicks the table is empty or holds the
    rows of the articles most recently rendered, those the download
    button is bound to. *)
Lemma session_shows_bound_articles (events : list Event) (w : World) :
  shows_bound_articles w -> shows_bound_articles (session events w).
Proof.
  unfold session. revert w. induction events as [|ev events IH]; intros w I; cbn.
  - exact I.
  - apply IH. destruct ev as [now net|net].
    + now apply fetch_click_shows_bound_articles.
    + now apply download_click_shows_bound_articles.
Qed.

End SessionInvariant.

(** ** The login flow *)

Section LoginFlow.
Context {engine : Engine}.

Lemma login_body_read (st : Z) (b : option BodyStream) (text : string) :
  Spec.readable b = Some text ->
  fst (Response_json (mkResponse st b false)) = JSON_parse_c text.
Proof.
  unfold Spec.readable, Response_json, consume_body, unusable.
  destruct b as [[t|e]|]; intros [= <-]; reflexivity.
Qed.

(** C9 (as amended): a login submission whose parsed response has a
    truthy [success] navigates to /dashboard; one whose [success] is
    absent or falsy displays the [message] of the response when it is
    truthy (present and not empty), written as a string, and "Login
    failed" when the message is absent or falsy (the empty string
    too); and whenever something is thrown (the request fails, the body
    cannot be read or is not JSON, the body parses to null, the message
    cannot be written as a string) the text displayed is "An error
    occurred". *)
Theorem login_submission (net : FetchOutcome) (p : Login.Page) (shown : Spec.Shown) :
  Spec.login_reply net shown ->
  let p' := after (Login.submit net) p in
  snd (Login.submit net p) = Normal tt /\
  match shown with
  | Spec.Navigates target =>
      Login.location_href p' = target /\ Login.error_text p' = Login.error_text p
  | Spec.Displays text =>
      Login.error_text p' = text /\ Login.location_href p' = Login.location_href p
  end.
Proof.
  intros R p'.
  assert (E : exists p1,
             Login.submit net p = (p1, Normal tt)
             /\ match shown with
                | Spec.Navigates target =>
                    Login.location_href p1 = target
                    /\ Login.error_text p1 = Login.error_text p
                | Spec.Displays text =>
                    Login.error_text p1 = text
                    /\ Login.location_href p1 = Login.location_href p
                end).
  { unfold Login.submit.
    unfold bind at 1. unfold Login.preventDefault at 1, modify at 1.
    unfold bind at 1. unfold gets at 1.
    unfold bind at 1. unfold gets at 1.
    unfold try_catch.
    unfold bind at 1. unfold Login.fetch_login at 1.
    destruct R as [st b text result success B P G T
                  |st b text result success message text' B P G T M Tm S
                  |st b text result success message B P G T M Tm
                  |e
                  |st b B
                  |st b text msg B P
                  |st b text result err B P G
                  |st b text result success message err B P G T M Tm S].
    - pose proof (login_body_read st b text B) as J.
      destruct (Response_json _) as [parsed r]. cbn [fst] in J. subst parsed.
      unfold bind at 1. unfold eval at 1, JSON_parse_c. rewrite P.
      unfold bind at 1. unfold eval at 1. rewrite G, T.
      eexists. split; [reflexivity|]. split; reflexivity.
    - pose proof (login_body_read st b text B) as J.
      destruct (Response_json _) as [parsed r]. cbn [fst] in J. subst parsed.
      unfold bind at 1. unfold eval at 1, JSON_parse_c. rewrite P.
      unfold bind at 1. unfold eval at 1. rewrite G, T.
      unfold bind at 1. unfold eval at 1. rewrite M.
      unfold bind at 1. unfold eval at 1, js_or. rewrite Tm, S.
      eexists. split; [reflexivity|]. split; reflexivity.
    - pose proof (login_body_read st b text B) as J.
      destruct (Response_json _) as [parsed r]. cbn [fst] in J. subst parsed.
      unfold bind at 1. unfold eval at 1, JSON_parse_c. rewrite P.
      unfold bind at 1. unfold eval at 1. rewrite G, T.
      unfold bind at 1. unfold eval at 1. rewrite M.
      unfold bind at 1. unfold eval at 1, js_or. rewrite Tm.
      eexists. split; [reflexivity|]. split; reflexivity.
    - eexists. split; [reflexivity|]. split; reflexivity.
    - destruct b as [[t|e]|]; try discriminate.
      eexists. split; [reflexivity|]. split; reflexivity.
    - pose proof (login_body_read st b text B) as J.
      destruct (Response_json _) as [parsed r]. cbn [fst] in J. subst parsed.
      unfold bind at 1. unfold eval at 1, JSON_parse_c. rewrite P.
      eexists. split; [reflexivity|]. split; reflexivity.
    - pose proof (login_body_read st b text B) as J.
      destruct (Response_json _) as [parsed r]. cbn [fst] in J. subst parsed.
      unfold bind at 1. unfold eval at 1, JSON_parse_c. rewrite P.
      unfold bind at 1. unfold eval at 1. rewrite G.
      eexists. split; [reflexivity|]. split; reflexivity.
    - pose proof (login_body_read st b text B) as J.
      destruct (Response_json _) as [parsed r]. cbn [fst] in J. subst parsed.
      unfold bind at 1. unfold eval at 1, JSON_parse_c. rewrite P.
      unfold bind at 1. unfold eval at 1. rewrite G, T.
      unfold bind at 1. unfold eval at 1. rewrite M.
      unfold bind at 1. unfold eval at 1, js_or. rewrite Tm, S.
      eexists. split; [reflexivity|]. split; reflexivity. }
  destruct E as (p1 & E & H). unfold p', after. rewrite E. split; [reflexivity|exact H].
Qed.

(** Every outcome of the request has its reply. *)
Lemma login_reply_total (net : FetchOutcome) : exists shown, Spec.login_reply net shown.
Proof.
  destruct net as [e|st b]; [eexists; apply Spec.LoginNetworkFailure|].
  destruct (Spec.readable b) as [text|] eqn:B;
    [|eexists; exact (Spec.LoginUnreadable _ _ B)].
  destruct (JSON_parse text) as [result|msg] eqn:P;
    [|eexists; exact (Spec.LoginMalformed _ _ _ _ B P)].
  destruct (Get result "success") as [success|err] eqn:G;
    [|eexists; exact (Spec.LoginNotAnObject _ _ _ _ _ B P G)].
  destruct (truthy success) eqn:T;
    [eexists; exact (Spec.LoginSuccess _ _ _ _ _ B P G T)|].
  destruct (Get_of_value result "message" (Get_only_of_value _ _ _ G)) as [message M].
  destruct (truthy message) eqn:Tm;
    [|eexists; exact (Spec.LoginNoMessage _ _ _ _ _ _ B P G T M Tm)].
  destruct (ToString message) as [shown|err] eqn:S.
  - eexists. exact (Spec.LoginMessage _ _ _ _ _ _ _ B P G T M Tm S).
  - eexists. exact (Spec.LoginUnprintable _ _ _ _ _ _ _ B P G T M Tm S).
Qed.

End LoginFlow.

(** ** Further properties of the fetch flow *)

Section FetchFlowExtras.
Context {engine : Engine}.

(** X1: when the request of an accepted query fails in the network,
    the status line is the timeout message for a TimeoutError and
    "Error: " followed by the message of the error otherwise; the table
    is cleared, the download button hidden and left bound as it was,
    and the one request has gone out. *)
Theorem transport_failure_is_reported (now : Z) (e : JsError) (w : World) :
  Spec.accepted (district_value w) (date_value w) now = true ->
  let w' := after (fetch_news_click now (Rejects e)) w in
  status_text w' = (if (err_name e =? "TimeoutError")%string then msg_timeout
                    else ("Error: " ++ err_message e)%string)
  /\ news_rows w' = []
  /\ download_display w' = "none"
  /\ download_onclick w' = download_onclick w
  /\ requests w'
     = (requests w ++ [Spec.news_request (district_value w) (date_value w)])%list.
Proof.
  intros A w'. unfold w', after.
  rewrite accepted_query_is_fetched by assumption.
  unfold try_catch. rewrite fetch_phase_rejects. repeat split.
Qed.

Lemma handle_failure_falls_back (text : string) (w : World) :
  no_server_error text -> handle_failure text w = (w, Throw (Error msg_fetch_failed)).
Proof.
  intros N. unfold handle_failure, bind, try_catch, eval, ret, throw, JSON_parse_c.
  destruct N as [msg P|v err P G|v e P G T]; rewrite P; cbn.
  - reflexivity.
  - rewrite G. reflexivity.
  - rewrite G. cbn. rewrite T. reflexivity.
Qed.

(** X2: a response to /fetch_news with a status outside 200-299 whose
    body gives no message (it cannot be read, is not JSON, is [null],
    or has no truthy [error]) is reported with the generic text behind
    the prefix of the catch, "Error: Failed to fetch news. Please try
    again later."; the table is cleared and the download button
    hidden. *)
Theorem failure_status_falls_back (now st : Z) (b : option BodyStream) (w : World) :
  Spec.accepted (district_value w) (date_value w) now = true ->
  ok_status st = false ->
  no_server_error (Spec.received_text b) ->
  let w' := after (fetch_news_click now (Resolves st b)) w in
  status_text w' = "Error: Failed to fetch news. Please try again later."
  /\ news_rows w' = [] /\ download_display w' = "none".
Proof.
  intros A S N w'. unfold w', after.
  rewrite accepted_response_is_handled, S by assumption.
  unfold try_catch. rewrite (handle_failure_falls_back _ _ N).
  repeat split.
Qed.

Lemma handle_success_reaches_render (text district date : string) (result e : jsval)
    (articles : list jsval) (w : World) :
  JSON_parse text = inl result ->
  Get result "error" = Normal e -> truthy e = false ->
  Get result "articles" = Normal (JArr articles) -> articles <> [] ->
  handle_success text district date w
  = render_result result (JArr articles) district date w.
Proof.
  intros P G T A N.
  unfold handle_success. unfold bind at 1. unfold eval at 1, JSON_parse_c. rewrite P.
  unfold bind at 1. unfold eval at 1. rewrite G, T.
  unfold bind at 1. unfold eval at 1. rewrite A. cbn [truthy negb].
  unfold bind at 1. unfold bind at 1. unfold eval at 1.
  cbn [Get String.eqb Ascii.eqb Bool.eqb]. unfold ret at 1.
  destruct articles as [|a rest]; [contradiction|]. reflexivity.
Qed.

(** X3: when the articles of a successful response are rendered, the
    status line is the sample-data warning naming the district of the
    query if [is_mock] is truthy, and "Articles loaded successfully."
    if it is falsy or missing. *)
Theorem status_after_render (now st : Z) (b : option BodyStream) (w : World)
    (result e mock : jsval) (articles : list jsval) (rows : list string) :
  Spec.accepted (district_value w) (date_value w) now = true ->
  ok_status st = true ->
  JSON_parse (Spec.received_text b) = inl result ->
  Get result "error" = Normal e -> truthy e = false ->
  Get result "articles" = Normal (JArr articles) -> articles <> [] ->
  map_c render_row articles = Normal rows ->
  Get result "is_mock" = Normal mock ->
  status_text (after (fetch_news_click now (Resolves st b)) w)
  = (if truthy mock
     then ("No real articles found for " ++ district_value w
           ++ ". Displaying sample data. Please verify your Currents API key in .env (get a free key at https://currentsapi.services/en).")%string
     else "Articles loaded successfully.").
Proof.
  intros A S P G T V N R M. unfold after.
  rewrite accepted_response_is_handled, S by assumption. unfold try_catch.
  rewrite (handle_success_reaches_render _ _ _ _ _ _ _ P G T V N).
  rewrite (render_result_renders _ _ _ _ _ _ _ M R). reflexivity.
Qed.

(** X5: a click issues a request exactly when the query passes the four
    checks, and then exactly one, a POST of the district and the date
    as read from the page to /fetch_news, whatever the response
    does. *)
Theorem click_sends_iff_accepted (now : Z) (net : FetchOutcome) (w : World) :
  requests (after (fetch_news_click now net) w)
  = (requests w
     ++ (if Spec.accepted (district_value w) (date_value w) now
         then [mkRequest "/fetch_news" "POST" [("Content-Type", "application/json")]
                 (JObj [("district", JStr (district_value w));
                        ("date", JStr (date_value w))]) (Some 15000)]
         else []))%list.
Proof.
  destruct (Spec.accepted (district_value w) (date_value w) now) eqn:A.
  - now apply accepted_query_is_sent.
  - unfold after. destruct (refused_query_sets_status now net w A) as [msg ->].
    cbn. now rewrite app_nil_r.
Qed.

(** X10: a date of the right form that names no day of the calendar
    (month 13, day 00) has no end of day to compare: the check lets it
    through and the request goes out with the date as typed. *)
Theorem impossible_date_passes_the_check (now : Z) (net : FetchOutcome) (w : World) :
  district_value w <> "" ->
  Spec.has_date_format (date_value w) = true ->
  JsDate.date_fields (date_value w) = None ->
  requests (after (fetch_news_click now net) w)
  = (requests w ++ [Spec.news_request (district_value w) (date_value w)])%list.
Proof.
  intros D F I. apply accepted_query_is_sent.
  apply accepted_iff_not_future; try assumption.
  intros (t & E & _). unfold Spec.ist_instant in E. rewrite I in E. discriminate.
Qed.

Lemma accepted_is_monotone (district date : string) (now later : Z) :
  Spec.accepted district date now = true -> now <= later ->
  Spec.accepted district date later = true.
Proof.
  unfold Spec.accepted. intros A L.
  apply andb_true_iff in A as [A Hfuture]. rewrite A. cbn [andb].
  destruct (Spec.ist_instant date 23 59 59) as [t|]; [|reflexivity].
  apply negb_true_iff, Z.ltb_ge in Hfuture.
  apply negb_true_iff, Z.ltb_ge. lia.
Qed.

(** X11: the validation is monotone in time: when a click issues a
    request, a click on the same inputs at any later instant issues it
    too, whatever the network does. *)
Theorem later_click_is_not_refused (now later : Z) (net net' : FetchOutcome) (w : World) :
  requests (after (fetch_news_click now net) w) <> requests w ->
  now <= later ->
  requests (after (fetch_news_click later net') w)
  = (requests w ++ [Spec.news_request (district_value w) (date_value w)])%list.
Proof.
  intros Sent L. apply accepted_query_is_sent.
  destruct (Spec.accepted (district_value w) (date_value w) now) eqn:A.
  - now apply accepted_is_monotone with (now := now).
  - exfalso. apply Sent. unfold after.
    destruct (refused_query_sets_status now net w A) as [msg ->]. reflexivity.
Qed.

(** *** Errors thrown while rendering *)

Lemma cbind_throws {A B} (c : completion A) (k : A -> completion B) (e : JsError) :
  cbind c k = Throw e -> c = Throw e \/ exists a, c = Normal a /\ k a = Throw e.
Proof.
  destruct c; cbn; intros H; [right; eauto|left]. injection H as ->. reflexivity.
Qed.

Lemma ToString_throws (v : jsval) (e : JsError) :
  ToString v = Throw e -> err_name e = "TypeError".
Proof.
  revert v e. fix IH 1. intros v e. destruct v as [| |b|n|s|l|props]; cbn.
  1-5: try destruct b; discriminate.
  - revert l. fix IHl 1. intros l. destruct l as [|x rest]; [discriminate|].
    intros H. apply cbind_throws in H as [H|(s & _ & H)].
    + destruct (nullish x); [discriminate|]. now apply (IH x).
    + match type of H with
      | context [?join rest] => assert (Hr : join rest = Throw e)
      end.
      { destruct rest as [|y rest']; [discriminate|].
        apply cbind_throws in H as [H|(r & _ & H)]; [exact H|discriminate]. }
      exact (IHl rest Hr).
  - destruct (own_property "toString" props); [|discriminate].
    intros [= <-]. reflexivity.
Qed.

Lemma Get_throws (v : jsval) (k : string) (e : JsError) :
  Get v k = Throw e -> err_name e = "TypeError".
Proof.
  destruct v; cbn; try discriminate; try (intros [= <-]; reflexivity).
  - destruct (k =? "length")%string; discriminate.
  - destruct (k =? "length")%string; discriminate.
  - destruct (own_property k props); discriminate.
Qed.

Lemma GetOpt_throws (v : jsval) (k : string) (e : JsError) :
  GetOpt v k = Throw e -> err_name e = "TypeError".
Proof. unfold GetOpt. destruct (nullish v); [discriminate|apply Get_throws]. Qed.

Lemma array_elements_throws (callee : string) (v : jsval) (e : JsError) :
  array_elements callee v = Throw e -> err_name e = "TypeError".
Proof. destruct v; cbn; try discriminate; intros [= <-]; reflexivity. Qed.

Lemma map_c_throws {A B} (f : A -> completion B) (l : list A) (e : JsError) :
  map_c f l = Throw e -> exists x, In x l /\ f x = Throw e.
Proof.
  induction l as [|x l IH]; cbn; [discriminate|]. intros H.
  apply cbind_throws in H as [H|(y & _ & H)]; [eauto|].
  apply cbind_throws in H as [H|(ys & _ & H)]; [|discriminate].
  destruct (IH H) as (x' & I & F). eauto.
Qed.

(** Peels the steps of a chain of bindings that ends in a throw. *)
Ltac thrown :=
  repeat match goal with
         | H : cbind _ _ = Throw _ |- _ =>
             apply cbind_throws in H as [H|(? & _ & H)]
         | H : Get _ _ = Throw _ |- _ => exact (Get_throws _ _ _ H)
         | H : GetOpt _ _ = Throw _ |- _ => exact (GetOpt_throws _ _ _ H)
         | H : text_or _ _ = Throw _ |- _ => exact (ToString_throws _ _ H)
         | H : ToString _ = Throw _ |- _ => exact (ToString_throws _ _ H)
         | H : array_elements _ _ = Throw _ |- _ => exact (array_elements_throws _ _ _ H)
         | H : Normal _ = Throw _ |- _ => discriminate H
         end.

Lemma render_related_throws (v : jsval) (e : JsError) :
  render_related v = Throw e -> err_name e = "TypeError".
Proof. unfold render_related. intros H. thrown. Qed.

Lemma render_row_throws (v : jsval) (e : JsError) :
  render_row v = Throw e -> err_name e = "TypeError".
Proof.
  unfold render_row. intros H. thrown.
  apply map_c_throws in H as (rel & _ & H). now apply render_related_throws in H.
Qed.

(** X13: rendering is all or nothing.  When one article of a
    successful response cannot be rendered (a [null] in the list, say),
    the rows appended before it are removed again: the table ends
    empty, the download button hidden and bound as before, and the
    status line is "Error: " followed by the message of the TypeError
    of that article. *)
Theorem rendering_is_all_or_nothing (now st : Z) (b : option BodyStream) (w : World)
    (result e : jsval) (articles : list jsval) (err : JsError) :
  Spec.accepted (district_value w) (date_value w) now = true ->
  ok_status st = true ->
  JSON_parse (Spec.received_text b) = inl result ->
  Get result "error" = Normal e -> truthy e = false ->
  Get result "articles" = Normal (JArr articles) ->
  map_c render_row articles = Throw err ->
  let w' := after (fetch_news_click now (Resolves st b)) w in
  status_text w' = ("Error: " ++ err_message err)%string
  /\ news_rows w' = []
  /\ download_display w' = "none".
Proof.
  intros A S P G T V R w'.
  assert (N : articles <> []) by (intros ->; discriminate).
  assert (Name : err_name err = "TypeError").
  { apply map_c_throws in R as (x & _ & R). now apply render_row_throws in R. }
  destruct (Get_of_value result "is_mock" (Get_only_of_value _ _ _ G)) as [m M].
  unfold w', after.
  rewrite accepted_response_is_handled, S by assumption. unfold try_catch.
  rewrite (handle_success_reaches_render _ _ _ _ _ _ _ P G T V N).
  destruct (render_result_throws _ _ _ (district_value w) (date_value w) _
              (logged "Fetch news response:" b
                 (sent (district_value w) (date_value w) w)) M R) as (w1 & ->).
  cbn. rewrite Name. repeat split.
Qed.

Lemma handle_success_not_a_list (text district date : string) (result e a : jsval)
    (w : World) :
  JSON_parse text = inl result ->
  Get result "error" = Normal e -> truthy e = false ->
  Get result "articles" = Normal a -> truthy a = true ->
  (forall l, a <> JArr l) ->
  (forall len, Get a "length" = Normal len -> strict_eq_zero len = false) ->
  exists w1,
    handle_success text district date w
    = (w1, Throw (TypeError (msg_not_function "result.articles.forEach"))).
Proof.
  intros P G T V Ta N L.
  destruct (Get_of_value result "is_mock" (Get_only_of_value _ _ _ G)) as [m M].
  destruct (Get_of_value a "length") as [len Hlen].
  { destruct a; try discriminate; reflexivity. }
  specialize (L len Hlen).
  unfold handle_success. unfold bind at 1. unfold eval at 1, JSON_parse_c. rewrite P.
  unfold bind at 1. unfold eval at 1. rewrite G, T.
  unfold bind at 1. unfold eval at 1. rewrite V, Ta. cbn [negb].
  unfold bind at 1. unfold bind at 1. unfold eval at 1. rewrite Hlen.
  unfold ret at 1. rewrite L.
  unfold render_result. unfold bind at 1. unfold eval at 1. rewrite M.
  unfold bind at 1.
  destruct (truthy m); unfold set_status at 1, modify at 1;
    unfold bind at 1; unfold clear_rows at 1, modify at 1;
    unfold bind at 1; unfold eval at 1;
    (destruct a; try discriminate; try (exfalso; eapply N; reflexivity);
     cbn; eauto).
Qed.

(** X12: a successful response whose [articles] is truthy and of
    non-zero length but not a list (an object, a string) has no
    [forEach]: the TypeError is reported as "Error: " followed by its
    message, the table is cleared and the download button hidden. *)
Theorem articles_not_a_list_is_reported (now st : Z) (b : option BodyStream) (w : World)
    (result e a : jsval) :
  Spec.accepted (district_value w) (date_value w) now = true ->
  ok_status st = true ->
  JSON_parse (Spec.received_text b) = inl result ->
  Get result "error" = Normal e -> truthy e = false ->
  Get result "articles" = Normal a -> truthy a = true ->
  (forall l, a <> JArr l) ->
  (forall len, Get a "length" = Normal len -> strict_eq_zero len = false) ->
  let w' := after (fetch_news_click now (Resolves st b)) w in
  status_text w' = ("Error: " ++ msg_not_function "result.articles.forEach")%string
  /\ news_rows w' = []
  /\ download_display w' = "none".
Proof.
  intros A S P G T V Ta N L w'. unfold w', after.
  rewrite accepted_response_is_handled, S by assumption. unfold try_catch.
  destruct (handle_success_not_a_list _ (district_value w) (date_value w) _ _ _
              (logged "Fetch news response:" b
                 (sent (district_value w) (date_value w) w)) P G T V Ta N L)
    as (w1 & ->).
  repeat split.
Qed.

(** *** The binding of the download button *)

Lemma keeps_on_throw_bind {S T A B} (obs : S -> T) (m : Stmt S A) (k : A -> Stmt S B) :
  preserves obs m -> (forall a, keeps_on_throw obs (k a)) ->
  keeps_on_throw obs (bind m k).
Proof.
  intros Hm Hk w w' e. unfold bind. specialize (Hm w).
  destruct (m w) as [w1 [a|e1]]; cbn in Hm.
  - intros E. rewrite (Hk a w1 w' e E). exact Hm.
  - intros [= <- <-]. exact Hm.
Qed.

Lemma keeps_on_throw_modify {S T} (obs : S -> T) (f : S -> S) :
  keeps_on_throw obs (modify f).
Proof. intros w w' e. discriminate. Qed.

(** The button is bound by the last statement of the rendering, so a
    rendering that throws has not bound it. *)
Lemma render_result_binds_last (result a : jsval) (district date : string) :
  keeps_on_throw download_onclick (render_result result a district date).
Proof.
  unfold render_result.
  repeat (apply keeps_on_throw_bind; [unfold add_row; frame|intros ?]).
  apply keeps_on_throw_modify.
Qed.

Lemma handle_success_binding (text district date : string) (w w1 : World)
    (c : completion unit) :
  handle_success text district date w = (w1, c) ->
  download_onclick w1 = download_onclick w \/ (c = Normal tt /\ news_rows w1 <> []).
Proof.
  destruct (JSON_parse text) as [result|msg] eqn:P.
  2: { rewrite (handle_success_malformed _ _ _ _ _ P). intros [= <- <-]. now left. }
  unfold handle_success. unfold bind at 1. unfold eval at 1, JSON_parse_c. rewrite P.
  unfold bind at 1. unfold eval at 1.
  destruct (Get result "error") as [e|err] eqn:G.
  2: { intros [= <- <-]. now left. }
  destruct (truthy e).
  { unfold bind at 1. unfold eval at 1.
    destruct (ToString e); intros [= <- <-]; now left. }
  destruct (Get_of_value result "articles" (Get_only_of_value _ _ _ G)) as [a A].
  destruct (Get_of_value result "is_mock" (Get_only_of_value _ _ _ G)) as [m M].
  unfold bind at 1. unfold eval at 1. rewrite A.
  destruct (truthy a) eqn:T; cbn [negb].
  2: { unfold bind at 1. unfold ret at 1. intros [= <- <-]. now left. }
  destruct (Get_of_value a "length") as [len L].
  { destruct a; try discriminate; reflexivity. }
  unfold bind at 1. unfold bind at 1. unfold eval at 1. rewrite L.
  unfold ret at 1.
  destruct (strict_eq_zero len) eqn:Z.
  { intros [= <- <-]. now left. }
  intros H. destruct c as [[]|err].
  2: { left. exact (render_result_binds_last _ _ _ _ _ _ _ H). }
  right. split; [reflexivity|].
  assert (D : (exists l, a = JArr l) \/ (forall l, a <> JArr l)).
  { destruct a; try (right; discriminate). left. eauto. }
  destruct D as [[articles ->]|N].
  2: { destruct (render_result_not_array _ _ district date _ w M N) as (w' & e' & E).
       rewrite E in H. discriminate. }
  destruct (map_c render_row articles) as [rows|e'] eqn:R.
  2: { destruct (render_result_throws _ _ _ district date _ w M R) as (w' & E).
       rewrite E in H. discriminate. }
  rewrite (render_result_renders _ _ _ _ _ _ _ M R) in H.
  injection H as <-. cbn.
  apply map_c_length in R.
  destruct articles; [cbn in L; injection L as <-; discriminate|].
  destruct rows; [discriminate|discriminate].
Qed.

Lemma fetch_phase_binding (district date : string) (net : FetchOutcome) (w w1 : World)
    (c : completion unit) :
  fetch_phase district date net w = (w1, c) ->
  download_onclick w1 = download_onclick w \/ (c = Normal tt /\ news_rows w1 <> []).
Proof.
  destruct net as [e|st b].
  { rewrite fetch_phase_rejects. intros [= <- <-]. now left. }
  rewrite fetch_phase_resolves.
  assert (O : download_onclick (logged "Fetch news response:" b (sent district date w))
              = download_onclick w).
  { now destruct (logged_keeps_page "Fetch news response:" b (sent district date w))
      as (_ & _ & -> & _). }
  destruct (ok_status st).
  - intros H. apply handle_success_binding in H. rewrite O in H. exact H.
  - destruct (handle_failure_throws (Spec.received_text b)
                (logged "Fetch news response:" b (sent district date w))) as [e ->].
    intros [= <- <-]. now left.
Qed.

(** X16: whenever a click leaves the table empty (a refused query with
    an empty table, any error, an empty result), the download button
    keeps the handler it had: a failed fetch hides the button but does
    not unbind the articles of the earlier result, and only a rendering
    that completes binds new ones. *)
Theorem binding_survives_failed_fetch (now : Z) (net : FetchOutcome) (w : World) :
  let w' := after (fetch_news_click now net) w in
  news_rows w' = [] -> download_onclick w' = download_onclick w.
Proof.
  intros w'. unfold w', after.
  destruct (Spec.accepted (district_value w) (date_value w) now) eqn:A.
  - rewrite accepted_query_is_fetched by assumption. unfold try_catch.
    destruct (fetch_phase (district_value w) (date_value w) net w) as [w1 c] eqn:E.
    apply fetch_phase_binding in E. destruct c as [[]|e].
    + cbn. intros R. destruct E as [E|[_ E]]; [exact E|contradiction].
    + destruct (fetch_catch_runs e w1) as (w2 & -> & _ & _ & _ & O & _).
      cbn. intros _. rewrite O. destruct E as [E|[E _]]; [exact E|discriminate].
  - destruct (refused_query_sets_status now net w A) as [msg ->]. reflexivity.
Qed.

End FetchFlowExtras.

(** ** Further properties of the PDF flow *)

Section PdfFlowExtras.
Context {engine : Engine}.

Lemma pdf_phase_rejects (closure : PdfAction) (e : JsError) (w : World) :
  pdf_phase closure (Rejects e) w = (pdf_sent closure w, Throw e).
Proof. reflexivity. Qed.

Lemma save_pdf_keeps_requests (r : Response) (district date : string) :
  preserves requests (save_pdf r district date).
Proof.
  unfold save_pdf. frame.
  intros w0; unfold click, modify; cbn; destruct (resolve_url _ _); reflexivity.
Qed.

Lemma handle_pdf_failure_keeps_requests (text : string) :
  preserves requests (handle_pdf_failure text).
Proof. unfold handle_pdf_failure. frame. Qed.

(** A click on the bound button issues exactly one request, for the
    articles, district and date of its closure. *)
Lemma download_click_sends (closure : PdfAction) (net : FetchOutcome) (w : World) :
  requests (after (download_click closure net) w)
  = (requests w ++ [pdf_request closure])%list.
Proof.
  unfold after, download_click, try_catch.
  assert (P : requests (fst (pdf_phase closure net w))
              = (requests w ++ [pdf_request closure])%list).
  { destruct net as [e|st b].
    - rewrite pdf_phase_rejects. reflexivity.
    - rewrite pdf_phase_resolves.
      destruct (ok_status st);
        [rewrite save_pdf_keeps_requests|rewrite handle_pdf_failure_keeps_requests];
        unfold logged; destruct (Spec.readable b); reflexivity. }
  destruct (pdf_phase closure net w) as [w1 [[]|e]]; cbn [fst] in *; [assumption|].
  cbn. assumption.
Qed.

(** X4: fetching and downloading compose.  After the articles of a
    successful response have been rendered, a click on the download
    button posts to /generate_pdf exactly the article list of that
    response, as received, with the district and the date of the query
    that fetched it, under a timeout of 15 seconds, whatever the
    network does with the request. *)
Theorem download_sends_rendered_articles (now st : Z) (b : option BodyStream)
    (w : World) (result e : jsval) (articles : list jsval) (rows : list string)
    (net : FetchOutcome) :
  Spec.accepted (district_value w) (date_value w) now = true ->
  ok_status st = true ->
  JSON_parse (Spec.received_text b) = inl result ->
  Get result "error" = Normal e -> truthy e = false ->
  Get result "articles" = Normal (JArr articles) -> articles <> [] ->
  map_c render_row articles = Normal rows ->
  let w1 := after (fetch_news_click now (Resolves st b)) w in
  requests (after (click_download net) w1)
  = (requests w1
     ++ [mkRequest "/generate_pdf" "POST" [("Content-Type", "application/json")]
           (JObj [("articles", JArr articles);
                  ("district", JStr (district_value w));
                  ("date", JStr (date_value w))]) (Some 15000)])%list.
Proof.
  intros A S P G T V N R w1.
  assert (O : download_onclick w1
              = Some (mkPdfAction (JArr articles) (district_value w) (date_value w))).
  { unfold w1, after.
    rewrite accepted_response_is_handled, S by assumption. unfold try_catch.
    destruct (handle_success_renders _ (district_value w) (date_value w) _ _ _ _
                (logged "Fetch news response:" b
                   (sent (district_value w) (date_value w) w)) P G T V N R)
      as (w2 & -> & _ & _ & O).
    exact O. }
  unfold after at 1, click_download. rewrite O.
  apply (download_click_sends
           (mkPdfAction (JArr articles) (district_value w) (date_value w)) net w1).
Qed.

(** X7: when the request of the PDF flow fails in the network, the
    status line is the message of the error as it is, for a timeout
    too (this flow has no message of its own for it); the table, the
    download button and its binding are as before, nothing is
    downloaded, and the one request has gone out. *)
Theorem pdf_transport_failure_is_reported (closure : PdfAction) (e : JsError)
    (w : World) :
  let w' := after (download_click closure (Rejects e)) w in
  status_text w' = err_message e
  /\ news_rows w' = news_rows w
  /\ download_display w' = download_display w
  /\ download_onclick w' = download_onclick w
  /\ downloads w' = downloads w
  /\ requests w' = (requests w ++ [pdf_request closure])%list.
Proof.
  intros w'. unfold w', after, download_click, try_catch.
  rewrite pdf_phase_rejects. repeat split.
Qed.

End PdfFlowExtras.

(** ** The two flows on an error that cannot be printed *)

Section UnprintableError.
Context {engine : Engine}.

(** X17: the two flows differ on a failure body whose [error] is truthy
    but cannot be converted to a string (an object with a [toString]
    entry).  The PDF flow converts it inside its inner [try] and falls
    back to the generic "Failed to generate PDF. Please try again
    later."; the fetch flow converts it when it builds the Error, after
    the inner [try], and reports "Error: " followed by the message of
    the TypeError of the conversion. *)
Theorem unprintable_error_in_both_flows (now st : Z) (b : option BodyStream)
    (w : World) (closure : PdfAction) (v e : jsval) (err : JsError) :
  Spec.accepted (district_value w) (date_value w) now = true ->
  ok_status st = false ->
  JSON_parse (Spec.received_text b) = inl v ->
  Get v "error" = Normal e -> truthy e = true -> ToString e = Throw err ->
  status_text (after (download_click closure (Resolves st b)) w)
  = "Failed to generate PDF. Please try again later."
  /\ status_text (after (fetch_news_click now (Resolves st b)) w)
     = ("Error: " ++ err_message err)%string.
Proof.
  intros A S P G T C. split.
  - unfold after, download_click, try_catch.
    rewrite pdf_phase_resolves, S.
    unfold handle_pdf_failure, bind, try_catch, eval, ret, throw, JSON_parse_c.
    rewrite P. cbn. rewrite G. cbn. rewrite T, C. reflexivity.
  - unfold after.
    rewrite accepted_response_is_handled, S by assumption. unfold try_catch.
    unfold handle_failure, bind, try_catch, eval, ret, throw, JSON_parse_c.
    rewrite P. cbn. rewrite G. cbn. rewrite T, C. cbn.
    rewrite (ToString_throws _ _ C). reflexivity.
Qed.

End UnprintableError.

(** ** Further properties of the login flow *)

Section LoginFlowExtras.
Context {engine : Engine}.

Lemma login_submit_completes (net : FetchOutcome) (p : Login.Page) :
  snd (Login.submit net p) = Normal tt.
Proof.
  unfold Login.submit.
  unfold bind at 1. unfold Login.preventDefault at 1, modify at 1.
  unfold bind at 1. unfold gets at 1.
  unfold bind at 1. unfold gets at 1.
  unfold try_catch.
  match goal with
  | |- snd (let (_, _) := ?m in _) = _ => destruct m as [p1 [[]|e]]
  end; reflexivity.
Qed.

(** X6: no handler lets an exception escape.  Whatever the inputs, the
    clock and the network do, the fetch handler, the download handler
    and the login handler return normally: every error thrown on the
    way is caught and turned into text on the page. *)
Theorem handlers_never_throw (now : Z) (net : FetchOutcome) (w : World)
    (closure : PdfAction) (p : Login.Page) :
  snd (fetch_news_click now net w) = Normal tt
  /\ snd (download_click closure net w) = Normal tt
  /\ snd (click_download net w) = Normal tt
  /\ snd (Login.submit net p) = Normal tt.
Proof.
  split; [apply fetch_news_click_completes|].
  split; [apply download_click_completes|].
  split; [|apply login_submit_completes].
  unfold click_download. destruct (download_onclick w); [|reflexivity].
  apply download_click_completes.
Qed.

(** X14: every submission prevents the default navigation of the form
    and issues exactly one POST to /login that carries the user name
    and the password as typed, with no timeout; the two input fields
    are left as they are, whatever the response. *)
Theorem login_always_sends_credentials (net : FetchOutcome) (p : Login.Page) :
  let p' := after (Login.submit net) p in
  Login.sent p'
  = (Login.sent p
     ++ [mkRequest "/login" "POST" [("Content-Type", "application/json")]
           (JObj [("username", JStr (Login.username_value p));
                  ("password", JStr (Login.password_value p))]) None])%list
  /\ Login.default_prevented p' = true
  /\ Login.username_value p' = Login.username_value p
  /\ Login.password_value p' = Login.password_value p.
Proof.
  intros p'.
  assert (E : exists p1,
             Login.submit net p = (p1, Normal tt)
             /\ Login.sent p1
                = (Login.sent p ++ [login_request (Login.username_value p)
                                      (Login.password_value p)])%list
             /\ Login.default_prevented p1 = true
             /\ Login.username_value p1 = Login.username_value p
             /\ Login.password_value p1 = Login.password_value p).
  { unfold Login.submit.
    unfold bind at 1. unfold Login.preventDefault at 1, modify at 1.
    unfold bind at 1. unfold gets at 1.
    unfold bind at 1. unfold gets at 1.
    unfold try_catch.
    unfold bind at 1. unfold Login.fetch_login at 1.
    destruct net as [e|st b].
    - eexists. split; [reflexivity|]. repeat split.
    - cbn [Login.username_value Login.password_value Login.error_text
             Login.location_href Login.default_prevented Login.sent].
      match goal with
      | |- context [let (_, _) := ?rest ?p0 in _] =>
          assert (F1 : preserves Login.sent rest)
            by (unfold Login.navigate, Login.set_error_text; frame);
          assert (F2 : preserves Login.default_prevented rest)
            by (unfold Login.navigate, Login.set_error_text; frame);
          assert (F3 : preserves Login.username_value rest)
            by (unfold Login.navigate, Login.set_error_text; frame);
          assert (F4 : preserves Login.password_value rest)
            by (unfold Login.navigate, Login.set_error_text; frame);
          specialize (F1 p0); specialize (F2 p0); specialize (F3 p0);
          specialize (F4 p0);
          destruct (rest p0) as [p2 [[]|e]]
      end; cbn in F1, F2, F3, F4; eexists; (split; [reflexivity|]);
        cbn; rewrite ?F1, ?F2, ?F3, ?F4; repeat split. }
  destruct E as (p1 & E & H). unfold p', after. rewrite E. exact H.
Qed.

(** X15: a login response whose body parses to [null] has no [success]
    to read: the TypeError is caught, "An error occurred" is displayed
    and the page does not navigate. *)
Theorem login_null_result_is_an_error (st : Z) (b : option BodyStream) (text : string)
    (result : jsval) (p : Login.Page) :
  Spec.readable b = Some text ->
  JSON_parse text = inl result ->
  nullish result = true ->
  let p' := after (Login.submit (Resolves st b)) p in
  Login.error_text p' = "An error occurred"
  /\ Login.location_href p' = Login.location_href p.
Proof.
  intros B P N p'.
  assert (E : exists p1,
             Login.submit (Resolves st b) p = (p1, Normal tt)
             /\ Login.error_text p1 = "An error occurred"
             /\ Login.location_href p1 = Login.location_href p).
  { unfold Login.submit.
    unfold bind at 1. unfold Login.preventDefault at 1, modify at 1.
    unfold bind at 1. unfold gets at 1.
    unfold bind at 1. unfold gets at 1.
    unfold try_catch.
    unfold bind at 1. unfold Login.fetch_login at 1.
    pose proof (login_body_read st b text B) as J.
    destruct (Response_json _) as [parsed r]. cbn [fst] in J. subst parsed.
    unfold bind at 1. unfold eval at 1, JSON_parse_c. rewrite P.
    unfold bind at 1. unfold eval at 1.
    destruct result; try discriminate; cbn [Get];
      (eexists; split; [reflexivity|]; split; reflexivity). }
  destruct E as (p1 & E & H). unfold p', after. rewrite E. exact H.
Qed.

End LoginFlowExtras.


(** ** The handlers on the reference engine *)

#[local] Existing Instance Reference.engine.

Lemma future_date_check_witness :
  let w := sample_page "Pune" "2024-01-15" in
  let w' := after (fetch_news_click noon_2024_01_15_ist offline) w in
  district_value w <> ""
  /\ Spec.has_date_format (date_value w) = true
  /\ Spec.in_the_future "2024-01-15" noon_2024_01_15_ist
  /\ w' = set_status_text "Date cannot be in the future" w
  /\ requests w' = requests w
  /\ exists start,
       Spec.ist_instant "2024-01-15" 0 0 0 = Some start
       /\ start <= noon_2024_01_15_ist < start + JsDate.msPerDay
       /\ (Spec.in_the_future "2024-01-15" noon_2024_01_15_ist
           <-> noon_2024_01_15_ist < start + 86399000).
Proof.
  intros w w'.
  assert (D : district_value w <> "") by discriminate.
  assert (F : Spec.has_date_format (date_value w) = true) by reflexivity.
  assert (L : Spec.in_the_future "2024-01-15" noon_2024_01_15_ist).
  { exists 1705343399000. split; [reflexivity|]. unfold noon_2024_01_15_ist. lia. }
  destruct (future_date_check noon_2024_01_15_ist offline w D F)
    as (Refused & Silent & _ & Today).
  split; [exact D|]. split; [exact F|]. split; [exact L|].
  split; [apply Refused; exact L|].
  split; [apply Silent; exact L|].
  apply Today. reflexivity.
Defined.

Lemma current_date_is_refused_witness :
  let w := sample_page "Pune" "2024-01-15" in
  let w' := after (fetch_news_click noon_2024_01_15_ist
                     (Resolves 200 (Some (BodyText sample_article_body)))) w in
  Spec.ist_instant "2024-01-15" 12 0 0 = Some noon_2024_01_15_ist
  /\ Spec.is_today_ist (date_value w) noon_2024_01_15_ist = true
  /\ w' = set_status_text "Date cannot be in the future" w
  /\ status_text w' = "Date cannot be in the future"
  /\ requests w' = requests w.
Proof.
  intros w.
  split; [reflexivity|].
  apply (current_date_is_refused noon_2024_01_15_ist 1705257000000
           (Resolves 200 (Some (BodyText sample_article_body))) w).
  - discriminate.
  - reflexivity.
  - reflexivity.
  - unfold noon_2024_01_15_ist. lia.
Defined.

Lemma failure_status_shows_server_error_witness :
  let w := sample_page "Pune" "2024-01-15" in
  let w' := after (fetch_news_click noon_2024_01_16_ist
                     (Resolves 429 (Some (BodyText sample_error_body)))) w in
  status_text w' = ("Error: " ++ "rate limited")%string
  /\ news_rows w' = [] /\ download_display w' = "none".
Proof.
  intros w.
  apply (failure_status_shows_server_error noon_2024_01_16_ist 429
           (Some (BodyText sample_error_body)) w
           (JObj [("error", JStr "rate limited")]) "rate limited").
  - reflexivity.
  - reflexivity.
  - reflexivity.
  - reflexivity.
  - discriminate.
Defined.

(** The status line for the body {"error":"rate limited"} of a 429
    response is not that text as it stands. *)
Lemma server_error_is_not_shown_verbatim :
  let w := sample_page "Pune" "2024-01-15" in
  let w' := after (fetch_news_click noon_2024_01_16_ist
                     (Resolves 429 (Some (BodyText sample_error_body)))) w in
  JSON_parse sample_error_body = inl (JObj [("error", JStr "rate limited")])
  /\ status_text w' = "Error: rate limited"
  /\ status_text w' <> "rate limited".
Proof. vm_compute. repeat split. discriminate. Qed.

(** A click with no district selected leaves the row of the earlier
    result in the table. *)
Lemma refused_query_keeps_earlier_rows :
  let w := page_with_results "" "2024-01-15" in
  let w' := after (fetch_news_click noon_2024_01_16_ist offline) w in
  status_text w' = "Please select a district"
  /\ news_rows w = ["<td>earlier</td>"]
  /\ news_rows w' = ["<td>earlier</td>"]
  /\ news_rows w' <> []
  /\ download_display w' = "block".
Proof. vm_compute. repeat split. discriminate. Qed.

Lemma rows_after_click_witness :
  let w := page_with_results "Pune" "2024-01-15" in
  let w' := after (fetch_news_click noon_2024_01_16_ist
                     (Resolves 200 (Some (BodyText sample_article_body)))) w in
  let value := JObj [("title", JStr "A"); ("url", JStr "http://x");
                     ("category", JStr "Sports");
                     ("source", JObj [("name", JStr "S")]);
                     ("publishedAt", JStr "2024-01-01");
                     ("related_articles", JArr [])] in
  let article := Spec.mkArticle (Some "A") (Some "http://x") (Some "Sports") (Some "S")
                   (Some "2024-01-01") [] in
  news_rows w = ["<td>earlier</td>"]
  /\ (news_rows (after (fetch_news_click noon_2024_01_16_ist offline) w) = []
      /\ download_display (after (fetch_news_click noon_2024_01_16_ist offline) w) = "none")
  /\ news_rows w' = [Spec.row article]
  /\ List.length (news_rows w') = 1%nat
  /\ download_display w' = "block"
  /\ download_onclick w' = Some (mkPdfAction (JArr [value]) "Pune" "2024-01-15").
Proof.
  intros w w' value article.
  split; [reflexivity|].
  split.
  { apply (proj2 (proj2 (rows_after_click noon_2024_01_16_ist offline w)));
      [reflexivity|].
    intros articles rows (st & b & result & e & N & _). discriminate. }
  assert (A : Spec.accepted (district_value w) (date_value w) noon_2024_01_16_ist = true)
    by reflexivity.
  assert (R : rendered (Resolves 200 (Some (BodyText sample_article_body)))
                [value] [Spec.row article]).
  { exists 200, (Some (BodyText sample_article_body)),
      (JObj [("articles", JArr [value]); ("is_mock", JBool false)]), JUndefined.
    repeat split; try reflexivity. discriminate. }
  exact (proj1 (proj2 (rows_after_click noon_2024_01_16_ist
                         (Resolves 200 (Some (BodyText sample_article_body))) w))
           A [value] [Spec.row article] R).
Defined.

Lemma validation_first_failure_wins_witness :
  let w := sample_page "Pune" "15-01-2024" in
  let run := fetch_news_click noon_2024_01_16_ist offline in
  Spec.validation_failure "Pune" "15-01-2024" "Invalid date format (use YYYY-MM-DD)"
  /\ status_text (after run w) = "Invalid date format (use YYYY-MM-DD)"
  /\ requests (after run w) = requests w.
Proof.
  intros w run.
  assert (V : Spec.validation_failure (district_value w) (date_value w)
                "Invalid date format (use YYYY-MM-DD)").
  { apply Spec.BadFormat; [discriminate|discriminate|reflexivity]. }
  split; [exact V|].
  exact (proj2 (validation_first_failure_wins noon_2024_01_16_ist offline w _ V)).
Defined.





Lemma malformed_success_body_is_reported_witness :
  let run := fetch_news_click noon_2024_01_16_ist
               (Resolves 200 (Some (BodyText "<html>Bad Gateway</html>")))
               (page_with_results "Pune" "2024-01-15") in
  snd run = Normal tt
  /\ status_text (fst run) = ("Error: " ++ "Unexpected token in JSON")%string
  /\ news_rows (fst run) = []
  /\ download_display (fst run) = "none".
Proof.
  exact (proj2 (malformed_success_body_is_reported noon_2024_01_16_ist 200
                  (Some (BodyText "<html>Bad Gateway</html>"))
                  (page_with_results "Pune" "2024-01-15")
                  "Unexpected token in JSON" eq_refl eq_refl eq_refl)).
Defined.

(** A truthy error that cannot be written as a string is answered
    with the generic text, not with "PDF generation failed: ". *)
Lemma unprintable_pdf_error_is_generic :
  let w := page_with_results "Pune" "2024-01-15" in
  let w' := after (download_click sample_closure
                     (Resolves 500 (Some (BodyText sample_unprintable_error_body)))) w in
  ok_status 500 = false
  /\ (exists v e,
        JSON_parse sample_unprintable_error_body = inl v
        /\ Get v "error" = Normal e /\ truthy e = true)
  /\ status_text w' = "Failed to generate PDF. Please try again later."
  /\ String.prefix "PDF generation failed: " (status_text w') = false.
Proof.
  intros w w'. split; [reflexivity|]. split.
  - exists (JObj [("error", JObj [("toString", JNum (num_of_nat 1))])]),
      (JObj [("toString", JNum (num_of_nat 1))]).
    repeat split; reflexivity.
  - split; reflexivity.
Qed.

Lemma pdf_failure_is_reported_witness :
  let w := page_with_results "Pune" "2024-01-15" in
  let w' := after (download_click sample_closure
                     (Resolves 400 (Some (BodyText sample_pdf_error_body)))) w in
  status_text w' = ("PDF generation failed: " ++ "bad input")%string
  /\ news_rows w' = news_rows w
  /\ download_display w' = download_display w
  /\ download_onclick w' = download_onclick w
  /\ downloads w' = downloads w.
Proof.
  intros w.
  apply (pdf_failure_is_reported sample_closure 400
           (Some (BodyText sample_pdf_error_body)) w).
  - reflexivity.
  - apply (Spec.PdfError _ (JObj [("error", JStr "bad input")]) (JStr "bad input"));
      reflexivity.
Defined.

Lemma pdf_with_body_is_not_saved_witness :
  let w := page_with_results "Pune" "2024-01-15" in
  let w' := after (download_click sample_closure
                     (Resolves 200 (Some (BodyText "%PDF-1.7")))) w in
  status_text w' = "Failed to execute 'blob' on 'Response': body stream already read"
  /\ downloads w' = downloads w
  /\ body_children w' = body_children w
  /\ object_urls w' = object_urls w
  /\ minted w' = minted w.
Proof.
  intros w.
  exact (pdf_with_body_is_not_saved sample_closure 200 (BodyText "%PDF-1.7") w eq_refl).
Defined.

(** A message that is present and empty is replaced by "Login failed",
    and one that cannot be written as a string by "An error
    occurred". *)
Lemma empty_login_message_is_replaced :
  let submit body := after (Login.submit (Resolves 401 (Some (BodyText body))))
                       sample_login_page in
  JSON_parse sample_empty_message_body
  = inl (JObj [("success", JBool false); ("message", JStr "")])
  /\ Get (JObj [("success", JBool false); ("message", JStr "")]) "message"
     = Normal (JStr "")
  /\ Login.error_text (submit sample_empty_message_body) = "Login failed"
  /\ Login.error_text (submit sample_empty_message_body) <> ""
  /\ (exists result message,
        JSON_parse sample_unprintable_message_body = inl result
        /\ Get result "message" = Normal message /\ truthy message = true)
  /\ Login.error_text (submit sample_unprintable_message_body) = "An error occurred".
Proof.
  intros submit.
  split; [reflexivity|]. split; [reflexivity|]. split; [reflexivity|].
  split; [vm_compute; discriminate|]. split; [|reflexivity].
  exists (JObj [("success", JBool false); ("message", JObj [("toString", JNum (num_of_nat 1))])]),
    (JObj [("toString", JNum (num_of_nat 1))]).
  repeat split; reflexivity.
Qed.

Lemma login_submission_witness :
  let run := Login.submit (Resolves 401 (Some (BodyText sample_login_failure_body))) in
  snd (run sample_login_page) = Normal tt
  /\ Login.error_text (after run sample_login_page) = "bad creds"
  /\ Login.location_href (after run sample_login_page) = "/login".
Proof.
  apply (login_submission (Resolves 401 (Some (BodyText sample_login_failure_body)))
           sample_login_page (Spec.Displays "bad creds")).
  apply (Spec.LoginMessage 401 (Some (BodyText sample_login_failure_body))
           sample_login_failure_body
           (JObj [("success", JBool false); ("message", JStr "bad creds")])
           (JBool false) (JStr "bad creds") "bad creds"); reflexivity.
Defined.

(** The remaining examples of the specification. *)

Example login_success_navigates :
  Login.location_href
    (after (Login.submit (Resolves 200 (Some (BodyText ("{" ++ q "success" ++ ":true}")))))
       sample_login_page)
  = "/dashboard".
Proof. reflexivity. Qed.

Example login_network_failure :
  Login.error_text (after (Login.submit offline) sample_login_page) = "An error occurred".
Proof. reflexivity. Qed.

Example empty_result_is_reported :
  let w' := after (fetch_news_click noon_2024_01_16_ist
                     (Resolves 200 (Some (BodyText
                        ("{" ++ q "articles" ++ ":[]," ++ q "is_mock" ++ ":false}")))))
              (page_with_results "Pune" "2024-01-15") in
  status_text w' = "No articles found for the selected district and date."
  /\ news_rows w' = [] /\ download_display w' = "none".
Proof. vm_compute. repeat split. Qed.

Example mock_result_names_the_district :
  status_text (after (fetch_news_click noon_2024_01_16_ist
                        (Resolves 200 (Some (BodyText sample_mock_body))))
                 (sample_page "Pune" "2024-01-15"))
  = msg_mock "Pune".
Proof. vm_compute. reflexivity. Qed.

Example impossible_date_is_fetched :
  requests (after (fetch_news_click noon_2024_01_16_ist offline)
              (sample_page "Pune" "2024-13-45"))
  = [Spec.news_request "Pune" "2024-13-45"].
Proof. reflexivity. Qed.

Example timeout_is_reported :
  status_text (after (fetch_news_click noon_2024_01_16_ist
                        (Rejects (mkError "TimeoutError" "The operation timed out.")))
                 (sample_page "Pune" "2024-01-15"))
  = msg_timeout.
Proof. vm_compute. reflexivity. Qed.

(** The further properties on the reference engine. *)

Lemma transport_failure_is_reported_witness :
  let w := page_with_results "Pune" "2024-01-15" in
  let w' := after (fetch_news_click noon_2024_01_16_ist
                     (Rejects (mkError "TimeoutError" "signal timed out"))) w in
  status_text w' = msg_timeout
  /\ news_rows w' = []
  /\ download_display w' = "none"
  /\ download_onclick w' = download_onclick w
  /\ requests w' = (requests w ++ [Spec.news_request "Pune" "2024-01-15"])%list.
Proof.
  intros w.
  exact (transport_failure_is_reported noon_2024_01_16_ist
           (mkError "TimeoutError" "signal timed out") w eq_refl).
Defined.

Lemma failure_status_falls_back_witness :
  let w := page_with_results "Pune" "2024-01-15" in
  let w' := after (fetch_news_click noon_2024_01_16_ist
                     (Resolves 502 (Some (BodyText "<html>Bad Gateway</html>")))) w in
  status_text w' = "Error: Failed to fetch news. Please try again later."
  /\ news_rows w' = [] /\ download_display w' = "none".
Proof.
  intros w.
  apply (failure_status_falls_back noon_2024_01_16_ist 502
           (Some (BodyText "<html>Bad Gateway</html>")) w).
  - reflexivity.
  - reflexivity.
  - apply (NotJson _ "Unexpected token in JSON"). reflexivity.
Defined.

Lemma status_after_render_witness :
  status_text (after (fetch_news_click noon_2024_01_16_ist
                        (Resolves 200 (Some (BodyText sample_mock_body))))
                 (sample_page "Pune" "2024-01-15"))
  = (if truthy (JBool true)
     then ("No real articles found for " ++ "Pune"
           ++ ". Displaying sample data. Please verify your Currents API key in .env (get a free key at https://currentsapi.services/en).")%string
     else "Articles loaded successfully.").
Proof.
  apply (status_after_render noon_2024_01_16_ist 200
           (Some (BodyText sample_mock_body)) (sample_page "Pune" "2024-01-15")
           (JObj [("articles", JArr [JObj [("title", JStr "Sample")]]);
                  ("is_mock", JBool true)])
           JUndefined (JBool true) [JObj [("title", JStr "Sample")]]
           [Spec.row (Spec.mkArticle (Some "Sample") None None None None [])]).
  - reflexivity.
  - reflexivity.
  - reflexivity.
  - reflexivity.
  - reflexivity.
  - reflexivity.
  - discriminate.
  - reflexivity.
  - reflexivity.
Defined.

Lemma download_sends_rendered_articles_witness :
  let w := sample_page "Pune" "2024-01-15" in
  let w1 := after (fetch_news_click noon_2024_01_16_ist
                     (Resolves 200 (Some (BodyText sample_mock_body)))) w in
  requests (after (click_download offline) w1)
  = (requests w1
     ++ [mkRequest "/generate_pdf" "POST" [("Content-Type", "application/json")]
           (JObj [("articles", JArr [JObj [("title", JStr "Sample")]]);
                  ("district", JStr "Pune"); ("date", JStr "2024-01-15")])
           (Some 15000)])%list.
Proof.
  intros w.
  apply (download_sends_rendered_articles noon_2024_01_16_ist 200
           (Some (BodyText sample_mock_body)) w
           (JObj [("articles", JArr [JObj [("title", JStr "Sample")]]);
                  ("is_mock", JBool true)])
           JUndefined [JObj [("title", JStr "Sample")]]
           [Spec.row (Spec.mkArticle (Some "Sample") None None None None [])] offline).
  - reflexivity.
  - reflexivity.
  - reflexivity.
  - reflexivity.
  - reflexivity.
  - reflexivity.
  - discriminate.
  - reflexivity.
Defined.

Lemma pdf_of_null_body_is_saved_witness :
  let w := page_with_results "Pune" "2024-01-15" in
  let w' := after (download_click sample_closure (Resolves 200 None)) w in
  status_text w' = "PDF downloaded successfully"
  /\ downloads w' = (downloads w ++ [(digest_name sample_closure, mkBlob "")])%list
  /\ body_children w' = body_children w
  /\ object_urls w' = object_urls w
  /\ news_rows w' = news_rows w.
Proof.
  intros w.
  apply (pdf_of_null_body_is_saved sample_closure 200 w).
  - reflexivity.
  - apply Forall_nil.
Defined.

Lemma session_shows_bound_articles_witness :
  shows_bound_articles (session sample_session (sample_page "Pune" "2024-01-15")).
Proof.
  apply session_shows_bound_articles. left. reflexivity.
Defined.

Lemma impossible_date_passes_the_check_witness :
  let w := sample_page "Pune" "2024-13-45" in
  requests (after (fetch_news_click noon_2024_01_16_ist offline) w)
  = (requests w ++ [Spec.news_request "Pune" "2024-13-45"])%list.
Proof.
  intros w.
  apply (impossible_date_passes_the_check noon_2024_01_16_ist offline w).
  - discriminate.
  - reflexivity.
  - reflexivity.
Defined.

Lemma later_click_is_not_refused_witness :
  let w := sample_page "Pune" "2024-01-15" in
  requests (after (fetch_news_click (noon_2024_01_16_ist + 1000)
                     (Resolves 200 (Some (BodyText sample_article_body)))) w)
  = (requests w ++ [Spec.news_request "Pune" "2024-01-15"])%list.
Proof.
  intros w.
  apply (later_click_is_not_refused noon_2024_01_16_ist (noon_2024_01_16_ist + 1000)
           offline (Resolves 200 (Some (BodyText sample_article_body))) w).
  - discriminate.
  - unfold noon_2024_01_16_ist. lia.
Defined.

Lemma articles_not_a_list_is_reported_witness :
  let w := page_with_results "Pune" "2024-01-15" in
  let w' := after (fetch_news_click noon_2024_01_16_ist
                     (Resolves 200 (Some (BodyText sample_text_articles_body)))) w in
  status_text w' = ("Error: " ++ "result.articles.forEach is not a function")%string
  /\ news_rows w' = []
  /\ download_display w' = "none".
Proof.
  intros w.
  change "result.articles.forEach is not a function"
    with (msg_not_function "result.articles.forEach").
  apply (articles_not_a_list_is_reported noon_2024_01_16_ist 200
           (Some (BodyText sample_text_articles_body)) w
           (JObj [("articles", JStr "none today")]) JUndefined (JStr "none today")).
  - reflexivity.
  - reflexivity.
  - reflexivity.
  - reflexivity.
  - reflexivity.
  - reflexivity.
  - reflexivity.
  - discriminate.
  - intros len [= <-]. reflexivity.
Defined.

Lemma rendering_is_all_or_nothing_witness :
  let w := page_with_results "Pune" "2024-01-15" in
  let w' := after (fetch_news_click noon_2024_01_16_ist
                     (Resolves 200 (Some (BodyText sample_broken_list_body)))) w in
  status_text w'
  = ("Error: " ++ "Cannot read properties of null (reading 'source')")%string
  /\ news_rows w' = []
  /\ download_display w' = "none".
Proof.
  intros w.
  apply (rendering_is_all_or_nothing noon_2024_01_16_ist 200
           (Some (BodyText sample_broken_list_body)) w
           (JObj [("articles", JArr [JObj [("title", JStr "A")]; JNull])])
           JUndefined [JObj [("title", JStr "A")]; JNull]
           (TypeError "Cannot read properties of null (reading 'source')")).
  - reflexivity.
  - reflexivity.
  - reflexivity.
  - reflexivity.
  - reflexivity.
  - reflexivity.
  - reflexivity.
Defined.

Lemma binding_survives_failed_fetch_witness :
  let w := page_with_results "Pune" "2024-01-15" in
  let w' := after (fetch_news_click noon_2024_01_16_ist offline) w in
  news_rows w' = []
  /\ download_display w' = "none"
  /\ download_onclick w' = Some (mkPdfAction (JArr [JObj []]) "Pune" "2024-01-14").
Proof.
  intros w. split; [reflexivity|]. split; [reflexivity|].
  exact (binding_survives_failed_fetch noon_2024_01_16_ist offline w eq_refl).
Defined.

Lemma unprintable_error_in_both_flows_witness :
  let w := page_with_results "Pune" "2024-01-15" in
  let net := Resolves 500 (Some (BodyText sample_unprintable_error_body)) in
  status_text (after (download_click sample_closure net) w)
  = "Failed to generate PDF. Please try again later."
  /\ status_text (after (fetch_news_click noon_2024_01_16_ist net) w)
     = ("Error: " ++ "Cannot convert object to primitive value")%string.
Proof.
  intros w net.
  apply (unprintable_error_in_both_flows noon_2024_01_16_ist 500
           (Some (BodyText sample_unprintable_error_body)) w sample_closure
           (JObj [("error", JObj [("toString", JNum (S754_finite false 1 0))])])
           (JObj [("toString", JNum (S754_finite false 1 0))])
           (TypeError "Cannot convert object to primitive value")).
  - reflexivity.
  - reflexivity.
  - reflexivity.
  - reflexivity.
  - reflexivity.
  - reflexivity.
Defined.

Lemma login_null_result_is_an_error_witness :
  let p' := after (Login.submit (Resolves 200 (Some (BodyText "null")))) sample_login_page in
  Login.error_text p' = "An error occurred"
  /\ Login.location_href p' = Login.location_href sample_login_page.
Proof.
  apply (login_null_result_is_an_error 200 (Some (BodyText "null")) "null" JNull
           sample_login_page); reflexivity.
Defined.
